(** * scanpy/get.py: accessors over an annotated data matrix

    A shallow embedding of [rank_genes_groups_df], [obs_df], [var_df],
    [_get_obs_rep] and [_set_obs_rep], together with the part of numpy and
    pandas these functions go through (label lookup, positional indexing,
    [np.unique], [np.argsort], column selection and assignment).

    Python exceptions are values of [exn]; a computation that can raise has
    type [result A].  Matrix entries are kept abstract ([num]): the accessors
    only move them around. *)

From Stdlib Require Import ZArith String Ascii List Lia Bool OrderedTypeEx.
From stdpp Require Import base option list strings gmap sorting pretty.

Local Open Scope string_scope.
Local Open Scope list_scope.
Local Open Scope nat_scope.

(** ** Python values, exceptions, and the error monad *)

(** The values the keyword argument [use_raw] is called with. *)
Inductive pyval :=
| PyNone
| PyBool (b : bool)
| PyInt (z : Z)
| PyStr (s : string).

(** [isinstance(v, bool)] *)
Definition isinstance_bool (v : pyval) : bool :=
  match v with PyBool _ => true | _ => false end.

(** [v is not False] *)
Definition is_not_False (v : pyval) : bool :=
  match v with PyBool false => false | _ => true end.

(** Truth value of [v] in an [if]/[elif] test. *)
Definition truthy (v : pyval) : bool :=
  match v with
  | PyNone => false
  | PyBool b => b
  | PyInt z => negb (z =? 0)%Z
  | PyStr s => negb (String.eqb s "")
  end.

(** The exceptions of the module, with the data their messages are built
    from, and those of the containers it reads. *)
Inductive exn :=
| TypeError_use_raw (given : pyval)
    (* use_raw expected to be bool, was {type(use_raw)}. *)
| AssertionError (msg : string)
| AttributeError (attr : string)
    (* attribute access on None, e.g. adata.raw.X when adata.raw is None *)
| KeyError (label : string)
    (* a missing dict key or table label *)
| IndexError
| InvalidIndexError
    (* get_indexer on an index with repeated labels *)
| ValueError (msg : string)
| ValueError_duplicated_columns (dup_obs : list string)
    (* adata.obs contains duplicated columns. ... Duplicated columns {dup_obs} *)
| ValueError_duplicated_var_names
    (* adata.var contains duplicated var names ... *)
| KeyError_both (key : string)
    (* The key `{key}` is found in both adata.obs and adata.var_names. *)
| KeyError_duplicate_symbol (key gene_symbols : string)
    (* Found duplicate entries for '{key}' in adata.var['{gene_symbols}']. *)
| KeyError_not_found (not_found : list string) (gene_error : string).
    (* Could not find keys '{not_found}' in columns of `adata.obs` or in
       {gene_error}. *)

(** The keys, labels and column names the message of an exception
    spells out. *)
Definition exn_names (e : exn) : list string :=
  match e with
  | KeyError label => [label]
  | ValueError_duplicated_columns dup_obs => dup_obs
  | KeyError_both key => [key]
  | KeyError_duplicate_symbol key gene_symbols => [key; gene_symbols]
  | KeyError_not_found not_found _ => not_found
  | _ => []
  end.

(** The exceptions of the uniqueness and ambiguity checks. *)
Definition is_check_error (e : exn) : bool :=
  match e with
  | ValueError_duplicated_columns _ | ValueError_duplicated_var_names
  | KeyError_both _ | KeyError_duplicate_symbol _ _ => true
  | _ => false
  end.

Inductive result (A : Type) :=
| Ok (a : A)
| Raise (e : exn).
Arguments Ok {A} a.
Arguments Raise {A} e.

Definition bind {A B} (r : result A) (k : A → result B) : result B :=
  match r with
  | Ok a => k a
  | Raise e => Raise e
  end.

Notation "x <- r ; k" := (bind r (λ x, k))
  (at level 20, r at level 100, k at level 200, only parsing).

(** [for x in l: acc = f(acc, x)], stopping at the first exception. *)
Fixpoint foldM {A B} (f : A → B → result A) (acc : A) (l : list B) : result A :=
  match l with
  | [] => Ok acc
  | x :: l' => acc' <- f acc x; foldM f acc' l'
  end.

(** [[f(x) for x in l]], stopping at the first exception. *)
Fixpoint mapM_result {A B} (f : A → result B) (l : list A) : result (list B) :=
  match l with
  | [] => Ok []
  | x :: l' => y <- f x; ys <- mapM_result f l'; Ok (y :: ys)
  end.

(** [d[k]] on a dict. *)
Definition dict_getitem {V} (d : gmap string V) (k : string) : result V :=
  match d !! k with
  | Some v => Ok v
  | None => Raise (KeyError k)
  end.

(** [assert c, msg] *)
Definition py_assert (c : bool) (msg : string) : result unit :=
  if c then Ok tt else Raise (AssertionError msg).

(** [sum(flags)] on a tuple of booleans. *)
Fixpoint sum_bools (flags : list bool) : nat :=
  match flags with
  | [] => 0
  | b :: flags' => (if b then 1 else 0) + sum_bools flags'
  end.

(** ** numpy: sorting and positional indexing *)

(** Order of Python strings: code points, compared left to right. *)
Definition str_le (s1 s2 : string) : Prop := String.leb s1 s2 = true.

Global Instance str_le_dec s1 s2 : Decision (str_le s1 s2).
Proof. unfold str_le. apply _. Defined.

(** Keeps the first of each run of equal neighbours. *)
Fixpoint dedup_adjacent (l : list string) : list string :=
  match l with
  | [] => []
  | x :: l' =>
      match l' with
      | [] => [x]
      | y :: _ => if String.eqb x y then dedup_adjacent l' else x :: dedup_adjacent l'
      end
  end.

(** [np.unique(keys)]: the distinct keys, sorted. *)
Definition np_unique (keys : list string) : list string :=
  dedup_adjacent (merge_sort str_le keys).

(** Order used by [np.argsort]: by value, ties by position. *)
Definition arg_le (a b : Z * nat) : Prop :=
  (a.1 < b.1)%Z ∨ (a.1 = b.1 ∧ (a.2 ≤ b.2)%nat).

Global Instance arg_le_dec a b : Decision (arg_le a b).
Proof. unfold arg_le. apply _. Defined.

(** [np.argsort(v)]: the positions of [v], ordered by the value they hold. *)
Definition np_argsort (v : list Z) : list Z :=
  (λ p : Z * nat, Z.of_nat p.2) <$> merge_sort arg_le (zip v (seq 0 (length v))).

(** [a[i]] on one axis of length [length a]: negative positions count from
    the end, anything outside [-n, n) raises. *)
Definition np_getitem {A} (a : list A) (i : Z) : result A :=
  let n := Z.of_nat (length a) in
  let j := if (i <? 0)%Z then (i + n)%Z else i in
  if ((0 <=? j)%Z && (j <? n)%Z)%bool
  then match a !! Z.to_nat j with Some x => Ok x | None => Raise IndexError end
  else Raise IndexError.

(** [a[idx]] with an integer array [idx]. *)
Definition np_take {A} (a : list A) (idx : list Z) : result (list A) :=
  mapM_result (np_getitem a) idx.

(** [index.get_indexer(target)]: position of each label, [-1] when absent;
    refused on an index with repeated labels. *)
Fixpoint index_of (index : list string) (label : string) (pos : Z) : Z :=
  match index with
  | [] => (-1)%Z
  | x :: index' => if String.eqb x label then pos else index_of index' label (pos + 1)%Z
  end.

Definition is_unique (labels : list string) : bool :=
  bool_decide (NoDup labels).

Definition get_indexer (index target : list string) : result (list Z) :=
  if is_unique index
  then Ok ((λ label, index_of index label 0%Z) <$> target)
  else Raise InvalidIndexError.

(** [index[index.duplicated()].tolist()]: every label that repeats an
    earlier one. *)
Fixpoint duplicated (seen labels : list string) : list string :=
  match labels with
  | [] => []
  | x :: labels' =>
      if bool_decide (x ∈ seen) then x :: duplicated seen labels'
      else duplicated (x :: seen) labels'
  end.


(** ** The annotated matrix *)

Section Accessors.
Context {num : Type}.

(** An entry of a metadata table or of an output table. *)
Inductive cell :=
| Num (x : num)
| Str (s : string).

(** The values of [adata.X], [adata.layers], [adata.obsm], [adata.varm]
    and [adata.obsp]: a 2-D numpy array or a scipy sparse matrix, given by
    the list of its rows (the bound of the column axis is the length of a
    row), or a pandas table given by its labelled columns. *)
Inductive array :=
| ndarray (m : list (list num))
| spmatrix (m : list (list num))
| table (cols : list (Z * list cell)).

(** [pd.DataFrame]: row labels and labelled columns, in order; labels may
    repeat. *)
Record DataFrame := {
  index : list string;
  columns : list (string * list cell)
}.

(** [adata.raw] *)
Record Raw := {
  raw_X : array;
  raw_var_names : list string;
  raw_var : DataFrame
}.

(** [uns[key]['pts']]: one row per gene, one column per group. *)
Record pts_frame := {
  pts_index : list string;
  pts_columns : list (string * list num)
}.

(** [adata.uns[key]] as written by [rank_genes_groups]: five structured
    arrays with one field per group, and the optional fraction tables. *)
Record rank_genes_groups := {
  names : list (string * list string);
  scores : list (string * list num);
  logfoldchanges : list (string * list num);
  pvals : list (string * list num);
  pvals_adj : list (string * list num);
  pts : option pts_frame;
  pts_rest : option pts_frame
}.

Record AnnData := {
  X : array;
  obs_names : list string;
  var_names : list string;
  obs : DataFrame;
  var : DataFrame;
  layers : gmap string array;
  obsm : gmap string array;
  varm : gmap string array;
  obsp : gmap string array;
  raw : option Raw;
  isbacked : bool;
  uns : gmap string rank_genes_groups
}.

(** [adata.raw], for the attribute accesses that follow it. *)
Definition get_raw (adata : AnnData) (attr : string) : result Raw :=
  match raw adata with
  | Some r => Ok r
  | None => Raise (AttributeError attr)
  end.

(** ** Representation selector *)

(** The keyword arguments [obsm] and [obsp] are written [obsm_key] and
    [obsp_key], apart from the fields of the container. *)
Definition choices_made (use_raw : pyval) (layer obsm_key obsp_key : option string) : nat :=
  sum_bools [bool_decide (layer ≠ None); is_not_False use_raw;
             bool_decide (obsm_key ≠ None); bool_decide (obsp_key ≠ None)].

Definition unexpected : string :=
  "That was unexpected. Please report this bug at:

	 https://github.com/theislab/scanpy/issues".

Definition _get_obs_rep (adata : AnnData) (use_raw : pyval)
    (layer obsm_key obsp_key : option string) : result array :=
  if negb (isinstance_bool use_raw) then Raise (TypeError_use_raw use_raw) else
  let choices_made := choices_made use_raw layer obsm_key obsp_key in
  _ <- py_assert (choices_made <=? 1) "";
  if (choices_made =? 0) then Ok (X adata)
  else match layer with
  | Some layer => dict_getitem (layers adata) layer
  | None =>
  if truthy use_raw then r <- get_raw adata "X"; Ok (raw_X r)
  else match obsm_key with
  | Some k => dict_getitem (obsm adata) k
  | None =>
  match obsp_key with
  | Some k => dict_getitem (obsp adata) k
  | None => Raise (AssertionError unexpected)
  end end end.

Definition set_X (adata : AnnData) (val : array) : AnnData :=
  {| X := val; obs_names := obs_names adata; var_names := var_names adata;
     obs := obs adata; var := var adata; layers := layers adata;
     obsm := obsm adata; varm := varm adata; obsp := obsp adata;
     raw := raw adata; isbacked := isbacked adata; uns := uns adata |}.

Definition set_layers (adata : AnnData) (d : gmap string array) : AnnData :=
  {| X := X adata; obs_names := obs_names adata; var_names := var_names adata;
     obs := obs adata; var := var adata; layers := d;
     obsm := obsm adata; varm := varm adata; obsp := obsp adata;
     raw := raw adata; isbacked := isbacked adata; uns := uns adata |}.

Definition set_obsm (adata : AnnData) (d : gmap string array) : AnnData :=
  {| X := X adata; obs_names := obs_names adata; var_names := var_names adata;
     obs := obs adata; var := var adata; layers := layers adata;
     obsm := d; varm := varm adata; obsp := obsp adata;
     raw := raw adata; isbacked := isbacked adata; uns := uns adata |}.

Definition set_obsp (adata : AnnData) (d : gmap string array) : AnnData :=
  {| X := X adata; obs_names := obs_names adata; var_names := var_names adata;
     obs := obs adata; var := var adata; layers := layers adata;
     obsm := obsm adata; varm := varm adata; obsp := d;
     raw := raw adata; isbacked := isbacked adata; uns := uns adata |}.

Definition set_raw_X (adata : AnnData) (r : Raw) (val : array) : AnnData :=
  {| X := X adata; obs_names := obs_names adata; var_names := var_names adata;
     obs := obs adata; var := var adata; layers := layers adata;
     obsm := obsm adata; varm := varm adata; obsp := obsp adata;
     raw := Some {| raw_X := val; raw_var_names := raw_var_names r;
                    raw_var := raw_var r |};
     isbacked := isbacked adata; uns := uns adata |}.


Definition set_var (adata : AnnData) (v : DataFrame) : AnnData :=
  {| X := X adata; obs_names := obs_names adata; var_names := var_names adata;
     obs := obs adata; var := v; layers := layers adata;
     obsm := obsm adata; varm := varm adata; obsp := obsp adata;
     raw := raw adata; isbacked := isbacked adata; uns := uns adata |}.

(** The container is mutated in place: the result is its state after the
    call. *)
Definition _set_obs_rep (adata : AnnData) (val : array) (use_raw : pyval)
    (layer obsm_key obsp_key : option string) : result AnnData :=
  let choices_made := choices_made use_raw layer obsm_key obsp_key in
  _ <- py_assert (choices_made <=? 1) "";
  if (choices_made =? 0) then Ok (set_X adata val)
  else match layer with
  | Some layer => Ok (set_layers adata (<[layer := val]> (layers adata)))
  | None =>
  if truthy use_raw then r <- get_raw adata "X"; Ok (set_raw_X adata r val)
  else match obsm_key with
  | Some k => Ok (set_obsm adata (<[k := val]> (obsm adata)))
  | None =>
  match obsp_key with
  | Some k => Ok (set_obsp adata (<[k := val]> (obsp adata)))
  | None => Raise (AssertionError unexpected)
  end end end.

(** ** pandas: labelled columns *)

Definition labels (df : DataFrame) : list string := (columns df).*1.

(** [key in idx] on an index or on [df.columns]. *)
Definition label_in (key : string) (idx : list string) : bool :=
  bool_decide (key ∈ idx).

(** The columns of [df] labelled [key], in order. *)
Definition columns_labelled (df : DataFrame) (key : string) : list (string * list cell) :=
  filter (λ c, c.1 = key) (columns df).

(** [df[key]] for one label, where the caller needs a single column. *)
Definition df_getitem (df : DataFrame) (key : string) : result (list cell) :=
  match columns_labelled df key with
  | [] => Raise (KeyError key)
  | [c] => Ok c.2
  | _ => Raise (ValueError "Index data must be 1-dimensional")
  end.

(** [df[keys]] for a list of labels: for each key in turn, the columns it
    labels. *)
Definition df_getitem_list (df : DataFrame) (keys : list string) : result DataFrame :=
  cols <- mapM_result (λ key,
            match columns_labelled df key with
            | [] => Raise (KeyError key)
            | cs => Ok cs
            end) keys;
  Ok {| index := index df; columns := concat cols |}.

(** [pd.concat([df1, df2], axis=1)] of two tables over the same index. *)
Definition concat_axis1 (df1 df2 : DataFrame) : DataFrame :=
  {| index := index df1; columns := columns df1 ++ columns df2 |}.

(** [df[label] = col]: an existing label is overwritten in place, a new one
    is appended. *)
Definition df_setitem (df : DataFrame) (label : string) (col : list cell) : result DataFrame :=
  if negb (length col =? length (index df))
  then Raise (ValueError "Length of values does not match length of index")
  else if label_in label (labels df)
  then Ok {| index := index df;
             columns := (λ c, if String.eqb c.1 label then (c.1, col) else c) <$> columns df |}
  else Ok {| index := index df; columns := columns df ++ [(label, col)] |}.

(** [pd.Series(values, index=idx)], as (label, value) pairs. *)
Definition Series (values : list string) (idx : list cell) : result (list (cell * string)) :=
  if (length values =? length idx) then Ok (zip idx values)
  else Raise (ValueError "Length of values does not match length of index").

Definition cell_is (key : string) (c : cell) : bool :=
  match c with Str s => String.eqb s key | Num _ => false end.

(** [key in series.index] *)
Definition series_has (series : list (cell * string)) (key : string) : bool :=
  existsb (λ e, cell_is key e.1) series.

(** [series[key]]: the values at label [key]; one value is a scalar, several
    are a Series. *)
Definition series_getitem (series : list (cell * string)) (key : string) : list string :=
  (filter (λ e, cell_is key e.1) series).*2.

Definition issparse (a : array) : bool :=
  match a with spmatrix _ => true | _ => false end.

Definition toarray (a : array) : array :=
  match a with spmatrix m => ndarray m | _ => a end.

(** [a[:, idx]] *)
Definition getitem_columns (a : array) (idx : list Z) : result array :=
  match a with
  | ndarray m => m' <- mapM_result (λ row, np_take row idx) m; Ok (ndarray m')
  | spmatrix m => m' <- mapM_result (λ row, np_take row idx) m; Ok (spmatrix m')
  | table _ => Raise InvalidIndexError
  end.

(** [a[idx, :]] and [a[idx]] *)
Definition getitem_rows (a : array) (idx : list Z) : result array :=
  match a with
  | ndarray m => m' <- np_take m idx; Ok (ndarray m')
  | spmatrix m => m' <- np_take m idx; Ok (spmatrix m')
  | table _ => Raise InvalidIndexError
  end.

(** [np.ravel(m[:, j])] *)
Definition getitem_column (m : list (list num)) (j : Z) : result (list num) :=
  mapM_result (λ row, np_getitem row j) m.

(** [val.loc[:, idx]] on a table-backed block. *)
Definition loc_column (cols : list (Z * list cell)) (idx : Z) : result (list cell) :=
  match filter (λ c, c.1 = idx) cols with
  | [] => Raise (KeyError (pretty idx))
  | [c] => Ok c.2
  | _ => Raise (ValueError "Cannot set a DataFrame with multiple columns to the single column")
  end.

(** [pd.DataFrame(matrix, columns=labels, index=idx)] *)
Definition DataFrame_of (matrix : array) (labels idx : list string) : result DataFrame :=
  match matrix with
  | ndarray m =>
      if negb ((length m =? length idx)
               && forallb (λ row, (length row =? length labels)) m)
      then Raise (ValueError "Shape of passed values does not match the indices")
      else
        cols <- mapM_result (getitem_column m) (Z.of_nat <$> seq 0 (length labels));
        Ok {| index := idx; columns := zip labels ((λ col : list num, Num <$> col) <$> cols) |}
  | _ => Raise (ValueError "DataFrame constructor not properly called!")
  end.

(** [pd.DataFrame(matrix.T, columns=labels, index=idx)]: the columns of
    [matrix.T] are the rows of [matrix]. *)
Definition DataFrame_of_T (matrix : array) (labels idx : list string) : result DataFrame :=
  match matrix with
  | ndarray m =>
      if negb ((length m =? length labels)
               && forallb (λ row, (length row =? length idx)) m)
      then Raise (ValueError "Shape of passed values does not match the indices")
      else Ok {| index := idx; columns := zip labels ((λ row : list num, Num <$> row) <$> m) |}
  | _ => Raise (ValueError "DataFrame constructor not properly called!")
  end.

(** ** Observation-indexed table *)

(** [gene_error]: the name space searched for features. *)
Definition gene_error (use_raw : bool) (gene_symbols : option string) : string :=
  if use_raw then
    match gene_symbols with
    | None => "`adata.raw.var_names`"
    | Some gs => "gene_symbols column `adata.raw.var[" +:+ gs +:+ "].values`"
    end
  else
    match gene_symbols with
    | None => "`adata.var_names`"
    | Some gs => "gene_symbols column `adata.var[" +:+ gs +:+ "].values`"
    end.

(** The body of [for key in np.unique(keys)]; the state is the four lists
    [obs_names], [var_names], [var_symbol], [not_found]. *)
Definition obs_df_key (obs_columns : list string) (gene_names : list (cell * string))
    (gene_symbols : option string)
    (st : list string * list string * list string * list string) (key : string)
    : result (list string * list string * list string * list string) :=
  let '(obs_names_, var_names_, var_symbol, not_found) := st in
  if label_in key obs_columns then
    if series_has gene_names key then Raise (KeyError_both key)
    else Ok (obs_names_ ++ [key], var_names_, var_symbol, not_found)
  else if series_has gene_names key then
    match series_getitem gene_names key with
    | [val] => Ok (obs_names_, var_names_ ++ [val], var_symbol ++ [key], not_found)
    | _ =>
        match gene_symbols with
        | None => Raise (AssertionError "")
        | Some gs => Raise (KeyError_duplicate_symbol key gs)
        end
    end
  else Ok (obs_names_, var_names_, var_symbol, not_found ++ [key]).

(** The body of [for k, idx in obsm_keys] (and of the same loop over
    [varm_keys]). *)
Definition add_block_column (blocks : gmap string array) (df : DataFrame)
    (k_idx : string * Z) : result DataFrame :=
  let '(k, idx) := k_idx in
  let added_k := k +:+ "-" +:+ pretty idx in
  val <- dict_getitem blocks k;
  match val with
  | ndarray m => col <- getitem_column m idx; df_setitem df added_k (Num <$> col)
  | spmatrix m => col <- getitem_column m idx; df_setitem df added_k (Num <$> col)
  | table cols => col <- loc_column cols idx; df_setitem df added_k col
  end.

(** The Series [gene_names]: feature names labelled by themselves or by
    their symbol, over the primary matrix or over [adata.raw]. *)
Definition obs_df_gene_names (adata : AnnData) (layer gene_symbols : option string)
    (use_raw : bool) : result (list (cell * string)) :=
  if use_raw then
    _ <- py_assert (bool_decide (layer = None))
           "Cannot specify use_raw=True and a layer at the same time.";
    r <- get_raw adata "var_names";
    match gene_symbols with
    | Some gs => idx <- df_getitem (raw_var r) gs; Series (raw_var_names r) idx
    | None => Series (raw_var_names r) (Str <$> raw_var_names r)
    end
  else
    match gene_symbols with
    | Some gs => idx <- df_getitem (var adata) gs; Series (var_names adata) idx
    | None => Series (var_names adata) (Str <$> var_names adata)
    end.

(** [X[:, var_idx[var_order]][:, np.argsort(var_order)]] with
    [var_order = np.argsort(var_idx)]. *)
Definition backed_columns (X : array) (var_idx : list Z) : result array :=
  let var_order := np_argsort var_idx in
  sorted_idx <- np_take var_idx var_order;
  block <- getitem_columns X sorted_idx;
  getitem_columns block (np_argsort var_order).

(** [X[obs_idx[obs_order], :][np.argsort(obs_order)]] with
    [obs_order = np.argsort(obs_idx)]. *)
Definition backed_rows (X : array) (obs_idx : list Z) : result array :=
  let obs_order := np_argsort obs_idx in
  sorted_idx <- np_take obs_idx obs_order;
  block <- getitem_rows X sorted_idx;
  getitem_rows block (np_argsort obs_order).

(** The locals [obs_names] and [var_names] are written with a trailing
    underscore, apart from the fields of the container. *)
Definition obs_df (adata : AnnData) (keys : list string) (obsm_keys : list (string * Z))
    (layer gene_symbols : option string) (use_raw : bool) : result DataFrame :=
  gene_names <- obs_df_gene_names adata layer gene_symbols use_raw;
  if negb (is_unique (labels (obs adata)))
  then Raise (ValueError_duplicated_columns (duplicated [] (labels (obs adata)))) else
  if negb (is_unique (var_names adata))
  then Raise ValueError_duplicated_var_names else
  st <- foldM (obs_df_key (labels (obs adata)) gene_names gene_symbols)
         ([], [], [], []) (np_unique keys);
  let '(obs_names_, var_names_, var_symbol, not_found) := st in
  if 0 <? length not_found
  then Raise (KeyError_not_found not_found (gene_error use_raw gene_symbols)) else
  let df := {| index := index (obs adata); columns := [] |} in
  df <-
    (if 0 <? length var_names_ then
       X <- _get_obs_rep adata (PyBool use_raw) layer None None;
       var_idx <-
         (if use_raw
          then r <- get_raw adata "var_names"; get_indexer (raw_var_names r) var_names_
          else get_indexer (var_names adata) var_names_);
       matrix <-
         (if isbacked adata then backed_columns X var_idx
          else getitem_columns X var_idx);
       let matrix := if issparse matrix then toarray matrix else matrix in
       values <- DataFrame_of matrix var_symbol (index (obs adata));
       Ok (concat_axis1 df values)
     else Ok df);
  df <-
    (if 0 <? length obs_names_ then
       values <- df_getitem_list (obs adata) obs_names_;
       Ok (concat_axis1 df values)
     else Ok df);
  df <- df_getitem_list df keys;
  foldM (add_block_column (obsm adata)) df obsm_keys.

(** ** Feature-indexed table *)

(** The body of [for key in np.unique(keys)]; the state is the three lists
    [obs_names], [var_names], [not_found]. *)
Definition var_df_key (adata : AnnData)
    (st : list string * list string * list string) (key : string)
    : list string * list string * list string :=
  let '(obs_names_, var_names_, not_found) := st in
  if label_in key (obs_names adata) then (obs_names_ ++ [key], var_names_, not_found)
  else if label_in key (labels (var adata)) then (obs_names_, var_names_ ++ [key], not_found)
  else (obs_names_, var_names_, not_found ++ [key]).

Definition var_df (adata : AnnData) (keys : list string) (varm_keys : list (string * Z))
    (layer : option string) : result DataFrame :=
  let '(obs_names_, var_names_, not_found) :=
    fold_left (var_df_key adata) (np_unique keys) ([], [], []) in
  if (0 <? length not_found)
  then Raise (KeyError_not_found not_found "`adata.obs_names`") else
  let df := {| index := index (var adata); columns := [] |} in
  df <-
    (if (0 <? length obs_names_) then
       X <- _get_obs_rep adata (PyBool false) layer None None;
       obs_idx <- get_indexer (obs_names adata) obs_names_;
       matrix <-
         (if isbacked adata then backed_rows X obs_idx
          else getitem_rows X obs_idx);
       let matrix := if issparse matrix then toarray matrix else matrix in
       values <- DataFrame_of_T matrix obs_names_ (index (var adata));
       Ok (concat_axis1 df values)
     else Ok df);
  df <-
    (if (0 <? length var_names_) then
       values <- df_getitem_list (var adata) var_names_;
       Ok (concat_axis1 df values)
     else Ok df);
  df <- df_getitem_list df keys;
  foldM (add_block_column (varm adata)) df varm_keys.

End Accessors.

(** ** Differential-expression results as a long table *)

Section Reshaper.
Context {num : Type}.
(** [x < y] on the numeric entries. *)
Context (num_lt : num → num → bool).

(** The argument [group]: [None], one label, or a list of labels. *)
Inductive group_arg :=
| GroupNone
| GroupStr (s : string)
| GroupList (l : list string).

(** A row of the long table.  An entry the wide tables do not hold is
    [None] (pandas fills it with NaN), and so is an entry of a column the
    table does not have. *)
Record de_row := {
  row_group : option string;
  row_names : option string;
  row_scores : option num;
  row_logfoldchanges : option num;
  row_pvals : option num;
  row_pvals_adj : option num;
  row_symbol : option (@cell num);
  row_pct_nz_group : option num;
  row_pct_nz_reference : option num
}.

Record long_table := {
  table_columns : list string;
  table_rows : list de_row
}.

Fixpoint assoc {A} (k : string) (l : list (string * A)) : option A :=
  match l with
  | [] => None
  | (k', v) :: l' => if String.eqb k' k then Some v else assoc k l'
  end.

(** [pd.DataFrame(rec)[group]]: the fields named by [group], in that
    order. *)
Definition select_fields {A} (rec : list (string * list A)) (group : list string)
    : result (list (string * list A)) :=
  mapM_result (λ g, match assoc g rec with
                    | Some col => Ok (g, col)
                    | None => Raise (KeyError g)
                    end) group.

(** The entry of a wide table at row [i] of the column of group [g]. *)
Definition wide_at {A} (d : list (string * list A)) (g : string) (i : nat) : option A :=
  match assoc g d with
  | Some col => col !! i
  | None => None
  end.

(** Number of rows of the concatenated wide tables. *)
Definition wide_length {A} (d : list (string * list A)) : nat :=
  foldr Nat.max 0 ((λ f, length f.2) <$> d).

(** The wide tables for the five [colnames], after [[group]]. *)
Record wide := {
  w_names : list (string * list string);
  w_scores : list (string * list num);
  w_logfoldchanges : list (string * list num);
  w_pvals : list (string * list num);
  w_pvals_adj : list (string * list num)
}.

Definition wide_rows (d : wide) : nat :=
  foldr Nat.max 0
    [wide_length (w_names d); wide_length (w_scores d);
     wide_length (w_logfoldchanges d); wide_length (w_pvals d);
     wide_length (w_pvals_adj d)].

(** The row that [stack] makes of row [i] and group [g] of the wide table,
    with its [level_0]; a row without any entry is left out. *)
Definition stack_row (d : wide) (i : nat) (g : string) : list (nat * de_row) :=
  let r := {| row_group := Some g;
              row_names := wide_at (w_names d) g i;
              row_scores := wide_at (w_scores d) g i;
              row_logfoldchanges := wide_at (w_logfoldchanges d) g i;
              row_pvals := wide_at (w_pvals d) g i;
              row_pvals_adj := wide_at (w_pvals_adj d) g i;
              row_symbol := None;
              row_pct_nz_group := None;
              row_pct_nz_reference := None |} in
  if bool_decide (is_Some (row_names r)) || bool_decide (is_Some (row_scores r))
     || bool_decide (is_Some (row_logfoldchanges r)) || bool_decide (is_Some (row_pvals r))
     || bool_decide (is_Some (row_pvals_adj r))
  then [(i, r)] else [].

(** [d.stack(level=1).reset_index()] *)
Definition stack (d : wide) (group : list string) : list (nat * de_row) :=
  flat_map (λ i, flat_map (stack_row d i) group) (seq 0 (wide_rows d)).

(** Code of a value in [pd.Categorical(_, categories=group)]: its position
    among the categories; a value outside them sorts last. *)
Fixpoint category_code (categories : list string) (g : string) : nat :=
  match categories with
  | [] => 0
  | c :: categories' => if String.eqb c g then 0 else S (category_code categories' g)
  end.

Definition row_code (categories : list string) (r : de_row) : nat :=
  match row_group r with
  | Some g => category_code categories g
  | None => length categories
  end.

(** Order of [sort_values(['group', 'level_0'])]. *)
Definition sort_le (categories : list string) (a b : nat * de_row) : Prop :=
  row_code categories a.2 < row_code categories b.2
  ∨ (row_code categories a.2 = row_code categories b.2 ∧ a.1 ≤ b.1).

Global Instance sort_le_dec categories a b : Decision (sort_le categories a b).
Proof. unfold sort_le. apply _. Defined.

(** [d[d[column] < bound]] and [d[d[column] > bound]]: a comparison with a
    missing entry is false. *)
Definition below (bound : num) (x : option num) : bool :=
  match x with Some v => num_lt v bound | None => false end.

Definition above (bound : num) (x : option num) : bool :=
  match x with Some v => num_lt bound v | None => false end.

Definition set_symbol (r : de_row) (c : option cell) : de_row :=
  {| row_group := row_group r; row_names := row_names r; row_scores := row_scores r;
     row_logfoldchanges := row_logfoldchanges r; row_pvals := row_pvals r;
     row_pvals_adj := row_pvals_adj r; row_symbol := c;
     row_pct_nz_group := row_pct_nz_group r;
     row_pct_nz_reference := row_pct_nz_reference r |}.

Definition set_pct_nz_group (r : de_row) (v : num) : de_row :=
  {| row_group := row_group r; row_names := row_names r; row_scores := row_scores r;
     row_logfoldchanges := row_logfoldchanges r; row_pvals := row_pvals r;
     row_pvals_adj := row_pvals_adj r; row_symbol := row_symbol r;
     row_pct_nz_group := Some v;
     row_pct_nz_reference := row_pct_nz_reference r |}.

Definition set_pct_nz_reference (r : de_row) (v : num) : de_row :=
  {| row_group := row_group r; row_names := row_names r; row_scores := row_scores r;
     row_logfoldchanges := row_logfoldchanges r; row_pvals := row_pvals r;
     row_pvals_adj := row_pvals_adj r; row_symbol := row_symbol r;
     row_pct_nz_group := row_pct_nz_group r;
     row_pct_nz_reference := Some v |}.

Definition drop_group (r : de_row) : de_row :=
  {| row_group := None; row_names := row_names r; row_scores := row_scores r;
     row_logfoldchanges := row_logfoldchanges r; row_pvals := row_pvals r;
     row_pvals_adj := row_pvals_adj r; row_symbol := row_symbol r;
     row_pct_nz_group := row_pct_nz_group r;
     row_pct_nz_reference := row_pct_nz_reference r |}.

(** One row of [d.join(series, on="names")]: a left join, one output row per
    entry of the series labelled by the row's name, a missing entry when
    there is none. *)
Definition join_row (series : list (string * cell)) (r : de_row) : list de_row :=
  match row_names r with
  | None => [set_symbol r None]
  | Some n =>
      match List.filter (λ e, String.eqb e.1 n) series with
      | [] => [set_symbol r None]
      | found => (λ e, set_symbol r (Some e.2)) <$> found
      end
  end.

(** [pts_table[group].rename_axis(index='names').reset_index().melt(...)]:
    one row (name, group, value) per entry, column after column. *)
Definition melt (p : pts_frame) (group : list string)
    : result (list (string * string * num)) :=
  sel <- select_fields (pts_columns p) group;
  Ok (flat_map (λ f : string * list num,
                  (λ e : string * num, (e.1, f.1, e.2)) <$> zip (pts_index p) f.2) sel).

(** One row of [d.merge(pts_df)]: an inner join on the shared columns
    [names] and [group], in the order of the left rows. *)
Definition merge_row (set : de_row → num → de_row)
    (pts_df : list (string * string * num)) (r : de_row) : list de_row :=
  match row_names r, row_group r with
  | Some n, Some g =>
      (λ e : string * string * num, set r e.2)
        <$> List.filter (λ e : string * string * num,
                           String.eqb e.1.1 n && String.eqb e.1.2 g) pts_df
  | _, _ => []
  end.

(** One turn of [for pts, name in {...}.items()]. *)
Definition merge_pts (table : option pts_frame) (name : string)
    (set : de_row → num → de_row) (group : list string) (d : long_table)
    : result long_table :=
  match table with
  | None => Ok d
  | Some p =>
      pts_df <- melt p group;
      if label_in name (table_columns d)
      then Raise (ValueError "You are trying to merge on object and float64 columns")
      else Ok {| table_columns := table_columns d ++ [name];
                 table_rows := flat_map (merge_row set pts_df) (table_rows d) |}
  end.

Definition rank_genes_groups_df (adata : @AnnData num) (group : group_arg)
    (key : string) (pval_cutoff log2fc_min log2fc_max : option num)
    (gene_symbols : option string) : result long_table :=
  group <-
    match group with
    | GroupStr s => Ok [s]
    | GroupNone => store <- dict_getitem (uns adata) key; Ok (names store).*1
    | GroupList l => Ok l
    end;
  store <- dict_getitem (uns adata) key;
  d_names <- select_fields (names store) group;
  d_scores <- select_fields (scores store) group;
  d_logfoldchanges <- select_fields (logfoldchanges store) group;
  d_pvals <- select_fields (pvals store) group;
  d_pvals_adj <- select_fields (pvals_adj store) group;
  let d := stack {| w_names := d_names; w_scores := d_scores;
                    w_logfoldchanges := d_logfoldchanges; w_pvals := d_pvals;
                    w_pvals_adj := d_pvals_adj |} group in
  if negb (is_unique group)
  then Raise (ValueError "Categorical categories must be unique") else
  let d := (merge_sort (sort_le group) d).*2 in
  let d := match pval_cutoff with
           | Some c => List.filter (λ r, below c (row_pvals_adj r)) d
           | None => d
           end in
  let d := match log2fc_min with
           | Some c => List.filter (λ r, above c (row_logfoldchanges r)) d
           | None => d
           end in
  let d := match log2fc_max with
           | Some c => List.filter (λ r, below c (row_logfoldchanges r)) d
           | None => d
           end in
  let d := {| table_columns := "group" :: ["names"; "scores"; "logfoldchanges"; "pvals"; "pvals_adj"];
              table_rows := d |} in
  d <-
    match gene_symbols with
    | Some gs =>
        symbols <- df_getitem (var adata) gs;
        if label_in gs (table_columns d)
        then Raise (ValueError "columns overlap but no suffix specified")
        else Ok {| table_columns := table_columns d ++ [gs];
                   table_rows := flat_map (join_row (zip (index (var adata)) symbols))
                                   (table_rows d) |}
    | None => Ok d
    end;
  d <- merge_pts (pts store) "pct_nz_group" set_pct_nz_group group d;
  d <- merge_pts (pts_rest store) "pct_nz_reference" set_pct_nz_reference group d;
  let d := if length group =? 1
           then {| table_columns := List.filter (λ c, negb (String.eqb c "group")) (table_columns d);
                   table_rows := drop_group <$> table_rows d |}
           else d in
  Ok d.

(** The list that [group] stands for. *)
Definition requested_groups (store : @rank_genes_groups num) (group : group_arg) : list string :=
  match group with
  | GroupStr s => [s]
  | GroupNone => (names store).*1
  | GroupList l => l
  end.

(** [[pd.DataFrame(adata.uns[key][c])[group] for c in colnames]] *)
Definition wide_of (store : @rank_genes_groups num) (gl : list string) : result wide :=
  d_names <- select_fields (names store) gl;
  d_scores <- select_fields (scores store) gl;
  d_logfoldchanges <- select_fields (logfoldchanges store) gl;
  d_pvals <- select_fields (pvals store) gl;
  d_pvals_adj <- select_fields (pvals_adj store) gl;
  Ok {| w_names := d_names; w_scores := d_scores;
        w_logfoldchanges := d_logfoldchanges; w_pvals := d_pvals;
        w_pvals_adj := d_pvals_adj |}.

(** The statements of [rank_genes_groups_df] that follow [sort_values], on
    the sorted rows [d]. *)
Definition after_sort (adata : @AnnData num) (store : @rank_genes_groups num)
    (gl : list string) (pval_cutoff log2fc_min log2fc_max : option num)
    (gene_symbols : option string) (d : list de_row) : result long_table :=
  let d := match pval_cutoff with
           | Some c => List.filter (λ r, below c (row_pvals_adj r)) d
           | None => d
           end in
  let d := match log2fc_min with
           | Some c => List.filter (λ r, above c (row_logfoldchanges r)) d
           | None => d
           end in
  let d := match log2fc_max with
           | Some c => List.filter (λ r, below c (row_logfoldchanges r)) d
           | None => d
           end in
  let d := {| table_columns := "group" :: ["names"; "scores"; "logfoldchanges"; "pvals"; "pvals_adj"];
              table_rows := d |} in
  d <-
    match gene_symbols with
    | Some gs =>
        symbols <- df_getitem (var adata) gs;
        if label_in gs (table_columns d)
        then Raise (ValueError "columns overlap but no suffix specified")
        else Ok {| table_columns := table_columns d ++ [gs];
                   table_rows := flat_map (join_row (zip (index (var adata)) symbols))
                                   (table_rows d) |}
    | None => Ok d
    end;
  d <- merge_pts (pts store) "pct_nz_group" set_pct_nz_group gl d;
  d <- merge_pts (pts_rest store) "pct_nz_reference" set_pct_nz_reference gl d;
  let d := if length gl =? 1
           then {| table_columns := List.filter (λ c, negb (String.eqb c "group")) (table_columns d);
                   table_rows := drop_group <$> table_rows d |}
           else d in
  Ok d.


End Reshaper.

(** ** Example data *)

Definition ex_obs : @DataFrame Z :=
  {| index := ["c1"; "c2"]; columns := [("cluster", [Str "x"; Str "y"])] |}.

Definition ex_var : @DataFrame Z :=
  {| index := ["G1"; "G2"; "G3"];
     columns := [("symbol", [Str "a"; Str "b"; Str "c"])] |}.

Definition ex_raw : @Raw Z :=
  {| raw_X := ndarray [[7; 8; 9]; [10; 11; 12]]%Z;
     raw_var_names := ["G1"; "G2"; "G3"];
     raw_var := ex_var |}.

(** Two observations, three features, one metadata column, one layer, one
    block of each kind. *)
Definition ex_adata : @AnnData Z :=
  {| X := ndarray [[1; 2; 3]; [4; 5; 6]]%Z;
     obs_names := ["c1"; "c2"];
     var_names := ["G1"; "G2"; "G3"];
     obs := ex_obs;
     var := ex_var;
     layers := {[ "counts" := spmatrix [[0; 1; 0]; [2; 0; 0]]%Z ]};
     obsm := {[ "X_pca" := ndarray [[10; 20]; [30; 40]]%Z ]};
     varm := {[ "PCs" := ndarray [[1; 2]; [3; 4]; [5; 6]]%Z ]};
     obsp := {[ "distances" := spmatrix [[0; 1]; [1; 0]]%Z ]};
     raw := Some ex_raw;
     isbacked := false;
     uns := ∅ |}.


Definition ex_keys : list string := ["cluster"; "G2"; "G1"; "G2"].

Definition ex_obsm_keys : list (string * Z) := [("X_pca", 1%Z); ("X_pca", 0%Z)].

Definition ex_table : @DataFrame Z :=
  {| index := ["c1"; "c2"];
     columns := [("cluster", [Str "x"; Str "y"]);
                 ("G2", [Num 2; Num 5]%Z);
                 ("G1", [Num 1; Num 4]%Z);
                 ("G2", [Num 2; Num 5]%Z);
                 ("X_pca-1", [Num 20; Num 40]%Z);
                 ("X_pca-0", [Num 10; Num 30]%Z)] |}.

(** A [var] table with a column that bears the name of an observation and
    with a repeated column name. *)
Definition ex_var_both : @DataFrame Z :=
  {| index := ["G1"; "G2"; "G3"];
     columns := [("c1", [Str "u"; Str "v"; Str "w"]);
                 ("symbol", [Str "a"; Str "b"; Str "c"]);
                 ("symbol", [Str "d"; Str "e"; Str "f"])] |}.

Definition ex_both : @AnnData Z := set_var ex_adata ex_var_both.

(** The same table without the column named like an observation. *)
Definition ex_var_dropped : @DataFrame Z :=
  {| index := ["G1"; "G2"; "G3"];
     columns := [("symbol", [Str "a"; Str "b"; Str "c"]);
                 ("symbol", [Str "d"; Str "e"; Str "f"])] |}.

(** Metadata columns named like two of the features. *)
Definition ex_ambiguous : @AnnData Z :=
  {| X := ndarray [[1; 2; 3]; [4; 5; 6]]%Z;
     obs_names := ["c1"; "c2"];
     var_names := ["G1"; "G2"; "G3"];
     obs := {| index := ["c1"; "c2"];
               columns := [("cluster", [Str "x"; Str "y"]);
                           ("G1", [Str "p"; Str "q"]);
                           ("G2", [Str "r"; Str "s"])] |};
     var := ex_var;
     layers := ∅; obsm := ∅; varm := ∅; obsp := ∅;
     raw := None; isbacked := false; uns := ∅ |}.

(** A feature name that occurs twice. *)
Definition ex_duplicated_var : @AnnData Z :=
  {| X := ndarray [[1; 2; 3]; [4; 5; 6]]%Z;
     obs_names := ["c1"; "c2"];
     var_names := ["G1"; "G1"; "G2"];
     obs := ex_obs;
     var := {| index := ["G1"; "G1"; "G2"]; columns := [] |};
     layers := ∅; obsm := ∅; varm := ∅; obsp := ∅;
     raw := None; isbacked := false; uns := ∅ |}.

(** A metadata column name that occurs twice. *)
Definition ex_duplicated_obs : @AnnData Z :=
  {| X := ndarray [[1; 2; 3]; [4; 5; 6]]%Z;
     obs_names := ["c1"; "c2"];
     var_names := ["G1"; "G2"; "G3"];
     obs := {| index := ["c1"; "c2"];
               columns := [("cluster", [Str "x"; Str "y"]);
                           ("batch", [Str "b"; Str "b"]);
                           ("cluster", [Str "z"; Str "z"])] |};
     var := ex_var;
     layers := ∅; obsm := ∅; varm := ∅; obsp := ∅;
     raw := None; isbacked := false; uns := ∅ |}.

(** A feature name that occurs twice in the [raw] matrix only. *)
Definition ex_duplicated_raw : @AnnData Z :=
  {| X := ndarray [[1; 2; 3]; [4; 5; 6]]%Z;
     obs_names := ["c1"; "c2"];
     var_names := ["G1"; "G2"; "G3"];
     obs := ex_obs;
     var := ex_var;
     layers := ∅; obsm := ∅; varm := ∅; obsp := ∅;
     raw := Some {| raw_X := ndarray [[7; 8; 9]; [10; 11; 12]]%Z;
                    raw_var_names := ["G1"; "G1"; "G3"];
                    raw_var := ex_var |};
     isbacked := false; uns := ∅ |}.

(** Differential-expression results for two groups, two ranks each, with
    the fraction table of the groups. *)
Definition ex_rank_genes_groups : @rank_genes_groups Z :=
  {| names := [("A", ["G1"; "G2"]); ("B", ["G3"; "G1"])];
     scores := [("A", [9; 4]%Z); ("B", [8; 3]%Z)];
     logfoldchanges := [("A", [5; 1]%Z); ("B", [6; 2]%Z)];
     pvals := [("A", [1; 2]%Z); ("B", [1; 3]%Z)];
     pvals_adj := [("A", [2; 4]%Z); ("B", [2; 6]%Z)];
     pts := Some {| pts_index := ["G1"; "G2"; "G3"];
                    pts_columns := [("A", [90; 80; 10]%Z); ("B", [70; 20; 95]%Z)] |};
     pts_rest := None |}.

Definition ex_de : @AnnData Z :=
  {| X := ndarray [[1; 2; 3]; [4; 5; 6]]%Z;
     obs_names := ["c1"; "c2"];
     var_names := ["G1"; "G2"; "G3"];
     obs := ex_obs;
     var := ex_var;
     layers := ∅; obsm := ∅; varm := ∅; obsp := ∅;
     raw := None; isbacked := false;
     uns := {[ "rank_genes_groups" := ex_rank_genes_groups ]} |}.

(** ** The error monad: inversion and traversal *)

Lemma bind_Ok {A B} (r : result A) (k : A → result B) b :
  bind r k = Ok b ↔ ∃ a, r = Ok a ∧ k a = Ok b.
Proof.
  destruct r as [a|e]; simpl; split.
  - eauto.
  - by intros (a' & [= <-] & ?).
  - done.
  - by intros (a' & ? & ?).
Qed.

Lemma bind_Raise {A B} (r : result A) (k : A → result B) e :
  bind r k = Raise e ↔ r = Raise e ∨ ∃ a, r = Ok a ∧ k a = Raise e.
Proof.
  destruct r as [a|e']; simpl; split.
  - eauto.
  - intros [?|(a' & [= <-] & ?)]; done.
  - intros [= ->]. by left.
  - intros [[= ->]|(a' & ? & ?)]; done.
Qed.

Lemma mapM_result_Ok {A B} (f : A → result B) l ys :
  mapM_result f l = Ok ys ↔ Forall2 (λ x y, f x = Ok y) l ys.
Proof.
  revert ys. induction l as [|x l IH]; intros ys; simpl.
  - split; [intros [= <-]; constructor|by inv 1].
  - rewrite bind_Ok. split.
    + intros (y & Hy & H). apply bind_Ok in H as (ys' & Hys & [= <-]).
      constructor; [done|by apply IH].
    + inv 1. eexists; split; [done|]. apply bind_Ok. eexists; split; [|done].
      by apply IH.
Qed.

Lemma mapM_result_length {A B} (f : A → result B) l ys :
  mapM_result f l = Ok ys → length ys = length l.
Proof. rewrite mapM_result_Ok. intros H. symmetry. by eapply Forall2_length. Qed.

Lemma mapM_result_ext {A B} (f g : A → result B) l :
  (∀ x, x ∈ l → f x = g x) → mapM_result f l = mapM_result g l.
Proof.
  induction l as [|x l IH]; intros H; simpl; [done|].
  rewrite H by left. rewrite IH; [done|]. intros y Hy. apply H. by right.
Qed.

Lemma mapM_result_total {A B} (f : A → result B) (g : A → B) l :
  (∀ x, x ∈ l → f x = Ok (g x)) → mapM_result f l = Ok (g <$> l).
Proof.
  induction l as [|x l IH]; intros H; simpl; [done|].
  rewrite H by left. simpl. rewrite IH; [done|]. intros y Hy. apply H. by right.
Qed.

Lemma foldM_app {A B} (f : A → B → result A) acc l1 l2 :
  foldM f acc (l1 ++ l2) = (acc' <- foldM f acc l1; foldM f acc' l2).
Proof.
  revert acc. induction l1 as [|x l1 IH]; intros acc; simpl; [done|].
  destruct (f acc x) as [acc'|e]; simpl; [apply IH|done].
Qed.

(** ** Order of keys and [np.unique] *)

Global Instance str_le_total : Total str_le.
Proof. intros s1 s2. apply String.leb_total. Qed.

Global Instance str_le_antisymm : AntiSymm (=) str_le.
Proof. intros s1 s2. apply String.leb_antisym. Qed.

Lemma str_le_spec s1 s2 : str_le s1 s2 ↔ s1 = s2 ∨ String_as_OT.lt s1 s2.
Proof.
  unfold str_le, String.leb. destruct (String.compare s1 s2) eqn:E.
  - apply String_as_OT.cmp_eq in E. split; auto.
  - apply String_as_OT.cmp_lt in E. split; auto.
  - split; [discriminate|]. intros [->|H].
    + assert (String.compare s2 s2 = Eq) by (by apply String_as_OT.cmp_eq). congruence.
    + apply String_as_OT.cmp_lt in H. unfold String_as_OT.cmp in H. congruence.
Qed.

Global Instance str_le_trans : Transitive str_le.
Proof.
  intros x y z. rewrite !str_le_spec.
  intros [->|H1] [->|H2]; eauto using String_as_OT.lt_trans.
Qed.

Lemma dedup_adjacent_cons2 a b l :
  dedup_adjacent (a :: b :: l)
  = if String.eqb a b then dedup_adjacent (b :: l) else a :: dedup_adjacent (b :: l).
Proof. reflexivity. Qed.

Lemma elem_of_dedup_adjacent x l : x ∈ dedup_adjacent l ↔ x ∈ l.
Proof.
  induction l as [|a l IH]; [done|]. destruct l as [|b l]; [done|].
  rewrite dedup_adjacent_cons2. destruct (String.eqb_spec a b) as [->|Hne].
  - rewrite IH. set_solver.
  - rewrite elem_of_cons, IH. set_solver.
Qed.

Lemma NoDup_dedup_adjacent l : StronglySorted str_le l → NoDup (dedup_adjacent l).
Proof.
  induction l as [|a l IH]; [constructor|]. intros Hs.
  apply StronglySorted_cons in Hs as [Ha Hs]. specialize (IH Hs).
  destruct l as [|b l]; [apply NoDup_singleton|].
  rewrite dedup_adjacent_cons2. destruct (String.eqb_spec a b) as [->|Hne]; [done|].
  constructor; [|done]. rewrite elem_of_dedup_adjacent. intros Hin.
  apply Hne. apply (anti_symm str_le).
  - by inv Ha.
  - apply StronglySorted_cons in Hs as [Hb _]. rewrite Forall_forall in Hb.
    apply elem_of_cons in Hin as [->|Hin]; [done|by apply Hb].
Qed.

Lemma StronglySorted_dedup_adjacent l :
  StronglySorted str_le l → StronglySorted str_le (dedup_adjacent l).
Proof.
  induction l as [|a l IH]; [done|]. intros Hs.
  apply StronglySorted_cons in Hs as [Ha Hs]. specialize (IH Hs).
  destruct l as [|b l]; [repeat constructor|].
  rewrite dedup_adjacent_cons2. destruct (String.eqb a b); [done|].
  constructor; [done|]. rewrite Forall_forall in Ha |- *.
  intros x Hx. apply Ha. by apply elem_of_dedup_adjacent.
Qed.

Lemma elem_of_np_unique k keys : k ∈ np_unique keys ↔ k ∈ keys.
Proof. unfold np_unique. by rewrite elem_of_dedup_adjacent, merge_sort_Permutation. Qed.

Lemma NoDup_np_unique keys : NoDup (np_unique keys).
Proof. apply NoDup_dedup_adjacent, StronglySorted_merge_sort; apply _. Qed.

Lemma StronglySorted_np_unique keys : StronglySorted str_le (np_unique keys).
Proof. apply StronglySorted_dedup_adjacent, StronglySorted_merge_sort; apply _. Qed.


(** ** Representation selector: properties *)

Section SelectorFacts.
Context {num : Type}.
Implicit Types (adata : @AnnData num) (val : @array num).

Lemma get_obs_rep_type_error adata use_raw layer obsm_key obsp_key :
  isinstance_bool use_raw = false →
  _get_obs_rep adata use_raw layer obsm_key obsp_key = Raise (TypeError_use_raw use_raw).
Proof. intros H. unfold _get_obs_rep. by rewrite H. Qed.

(** C6. With no selector set the read helper returns [adata.X]; with exactly
    one set it returns the array that selector names (the layer, [raw.X], the
    obsm block, the obsp block), the lookup failure of the container when
    there is no such array; with more than one set it stops at
    [assert choices_made <= 1] and returns no array. *)
Theorem get_obs_rep_selects adata :
  _get_obs_rep adata (PyBool false) None None None = Ok (X adata)
  ∧ (∀ l, _get_obs_rep adata (PyBool false) (Some l) None None
          = dict_getitem (layers adata) l)
  ∧ (∀ l a, layers adata !! l = Some a →
            _get_obs_rep adata (PyBool false) (Some l) None None = Ok a)
  ∧ _get_obs_rep adata (PyBool true) None None None
    = (r <- get_raw adata "X"; Ok (raw_X r))
  ∧ (∀ r, raw adata = Some r →
          _get_obs_rep adata (PyBool true) None None None = Ok (raw_X r))
  ∧ (∀ k, _get_obs_rep adata (PyBool false) None (Some k) None
          = dict_getitem (obsm adata) k)
  ∧ (∀ k a, obsm adata !! k = Some a →
            _get_obs_rep adata (PyBool false) None (Some k) None = Ok a)
  ∧ (∀ k, _get_obs_rep adata (PyBool false) None None (Some k)
          = dict_getitem (obsp adata) k)
  ∧ (∀ k a, obsp adata !! k = Some a →
            _get_obs_rep adata (PyBool false) None None (Some k) = Ok a)
  ∧ (∀ (use_raw : bool) layer obsm_key obsp_key,
       1 < choices_made (PyBool use_raw) layer obsm_key obsp_key →
       _get_obs_rep adata (PyBool use_raw) layer obsm_key obsp_key
       = Raise (AssertionError "")).
Proof.
  repeat split; try reflexivity.
  - intros l a Hl. cbn. unfold dict_getitem. by rewrite Hl.
  - intros r Hr. cbn. unfold get_raw. by rewrite Hr.
  - intros k a Hk. cbn. unfold dict_getitem. by rewrite Hk.
  - intros k a Hk. cbn. unfold dict_getitem. by rewrite Hk.
  - intros use_raw layer obsm_key obsp_key Hn. unfold _get_obs_rep.
    change (isinstance_bool (PyBool use_raw)) with true. cbv beta iota zeta delta [negb].
    destruct (choices_made (PyBool use_raw) layer obsm_key obsp_key <=? 1) eqn:E.
    + apply Nat.leb_le in E. lia.
    + reflexivity.
Qed.

(** C7. The write helper has no [isinstance(use_raw, bool)] test: given
    [None] or [0] it runs through the selector chain to the final
    [assert False], given [1] it assigns [adata.raw.X]; the read helper
    raises the type error on each of them. *)
Theorem set_obs_rep_no_type_error adata val :
  _set_obs_rep adata val PyNone None None None = Raise (AssertionError unexpected)
  ∧ _set_obs_rep adata val (PyInt 0) None None None = Raise (AssertionError unexpected)
  ∧ _set_obs_rep adata val (PyInt 1) None None None
    = (r <- get_raw adata "X"; Ok (set_raw_X adata r val))
  ∧ _get_obs_rep adata PyNone None None None = Raise (TypeError_use_raw PyNone)
  ∧ _get_obs_rep adata (PyInt 0) None None None = Raise (TypeError_use_raw (PyInt 0))
  ∧ _get_obs_rep adata (PyInt 1) None None None = Raise (TypeError_use_raw (PyInt 1)).
Proof. repeat split; reflexivity. Qed.

End SelectorFacts.

Lemma get_obs_rep_selects_witness :
  _get_obs_rep ex_adata (PyBool false) (Some "counts") None None
    = Ok (spmatrix [[0; 1; 0]; [2; 0; 0]]%Z)
  ∧ _get_obs_rep ex_adata (PyBool true) None None None = Ok (raw_X ex_raw)
  ∧ _get_obs_rep ex_adata (PyBool false) None (Some "X_pca") None
    = Ok (ndarray [[10; 20]; [30; 40]]%Z)
  ∧ _get_obs_rep ex_adata (PyBool false) None None (Some "distances")
    = Ok (spmatrix [[0; 1]; [1; 0]]%Z)
  ∧ _get_obs_rep ex_adata (PyBool true) (Some "counts") None None
    = Raise (AssertionError "").
Proof.
  destruct (get_obs_rep_selects ex_adata)
    as (_ & _ & Hlayer & _ & Hraw & _ & Hobsm & _ & Hobsp & Hmany).
  split; [apply Hlayer; reflexivity|].
  split; [apply Hraw; reflexivity|].
  split; [apply Hobsm; reflexivity|].
  split; [apply Hobsp; reflexivity|].
  apply Hmany. vm_compute. constructor.
Defined.

(** ** Positional indexing and [np.argsort] *)

Lemma np_getitem_nat {A} (a : list A) (i : nat) :
  np_getitem a (Z.of_nat i)
  = match a !! i with Some x => Ok x | None => Raise IndexError end.
Proof.
  unfold np_getitem.
  destruct (Z.ltb_spec (Z.of_nat i) 0); [lia|].
  destruct (Z.leb_spec 0 (Z.of_nat i)); [|lia]. rewrite Nat2Z.id.
  destruct (Z.ltb_spec (Z.of_nat i) (Z.of_nat (length a))); simpl; [done|].
  rewrite (proj2 (lookup_ge_None a i)); [done|lia].
Qed.

Lemma np_getitem_Raise {A} (a : list A) i e : np_getitem a i = Raise e → e = IndexError.
Proof.
  unfold np_getitem. destruct (_ && _); [|congruence].
  destruct (a !! _); congruence.
Qed.

Lemma mapM_result_Raise {A B} (f : A → result B) l e :
  mapM_result f l = Raise e → ∃ x, x ∈ l ∧ f x = Raise e.
Proof.
  induction l as [|x l IH]; simpl; [done|].
  destruct (f x) as [y|e'] eqn:E; simpl.
  - destruct (mapM_result f l) as [ys|e'']; simpl; [done|].
    intros [= ->]. destruct IH as (x' & ? & ?); [done|].
    exists x'. split; [by right|done].
  - intros [= ->]. exists x. split; [by left|done].
Qed.

Lemma np_take_Raise {A} (a : list A) idx e : np_take a idx = Raise e → e = IndexError.
Proof.
  intros H. apply mapM_result_Raise in H as (x & _ & H).
  by eapply np_getitem_Raise.
Qed.

Lemma mapM_result_fmap {A B C} (f : B → result C) (g : A → B) l :
  mapM_result f (g <$> l) = mapM_result (λ x, f (g x)) l.
Proof.
  induction l as [|x l IH]; [done|].
  rewrite fmap_cons. cbn [mapM_result]. by rewrite IH.
Qed.

Lemma mapM_result_is_Ok {A B} (f : A → result B) l :
  (∀ x, x ∈ l → ∃ y, f x = Ok y) → ∃ ys, mapM_result f l = Ok ys.
Proof.
  induction l as [|x l IH]; intros H; simpl; [by eexists|].
  destruct (H x) as [y ->]; [by left|]. simpl.
  destruct IH as [ys ->]; [|by eexists].
  intros x' Hx'. apply H. by right.
Qed.

Lemma result_eq_IndexError {A} (r1 r2 : result A) :
  (∀ x, r1 = Ok x ↔ r2 = Ok x) →
  (∀ e, r1 = Raise e → e = IndexError) →
  (∀ e, r2 = Raise e → e = IndexError) →
  r1 = r2.
Proof.
  intros HOk H1 H2. destruct r1 as [x|e1], r2 as [y|e2].
  - symmetry. by apply HOk.
  - by pose proof (proj1 (HOk x) eq_refl).
  - by pose proof (proj2 (HOk y) eq_refl).
  - by rewrite (H1 e1), (H2 e2).
Qed.

(** The pairs (value, position) of [v], in the order of [np.argsort]. *)
Definition argsorted (v : list Z) : list (Z * nat) :=
  merge_sort arg_le (zip v (seq 0 (length v))).

Global Instance arg_le_total : Total arg_le.
Proof. intros [x i] [y j]. unfold arg_le; simpl. lia. Qed.

Global Instance arg_le_trans : Transitive arg_le.
Proof. intros [x i] [y j] [z k]. unfold arg_le; simpl. lia. Qed.

Global Instance arg_le_antisymm : AntiSymm (=) arg_le.
Proof.
  intros [x i] [y j]. unfold arg_le; simpl. intros H1 H2.
  f_equal; lia.
Qed.

Lemma elem_of_zip_seq {A} (v : list A) x i :
  (x, i) ∈ zip v (seq 0 (length v)) ↔ v !! i = Some x.
Proof.
  rewrite list_elem_of_lookup. split.
  - intros (j & Hj). apply lookup_zip_with_Some in Hj as (x' & i' & [= <- <-] & Hx & Hi).
    apply lookup_seq in Hi as [-> _]. done.
  - intros Hx. exists i. apply lookup_zip_with_Some. exists x, i.
    split; [done|]. split; [done|]. apply lookup_seq. split; [done|].
    by eapply lookup_lt_Some.
Qed.

Lemma argsorted_Permutation v : argsorted v ≡ₚ zip v (seq 0 (length v)).
Proof. apply merge_sort_Permutation. Qed.

Lemma elem_of_argsorted v x i : (x, i) ∈ argsorted v ↔ v !! i = Some x.
Proof. by rewrite argsorted_Permutation, elem_of_zip_seq. Qed.

Lemma length_argsorted v : length (argsorted v) = length v.
Proof.
  rewrite argsorted_Permutation, length_zip, length_seq. lia.
Qed.

Lemma argsorted_positions v : (argsorted v).*2 ≡ₚ seq 0 (length v).
Proof.
  rewrite argsorted_Permutation. rewrite snd_zip; [done|]. by rewrite length_seq.
Qed.

Lemma argsorted_values v : (argsorted v).*1 ≡ₚ v.
Proof.
  rewrite argsorted_Permutation. rewrite fst_zip; [done|]. by rewrite length_seq.
Qed.

Lemma np_argsort_argsorted v : np_argsort v = Z.of_nat <$> (argsorted v).*2.
Proof. unfold np_argsort, argsorted. by rewrite <-list_fmap_compose. Qed.

Lemma length_np_argsort v : length (np_argsort v) = length v.
Proof. by rewrite np_argsort_argsorted, !length_fmap, length_argsorted. Qed.

(** The values of [v] taken in the order of [np.argsort(v)] are ascending. *)
Lemma argsorted_ascending v : StronglySorted Z.le (argsorted v).*1.
Proof.
  apply (StronglySorted_fmap fst arg_le Z.le).
  - intros [x i] [y j]. unfold arg_le; simpl. lia.
  - apply StronglySorted_merge_sort; apply _.
Qed.

(** [v[np.argsort(v)]] is defined, and is [v] sorted. *)
Lemma np_take_argsort v : np_take v (np_argsort v) = Ok (argsorted v).*1.
Proof.
  unfold np_take. rewrite np_argsort_argsorted, <-list_fmap_compose, mapM_result_fmap.
  apply mapM_result_total. intros [x i] Hxi. simpl.
  rewrite np_getitem_nat. apply elem_of_argsorted in Hxi. by rewrite Hxi.
Qed.

Lemma StronglySorted_seq a n : StronglySorted Z.le (Z.of_nat <$> seq a n).
Proof.
  revert a. induction n as [|n IH]; intros a; [constructor|].
  cbn. constructor; [apply IH|].
  apply Forall_forall. intros z Hz.
  apply list_elem_of_fmap in Hz as (i & -> & Hi). apply elem_of_seq in Hi. lia.
Qed.

(** Sorting the positions [np.argsort(v)] gives back [0, 1, ..., n-1]. *)
Lemma argsorted_argsort_values v :
  (argsorted (np_argsort v)).*1 = Z.of_nat <$> seq 0 (length v).
Proof.
  apply (StronglySorted_unique_strong Z.le).
  - intros x y _ _. lia.
  - apply argsorted_ascending.
  - apply StronglySorted_seq.
  - rewrite argsorted_values, np_argsort_argsorted.
    by rewrite argsorted_positions.
Qed.

(** [np.argsort(np.argsort(v))] is the inverse of the permutation
    [np.argsort(v)]: at [t] it holds the place where [np.argsort(v)] holds
    [t]. *)
Lemma argsort_inverse v t :
  t < length v →
  ∃ j x, np_argsort (np_argsort v) !! t = Some (Z.of_nat j)
         ∧ argsorted v !! j = Some (x, t)
         ∧ v !! t = Some x.
Proof.
  intros Ht.
  assert ((argsorted (np_argsort v)).*1 !! t = Some (Z.of_nat t)) as H1.
  { rewrite argsorted_argsort_values, list_lookup_fmap, lookup_seq_lt by done. done. }
  rewrite list_lookup_fmap in H1.
  destruct (argsorted (np_argsort v) !! t) as [[z j]|] eqn:E; [|done].
  simpl in H1. injection H1 as ->.
  assert ((Z.of_nat t, j) ∈ argsorted (np_argsort v)) as Hin.
  { apply list_elem_of_lookup. eauto. }
  apply elem_of_argsorted in Hin.
  rewrite np_argsort_argsorted, !list_lookup_fmap in Hin.
  destruct (argsorted v !! j) as [[x t']|] eqn:E'; [|done].
  simpl in Hin. injection Hin as Hin. apply Nat2Z.inj in Hin as ->.
  exists j, x. split; [|split; [done|]].
  - rewrite (np_argsort_argsorted (np_argsort v)), !list_lookup_fmap, E. done.
  - apply elem_of_argsorted, list_elem_of_lookup. eauto.
Qed.

(** Fetching in ascending order and un-sorting afterwards is fetching in
    the requested order. *)
Lemma take_sorted_unsort {A} (a : list A) v :
  (r1 <- np_take a (argsorted v).*1; np_take r1 (np_argsort (np_argsort v)))
  = np_take a v.
Proof.
  apply result_eq_IndexError.
  - intros r. rewrite bind_Ok. unfold np_take. split.
    + intros (r1 & H1 & H2). apply mapM_result_Ok in H1, H2.
      apply mapM_result_Ok, Forall2_same_length_lookup. split.
      { apply Forall2_length in H2. by rewrite !length_np_argsort in H2. }
      intros i x y Hx Hy.
      destruct (argsort_inverse v i) as (j & x' & Hq & Hs & Hv);
        [by eapply lookup_lt_Some|]. simplify_eq.
      pose proof (Forall2_lookup_lr _ _ _ _ _ _ H2 Hq Hy) as Hj.
      cbv beta in Hj. rewrite np_getitem_nat in Hj.
      destruct (r1 !! j) as [y'|] eqn:Ej; [|done]. simplify_eq.
      assert ((argsorted v).*1 !! j = Some x) as Hsj
        by (by rewrite list_lookup_fmap, Hs).
      exact (Forall2_lookup_lr _ _ _ _ _ _ H1 Hsj Ej).
    + intros H. apply mapM_result_Ok in H.
      destruct (mapM_result_is_Ok (np_getitem a) (argsorted v).*1) as [r1 H1].
      { intros x Hx. rewrite argsorted_values in Hx.
        apply list_elem_of_lookup in Hx as [i Hi].
        destruct (Forall2_lookup_l _ _ _ _ _ H Hi) as (y & _ & ?). eauto. }
      exists r1. split; [done|]. apply mapM_result_Ok in H1.
      apply mapM_result_Ok, Forall2_same_length_lookup. split.
      { apply Forall2_length in H. by rewrite !length_np_argsort. }
      intros i zi y Hq Hy.
      destruct (argsort_inverse v i) as (j & x & Hq' & Hs & Hv).
      { apply lookup_lt_Some in Hq. by rewrite !length_np_argsort in Hq. }
      simplify_eq. rewrite np_getitem_nat.
      assert ((argsorted v).*1 !! j = Some x) as Hsj
        by (by rewrite list_lookup_fmap, Hs).
      destruct (Forall2_lookup_l _ _ _ _ _ H1 Hsj) as (y' & -> & Hy').
      pose proof (Forall2_lookup_lr _ _ _ _ _ _ H Hv Hy) as Hxy.
      cbv beta in Hxy, Hy'. congruence.
  - intros e He. apply bind_Raise in He as [He|(r1 & _ & He)];
      by eapply np_take_Raise.
  - apply np_take_Raise.
Qed.

Lemma mapM_result_bind_Ok {A B C} (f : A → result B) (g : B → result C) l zs :
  (ys <- mapM_result f l; mapM_result g ys) = Ok zs
  ↔ mapM_result (λ x, y <- f x; g y) l = Ok zs.
Proof.
  revert zs. induction l as [|x l IH]; intros zs; [done|].
  cbn [mapM_result]. destruct (f x) as [y|e]; [|done]. cbn [bind].
  destruct (mapM_result f l) as [ys|e] eqn:E; cbn [bind mapM_result] in *.
  - destruct (g y) as [z|e]; [|done]. cbn [bind].
    destruct (mapM_result g ys) as [zs1|e1],
             (mapM_result (λ x, y <- f x; g y) l) as [zs2|e2]; cbn [bind].
    + by pose proof (proj1 (IH zs1) eq_refl) as [= ->].
    + by pose proof (proj1 (IH zs1) eq_refl).
    + by pose proof (proj2 (IH zs2) eq_refl).
    + done.
  - destruct (g y) as [z|e']; [|done]. cbn [bind].
    destruct (mapM_result (λ x, y <- f x; g y) l) as [zs2|e2]; [|done].
    by pose proof (proj2 (IH zs2) eq_refl).
Qed.

Lemma mapM_result_bind_IndexError {A B C} (f : A → result B) (g : B → result C) l :
  (∀ x e, f x = Raise e → e = IndexError) →
  (∀ y e, g y = Raise e → e = IndexError) →
  (ys <- mapM_result f l; mapM_result g ys) = mapM_result (λ x, y <- f x; g y) l.
Proof.
  intros Hf Hg. apply result_eq_IndexError.
  - intros zs. apply mapM_result_bind_Ok.
  - intros e He. apply bind_Raise in He as [He|(ys & _ & He)];
      apply mapM_result_Raise in He as (x & _ & He); eauto.
  - intros e He. apply mapM_result_Raise in He as (x & _ & He).
    apply bind_Raise in He as [He|(y & _ & He)]; eauto.
Qed.

Lemma bind_assoc {A B C} (r : result A) (f : A → result B) (g : B → result C) :
  (y <- (x <- r; f x); g y) = (x <- r; y <- f x; g y).
Proof. by destruct r. Qed.

Section BackedFetch.
Context {num : Type}.
Implicit Types (X : @array num).

(** The column positions a backed store is asked for are ascending. *)
Lemma backed_positions_ascending (var_idx : list Z) :
  ∃ sorted_idx, np_take var_idx (np_argsort var_idx) = Ok sorted_idx
                ∧ StronglySorted Z.le sorted_idx
                ∧ sorted_idx ≡ₚ var_idx.
Proof.
  exists (argsorted var_idx).*1.
  split; [apply np_take_argsort|]. split; [apply argsorted_ascending|].
  apply argsorted_values.
Qed.

Lemma columns_sorted_unsort (m : list (list num)) v :
  (m1 <- mapM_result (λ row, np_take row (argsorted v).*1) m;
   mapM_result (λ row, np_take row (np_argsort (np_argsort v))) m1)
  = mapM_result (λ row, np_take row v) m.
Proof.
  rewrite mapM_result_bind_IndexError.
  - apply mapM_result_ext. intros row _. apply take_sorted_unsort.
  - intros row e. apply np_take_Raise.
  - intros row e. apply np_take_Raise.
Qed.

(** The sorted fetch followed by the un-sorting is the direct fetch. *)
Lemma backed_columns_eq X var_idx :
  backed_columns X var_idx = getitem_columns X var_idx.
Proof.
  unfold backed_columns. rewrite np_take_argsort. cbn [bind].
  destruct X as [m|m|cols]; cbn [getitem_columns]; [| |done].
  - rewrite bind_assoc. cbn [bind getitem_columns].
    rewrite <-(columns_sorted_unsort m var_idx), bind_assoc. done.
  - rewrite bind_assoc. cbn [bind getitem_columns].
    rewrite <-(columns_sorted_unsort m var_idx), bind_assoc. done.
Qed.

Lemma backed_rows_eq X obs_idx :
  backed_rows X obs_idx = getitem_rows X obs_idx.
Proof.
  unfold backed_rows. rewrite np_take_argsort. cbn [bind].
  destruct X as [m|m|cols]; cbn [getitem_rows]; [| |done].
  - rewrite bind_assoc. cbn [bind getitem_rows].
    rewrite <-(take_sorted_unsort m obs_idx), bind_assoc. done.
  - rewrite bind_assoc. cbn [bind getitem_rows].
    rewrite <-(take_sorted_unsort m obs_idx), bind_assoc. done.
Qed.

End BackedFetch.

(** ** Tables: selection and assignment of columns *)

Lemma filter_nil_intro {A} (P : A → Prop) `{∀ x, Decision (P x)} (l : list A) :
  (∀ x, x ∈ l → ¬ P x) → filter P l = [].
Proof.
  induction l as [|x l IH]; intros Hl; [done|].
  rewrite filter_cons_False by (apply Hl; by left).
  apply IH. intros y Hy. apply Hl. by right.
Qed.

Section TableFacts.
Context {num : Type}.
Implicit Types (df wide : @DataFrame num).

(** The first column of [wide] labelled [k] (empty when there is none). *)
Definition column_of wide (k : string) : list (@cell num) :=
  match columns_labelled wide k with
  | c :: _ => c.2
  | [] => []
  end.

Lemma filter_label_NoDup (cols : list (string * list (@cell num))) k :
  NoDup cols.*1 →
((k ∉ fst <$> cols) ∧ filter (λ e, e.1 = k) cols = [])
  ∨ (∃ c, (k, c) ∈ cols ∧ filter (λ e, e.1 = k) cols = [(k, c)]).
Proof.
  induction cols as [|[k' c'] cols IH]; intros Hnd.
  - left. split; [apply not_elem_of_nil|done].
  - rewrite fmap_cons in Hnd. apply NoDup_cons in Hnd as [Hk' Hnd]. simpl in Hk'.
    rewrite filter_cons. simpl. destruct (decide (k' = k)) as [->|Hne].
    + right. exists c'. split; [by left|]. f_equal.
      apply filter_nil_intro. intros [k2 c2] Hin Heq. simpl in Heq. subst k2.
      apply Hk'.
      apply list_elem_of_fmap. by exists (k, c2).
    + destruct (IH Hnd) as [[Hk Hf]|(c & Hin & Hf)].
      * left. split; [|done]. apply not_elem_of_cons. done.
      * right. exists c. split; [by right|done].
Qed.

Lemma columns_labelled_NoDup wide k :
  NoDup (labels wide) →
((k ∉ labels wide) ∧ columns_labelled wide k = [])
  ∨ columns_labelled wide k = [(k, column_of wide k)].
Proof.
  intros Hnd. unfold column_of, columns_labelled.
  destruct (filter_label_NoDup (columns wide) k Hnd) as [?|(c & _ & ->)]; [by left|].
  by right.
Qed.

Lemma concat_singletons {A} (l : list A) : concat ((λ x, [x]) <$> l) = l.
Proof. induction l as [|x l IH]; [done|]. rewrite fmap_cons. simpl. by rewrite IH. Qed.

(** Selecting [keys] from a table with distinct labels yields the columns
    of [keys], one per key, in the order and with the repeats of [keys]. *)
Lemma df_getitem_list_NoDup wide keys df :
  NoDup (labels wide) →
  df_getitem_list wide keys = Ok df →
  index df = index wide
  ∧ columns df = (λ k, (k, column_of wide k)) <$> keys
  ∧ Forall (λ k, k ∈ labels wide) keys.
Proof.
  intros Hnd. unfold df_getitem_list. rewrite bind_Ok.
  intros (cols & Hcols & [= <-]). simpl. split; [done|].
  apply mapM_result_Ok in Hcols.
  induction Hcols as [|k cs keys cols Hk _ IH]; [done|].
  destruct (columns_labelled_NoDup wide k Hnd) as [[_ E]|E]; rewrite E in Hk; [done|].
  injection Hk as <-. cbn [concat app]. destruct IH as [-> IH]. split.
  - by rewrite fmap_cons.
  - constructor; [|done].
    assert ((k, column_of wide k) ∈ columns_labelled wide k) as Hin
      by (rewrite E; by left).
    apply list_elem_of_filter in Hin as [_ Hin].
    apply list_elem_of_fmap. by exists (k, column_of wide k).
Qed.

Lemma df_getitem_list_is_Ok wide keys :
  NoDup (labels wide) →
  Forall (λ k, k ∈ labels wide) keys →
  ∃ df, df_getitem_list wide keys = Ok df.
Proof.
  intros Hnd Hkeys. unfold df_getitem_list.
  destruct (mapM_result_is_Ok
              (λ key, match columns_labelled wide key with
                      | [] => Raise (KeyError key)
                      | cs => Ok cs
                      end) keys) as [cols ->]; [|by eexists].
  intros k Hk. rewrite Forall_forall in Hkeys.
  destruct (columns_labelled_NoDup wide k Hnd) as [[Hnot _]|E];
    [|rewrite E; by eexists].
  destruct Hnot. by apply Hkeys.
Qed.

(** The label [f"{k}-{idx}"] of a block column. *)
Definition block_label (k_idx : string * Z) : string :=
  k_idx.1 +:+ "-" +:+ pretty k_idx.2.

(** The column a pair (block, index) designates. *)
Definition block_column (blocks : gmap string (@array num)) (k_idx : string * Z)
    : result (list (@cell num)) :=
  val <- dict_getitem blocks k_idx.1;
  match val with
  | ndarray m => col <- getitem_column m k_idx.2; Ok (Num <$> col)
  | spmatrix m => col <- getitem_column m k_idx.2; Ok (Num <$> col)
  | table cols => loc_column cols k_idx.2
  end.

Lemma add_block_column_eq blocks df k_idx :
  add_block_column blocks df k_idx
  = (col <- block_column blocks k_idx; df_setitem df (block_label k_idx) col).
Proof.
  destruct k_idx as [k idx]. unfold add_block_column, block_column, block_label.
  cbn [fst snd]. destruct (dict_getitem blocks k) as [[m|m|cols]|e]; cbn [bind]; [| | |done].
  - by destruct (getitem_column m idx).
  - by destruct (getitem_column m idx).
  - by destruct (loc_column cols idx).
Qed.

Lemma df_setitem_Ok df label col df' :
  df_setitem df label col = Ok df' →
  index df' = index df
  ∧ length col = length (index df)
  ∧ columns df'
    = if label_in label (labels df)
      then (λ e, if String.eqb e.1 label then (e.1, col) else e) <$> columns df
      else columns df ++ [(label, col)].
Proof.
  unfold df_setitem. destruct (Nat.eqb_spec (length col) (length (index df))); [|done].
  cbn [negb]. destruct (label_in label (labels df)); intros [= <-]; done.
Qed.

(** Assigning columns under fresh, distinct labels appends them in call
    order. *)
Lemma foldM_add_block_column_fresh blocks df l df' :
  foldM (add_block_column blocks) df l = Ok df' →
  NoDup (block_label <$> l) →
  (∀ x, x ∈ l → block_label x ∉ labels df) →
  index df' = index df
  ∧ ∃ cols, columns df' = columns df ++ cols ∧ cols.*1 = block_label <$> l.
Proof.
  revert df. induction l as [|x l IH]; intros df Hfold Hnd Hfresh.
  - injection Hfold as <-. split; [done|]. exists []. by rewrite app_nil_r.
  - cbn [foldM] in Hfold. apply bind_Ok in Hfold as (df1 & Hadd & Hfold).
    rewrite add_block_column_eq in Hadd. apply bind_Ok in Hadd as (col & _ & Hset).
    apply df_setitem_Ok in Hset as (Hidx & _ & Hcols).
    unfold label_in in Hcols. rewrite bool_decide_eq_false_2 in Hcols
      by (apply Hfresh; by left).
    rewrite fmap_cons in Hnd. apply NoDup_cons in Hnd as [Hx Hnd].
    destruct (IH df1 Hfold Hnd) as (Hidx' & cols & Hcols' & Hlabels).
    { intros y Hy. unfold labels. rewrite Hcols, fmap_app. cbn.
      rewrite elem_of_app, list_elem_of_singleton. intros [Hin|Heq].
      - revert Hin. apply Hfresh. by right.
      - apply Hx. rewrite <-Heq. by apply list_elem_of_fmap_2. }
    split; [congruence|]. exists ((block_label x, col) :: cols). split.
    + by rewrite Hcols', Hcols, <-app_assoc.
    + by rewrite !fmap_cons, Hlabels.
Qed.



End TableFacts.

(** ** The key loop of [obs_df] *)

Section ObsDfLoop.
Context {num : Type}.
Context (obs_columns : list string) (gene_names : list (@cell num * string))
        (gene_symbols : option string).

(** What the loop body raises at [key], if anything. *)
Definition key_error (key : string) : option exn :=
  if label_in key obs_columns then
    if series_has gene_names key then Some (KeyError_both key) else None
  else if series_has gene_names key then
    match series_getitem gene_names key with
    | [_] => None
    | _ => Some match gene_symbols with
                | None => AssertionError ""
                | Some gs => KeyError_duplicate_symbol key gs
                end
    end
  else None.

(** The three ways a key resolves. *)
Definition is_obs_key (key : string) : Prop := label_in key obs_columns.
Definition is_var_key (key : string) : Prop :=
  negb (label_in key obs_columns) && series_has gene_names key.
Definition is_unresolved (key : string) : Prop :=
  negb (label_in key obs_columns) && negb (series_has gene_names key).

(** The feature name a feature key stands for. *)
Definition var_name_of (key : string) : string :=
  match series_getitem gene_names key with
  | val :: _ => val
  | [] => ""
  end.

Definition loop_state : Type := list string * list string * list string * list string.

Definition loop_result (st : loop_state) (ks : list string) : loop_state :=
  let '(o, v, s, n) := st in
  (o ++ filter is_obs_key ks,
   v ++ (var_name_of <$> filter is_var_key ks),
   s ++ filter is_var_key ks,
   n ++ filter is_unresolved ks).

Lemma obs_df_key_error st key e :
  key_error key = Some e →
  obs_df_key obs_columns gene_names gene_symbols st key = Raise e.
Proof.
  destruct st as [[[o v] s] n]. unfold key_error, obs_df_key.
  destruct (label_in key obs_columns).
  - destruct (series_has gene_names key); congruence.
  - destruct (series_has gene_names key); [|done].
    destruct (series_getitem gene_names key) as [|val [|val' vals]]; [|done|];
      destruct gene_symbols; congruence.
Qed.

Lemma obs_df_key_step st key :
  key_error key = None →
  obs_df_key obs_columns gene_names gene_symbols st key = Ok (loop_result st [key]).
Proof.
  destruct st as [[[o v] s] n].
  unfold key_error, obs_df_key, loop_result, is_obs_key, is_var_key, is_unresolved,
    var_name_of.
  rewrite !filter_cons, !filter_nil.
  destruct (label_in key obs_columns); cbn [negb andb].
  - destruct (series_has gene_names key); [done|]. intros _.
    rewrite decide_True by done. rewrite !decide_False by (by intros []).
    by rewrite !app_nil_r.
  - destruct (series_has gene_names key).
    + destruct (series_getitem gene_names key) as [|val [|val' vals]] eqn:E;
        [by destruct gene_symbols| |by destruct gene_symbols].
      intros _. rewrite decide_False by (by intros []).
      rewrite decide_True by done. rewrite decide_False by (by intros []).
      cbn. rewrite E. by rewrite !app_nil_r.
    + intros _. rewrite !decide_False by (by intros []).
      rewrite decide_True by done. by rewrite !app_nil_r.
Qed.

Lemma loop_result_app st ks1 ks2 :
  loop_result st (ks1 ++ ks2) = loop_result (loop_result st ks1) ks2.
Proof.
  destruct st as [[[o v] s] n]. unfold loop_result.
  by rewrite !filter_app, fmap_app, !app_assoc.
Qed.

Lemma obs_df_loop_Ok st ks :
  Forall (λ k, key_error k = None) ks →
  foldM (obs_df_key obs_columns gene_names gene_symbols) st ks
  = Ok (loop_result st ks).
Proof.
  intros H. revert st. induction H as [|k ks Hk _ IH]; intros st.
  - destruct st as [[[o v] s] n]. cbn. by rewrite !app_nil_r.
  - cbn [foldM]. rewrite obs_df_key_step by done. cbn [bind].
    rewrite IH. by rewrite <-loop_result_app.
Qed.

Lemma obs_df_loop_Raise st ks1 k ks2 e :
  Forall (λ k, key_error k = None) ks1 →
  key_error k = Some e →
  foldM (obs_df_key obs_columns gene_names gene_symbols) st (ks1 ++ k :: ks2)
  = Raise e.
Proof.
  intros H1 Hk. rewrite foldM_app, obs_df_loop_Ok by done. cbn [bind foldM].
  by rewrite (obs_df_key_error _ _ e).
Qed.

(** Either no key raises, or there is a first one that does. *)
Lemma first_key_error ks :
  Forall (λ k, key_error k = None) ks
  ∨ ∃ ks1 k ks2 e, ks = ks1 ++ k :: ks2
                   ∧ Forall (λ k, key_error k = None) ks1
                   ∧ key_error k = Some e.
Proof.
  induction ks as [|k ks IH]; [by left|].
  destruct (key_error k) as [e|] eqn:E.
  - right. by exists [], k, ks, e.
  - destruct IH as [IH|(ks1 & k' & ks2 & e & -> & H1 & Hk)].
    + left. by constructor.
    + right. exists (k :: ks1), k', ks2, e. split; [done|]. split; [|done].
      by constructor.
Qed.

End ObsDfLoop.

(** ** [obs_df]: the table before the keys are put in requested order *)

Section ObsDfFacts.
Context {num : Type}.
Implicit Types (adata : @AnnData num) (df wide : @DataFrame num).

(** The table [obs_df] holds when it reaches [df = df[keys]], as a function
    of the distinct keys [ks]; the features are fetched directly. *)
Definition obs_df_wide adata (ks : list string)
    (layer gene_symbols : option string) (use_raw : bool) : result DataFrame :=
  gene_names <- obs_df_gene_names adata layer gene_symbols use_raw;
  if negb (is_unique (labels (obs adata)))
  then Raise (ValueError_duplicated_columns (duplicated [] (labels (obs adata)))) else
  if negb (is_unique (var_names adata))
  then Raise ValueError_duplicated_var_names else
  st <- foldM (obs_df_key (labels (obs adata)) gene_names gene_symbols)
         ([], [], [], []) ks;
  let '(obs_names_, var_names_, var_symbol, not_found) := st in
  if 0 <? length not_found
  then Raise (KeyError_not_found not_found (gene_error use_raw gene_symbols)) else
  let df := {| index := index (obs adata); columns := [] |} in
  df <-
    (if 0 <? length var_names_ then
       X <- _get_obs_rep adata (PyBool use_raw) layer None None;
       var_idx <-
         (if use_raw
          then r <- get_raw adata "var_names"; get_indexer (raw_var_names r) var_names_
          else get_indexer (var_names adata) var_names_);
       matrix <- getitem_columns X var_idx;
       let matrix := if issparse matrix then toarray matrix else matrix in
       values <- DataFrame_of matrix var_symbol (index (obs adata));
       Ok (concat_axis1 df values)
     else Ok df);
  if 0 <? length obs_names_ then
    values <- df_getitem_list (obs adata) obs_names_;
    Ok (concat_axis1 df values)
  else Ok df.

Lemma obs_df_unfold adata keys obsm_keys layer gene_symbols use_raw :
  obs_df adata keys obsm_keys layer gene_symbols use_raw
  = (wide <- obs_df_wide adata (np_unique keys) layer gene_symbols use_raw;
     df <- df_getitem_list wide keys;
     foldM (add_block_column (obsm adata)) df obsm_keys).
Proof.
  unfold obs_df, obs_df_wide.
  destruct (obs_df_gene_names adata layer gene_symbols use_raw) as [gn|]; [|done].
  cbn [bind]. destruct (negb (is_unique (labels (obs adata)))); [done|].
  destruct (negb (is_unique (var_names adata))); [done|].
  destruct (foldM _ _ _) as [[[[o v] s] n]|]; [|done]. cbn [bind].
  destruct (0 <? length n); [done|].
  destruct (0 <? length v).
  - destruct (_get_obs_rep adata (PyBool use_raw) layer None None) as [X|]; [|done].
    cbn [bind].
    destruct (if use_raw then _ else _) as [var_idx|]; [|done]. cbn [bind].
    assert ((if isbacked adata then backed_columns X var_idx
             else getitem_columns X var_idx) = getitem_columns X var_idx) as ->.
    { destruct (isbacked adata); [apply backed_columns_eq|done]. }
    destruct (getitem_columns X var_idx) as [matrix|]; [|done]. cbn [bind].
    destruct (DataFrame_of _ _ _) as [values|]; [|done]. cbn [bind].
    destruct (0 <? length o); [|done].
    by destruct (df_getitem_list (obs adata) o).
  - cbn [bind]. destruct (0 <? length o); [|done].
    by destruct (df_getitem_list (obs adata) o).
Qed.

Lemma DataFrame_of_Ok (matrix : @array num) (ls idx : list string) df :
  DataFrame_of matrix ls idx = Ok df → index df = idx ∧ labels df = ls.
Proof.
  unfold DataFrame_of. destruct matrix as [m| |]; [|done..].
  destruct (negb _); [done|]. rewrite bind_Ok. intros (cols & Hcols & [= <-]).
  split; [done|]. unfold labels. cbn. apply fst_zip.
  apply mapM_result_length in Hcols.
  rewrite length_fmap, Hcols, length_fmap, length_seq. done.
Qed.

Lemma length_zero_nil {A} (l : list A) : (0 <? length l) = false → l = [].
Proof. destruct l; [done|]. by cbn. Qed.

(** The table holds one column per distinct key. *)
Lemma obs_df_wide_Ok adata ks layer gene_symbols use_raw wide :
  obs_df_wide adata ks layer gene_symbols use_raw = Ok wide →
  NoDup ks →
  index wide = index (obs adata)
  ∧ NoDup (labels wide)
  ∧ ∀ k, k ∈ labels wide ↔ k ∈ ks.
Proof.
  unfold obs_df_wide. rewrite bind_Ok. intros (gn & _ & H) Hnd. revert H.
  destruct (is_unique (labels (obs adata))) eqn:Hobs; [|done]. cbn [negb].
  apply bool_decide_eq_true in Hobs.
  destruct (negb (is_unique (var_names adata))); [done|].
  destruct (first_key_error (labels (obs adata)) gn gene_symbols ks)
    as [Hok|(ks1 & k & ks2 & e & -> & H1 & Hk)];
    [|by rewrite (obs_df_loop_Raise _ _ _ _ _ _ _ e)].
  rewrite obs_df_loop_Ok by done. cbn [bind loop_result app].
  set (o := filter (is_obs_key (labels (obs adata))) ks).
  set (s := filter (is_var_key (labels (obs adata)) gn) ks).
  set (n := filter (is_unresolved (labels (obs adata)) gn) ks).
  destruct (0 <? length n) eqn:Hn; [done|]. apply length_zero_nil in Hn.
  rewrite bind_Ok. intros (df1 & Hdf1 & Hwide).
  assert (index df1 = index (obs adata) ∧ labels df1 = s) as [Hi1 Hl1].
  { destruct (0 <? length _) eqn:Hv.
    - apply bind_Ok in Hdf1 as (X & _ & Hdf1).
      apply bind_Ok in Hdf1 as (var_idx & _ & Hdf1).
      apply bind_Ok in Hdf1 as (matrix & _ & Hdf1).
      apply bind_Ok in Hdf1 as (values & Hvalues & [= <-]).
      apply DataFrame_of_Ok in Hvalues as [? Hl]. split; [done|].
      unfold labels, concat_axis1 in *. cbn. done.
    - injection Hdf1 as <-. split; [done|]. apply length_zero_nil in Hv.
      apply fmap_nil_inv in Hv. by rewrite Hv. }
  assert (index wide = index (obs adata) ∧ labels wide = s ++ o) as [Hi Hl].
  { destruct (0 <? length o) eqn:Ho.
    - apply bind_Ok in Hwide as (values & Hvalues & [= <-]).
      apply df_getitem_list_NoDup in Hvalues as (_ & Hcols & _); [|done].
      split; [done|]. unfold labels, concat_axis1 in *. cbn.
      rewrite fmap_app, Hl1, Hcols, <-list_fmap_compose. f_equal.
      apply list_fmap_id.
    - injection Hwide as <-. split; [done|]. apply length_zero_nil in Ho.
      by rewrite Ho, app_nil_r. }
  split; [done|]. rewrite Hl. split.
  - apply NoDup_app. split; [by apply NoDup_filter|]. split; [|by apply NoDup_filter].
    intros k [Hs _]%list_elem_of_filter [Ho _]%list_elem_of_filter.
    unfold is_var_key, is_obs_key in *. by destruct (label_in k (labels (obs adata))).
  - intros k. rewrite elem_of_app. unfold s, o. rewrite !list_elem_of_filter. split.
    + by intros [[_ ?]|[_ ?]].
    + intros Hk. assert (k ∉ n) as Hkn by (rewrite Hn; apply not_elem_of_nil).
      unfold n in Hkn. rewrite list_elem_of_filter in Hkn.
      unfold is_var_key, is_obs_key, is_unresolved in *.
      destruct (label_in k (labels (obs adata))); [by right|].
      destruct (series_has gn k); [by left|]. destruct Hkn. done.
Qed.

End ObsDfFacts.

(** ** [var_df]: the key loop and the table before [df[keys]] *)

Section VarDfFacts.
Context {num : Type}.
Implicit Types (adata : @AnnData num) (df wide : @DataFrame num).

Definition is_obs_name adata (key : string) : Prop := label_in key (obs_names adata).
Definition is_var_column adata (key : string) : Prop :=
  negb (label_in key (obs_names adata)) && label_in key (labels (var adata)).
Definition is_missing adata (key : string) : Prop :=
  negb (label_in key (obs_names adata)) && negb (label_in key (labels (var adata))).

Lemma var_df_loop adata ks o v n :
  fold_left (var_df_key adata) ks (o, v, n)
  = (o ++ filter (is_obs_name adata) ks,
     v ++ filter (is_var_column adata) ks,
     n ++ filter (is_missing adata) ks).
Proof.
  revert o v n. induction ks as [|k ks IH]; intros o v n.
  - cbn. by rewrite !app_nil_r.
  - cbn [fold_left]. unfold var_df_key at 2.
    rewrite (filter_cons (is_obs_name adata)), (filter_cons (is_var_column adata)),
      (filter_cons (is_missing adata)).
    destruct (decide (is_obs_name adata k)) as [H1|H1],
             (decide (is_var_column adata k)) as [H2|H2],
             (decide (is_missing adata k)) as [H3|H3];
      unfold is_obs_name, is_var_column, is_missing in H1, H2, H3;
      destruct (label_in k (obs_names adata)),
               (label_in k (labels (var adata)));
      cbn in H1, H2, H3; try tauto;
      by rewrite IH, <-?app_assoc.
Qed.

(** The table [var_df] holds when it reaches [df = df[keys]], as a function
    of the distinct keys [ks]; the observations are fetched directly. *)
Definition var_df_wide adata (ks : list string) (layer : option string)
    : result DataFrame :=
  let '(obs_names_, var_names_, not_found) :=
    fold_left (var_df_key adata) ks ([], [], []) in
  if 0 <? length not_found
  then Raise (KeyError_not_found not_found "`adata.obs_names`") else
  let df := {| index := index (var adata); columns := [] |} in
  df <-
    (if 0 <? length obs_names_ then
       X <- _get_obs_rep adata (PyBool false) layer None None;
       obs_idx <- get_indexer (obs_names adata) obs_names_;
       matrix <- getitem_rows X obs_idx;
       let matrix := if issparse matrix then toarray matrix else matrix in
       values <- DataFrame_of_T matrix obs_names_ (index (var adata));
       Ok (concat_axis1 df values)
     else Ok df);
  if 0 <? length var_names_ then
    values <- df_getitem_list (var adata) var_names_;
    Ok (concat_axis1 df values)
  else Ok df.

Lemma var_df_unfold adata keys varm_keys layer :
  var_df adata keys varm_keys layer
  = (wide <- var_df_wide adata (np_unique keys) layer;
     df <- df_getitem_list wide keys;
     foldM (add_block_column (varm adata)) df varm_keys).
Proof.
  unfold var_df, var_df_wide.
  destruct (fold_left _ _ _) as [[o v] n].
  destruct (0 <? length n); [done|].
  destruct (0 <? length o).
  - destruct (_get_obs_rep adata (PyBool false) layer None None) as [X|]; [|done].
    cbn [bind].
    destruct (get_indexer (obs_names adata) o) as [obs_idx|]; [|done]. cbn [bind].
    assert ((if isbacked adata then backed_rows X obs_idx
             else getitem_rows X obs_idx) = getitem_rows X obs_idx) as ->.
    { destruct (isbacked adata); [apply backed_rows_eq|done]. }
    destruct (getitem_rows X obs_idx) as [matrix|]; [|done]. cbn [bind].
    destruct (DataFrame_of_T _ _ _) as [values|]; [|done]. cbn [bind].
    destruct (0 <? length v); [|done].
    by destruct (df_getitem_list (var adata) v).
  - cbn [bind]. destruct (0 <? length v); [|done].
    by destruct (df_getitem_list (var adata) v).
Qed.

End VarDfFacts.

(** ** [obs_df]: columns of the result *)

Section ObsDfColumns.
Context {num : Type}.
Implicit Types (adata : @AnnData num) (df : @DataFrame num).

Lemma obs_df_Ok adata keys obsm_keys layer gene_symbols use_raw df :
  obs_df adata keys obsm_keys layer gene_symbols use_raw = Ok df →
  ∃ wide df0,
    obs_df_wide adata (np_unique keys) layer gene_symbols use_raw = Ok wide
    ∧ NoDup (labels wide)
    ∧ index df0 = index (obs adata)
    ∧ columns df0 = (λ k, (k, column_of wide k)) <$> keys
    ∧ foldM (add_block_column (obsm adata)) df0 obsm_keys = Ok df.
Proof.
  rewrite obs_df_unfold, bind_Ok. intros (wide & Hwide & H).
  apply bind_Ok in H as (df0 & Hdf0 & Hfold).
  destruct (obs_df_wide_Ok _ _ _ _ _ _ Hwide (NoDup_np_unique keys))
    as (Hidx & Hnd & _).
  apply df_getitem_list_NoDup in Hdf0 as (Hidx0 & Hcols & _); [|done].
  exists wide, df0. repeat split; [done|done|congruence|done|done].
Qed.

(** C1 (amended). When [obs_df] succeeds and the labels ["{k}-{idx}"] of
    the requested block columns are distinct from each other and from the
    requested keys, the table is indexed like [adata.obs] and its columns are
    the requested keys, in requested order with their repeats, followed by
    one column per block pair, labelled ["{k}-{idx}"], in call order. *)
Theorem obs_df_columns adata keys obsm_keys layer gene_symbols use_raw df :
  obs_df adata keys obsm_keys layer gene_symbols use_raw = Ok df →
  NoDup (block_label <$> obsm_keys) →
  Forall (λ x, block_label x ∉ keys) obsm_keys →
  index df = index (obs adata)
  ∧ labels df = keys ++ (block_label <$> obsm_keys).
Proof.
  intros H Hnd Hfresh.
  apply obs_df_Ok in H as (wide & df0 & _ & _ & Hidx & Hcols & Hfold).
  assert (labels df0 = keys) as Hl0.
  { unfold labels. rewrite Hcols, <-list_fmap_compose. apply list_fmap_id. }
  apply foldM_add_block_column_fresh in Hfold as (Hidx' & cols & Hcols' & Hl); [|done|].
  - split; [congruence|]. unfold labels in *. by rewrite Hcols', fmap_app, Hl0, Hl.
  - rewrite Hl0. by apply Forall_forall.
Qed.

(** The requested keys alone: the columns are exactly the keys. *)
Corollary obs_df_keys_only adata keys layer gene_symbols use_raw df :
  obs_df adata keys [] layer gene_symbols use_raw = Ok df →
  labels df = keys.
Proof.
  intros H. apply obs_df_Ok in H as (wide & df0 & _ & _ & _ & Hcols & Hfold).
  cbn in Hfold. injection Hfold as <-.
  unfold labels. rewrite Hcols, <-list_fmap_compose. apply list_fmap_id.
Qed.

End ObsDfColumns.

Lemma obs_df_columns_witness :
  index ex_table = ["c1"; "c2"]
  ∧ labels ex_table = ["cluster"; "G2"; "G1"; "G2"; "X_pca-1"; "X_pca-0"].
Proof.
  apply (obs_df_columns ex_adata ex_keys ex_obsm_keys None None false ex_table).
  - vm_compute. reflexivity.
  - apply (bool_decide_unpack _). vm_compute. exact I.
  - apply (bool_decide_unpack _). vm_compute. exact I.
Defined.

(** C1, as stated, fails on a repeated block pair: the second assignment to
    ["X_pca-0"] overwrites the column of the first, and the table has one
    such column for two requested pairs. *)
Lemma obs_df_repeated_block_pair :
  ∃ df, obs_df ex_adata ["cluster"] [("X_pca", 0%Z); ("X_pca", 0%Z)] None None false
        = Ok df
        ∧ labels df = ["cluster"; "X_pca-0"]
        ∧ labels df ≠ ["cluster"] ++ (block_label <$> [("X_pca", 0%Z); ("X_pca", 0%Z)]).
Proof.
  eexists. split; [vm_compute; reflexivity|]. split; [reflexivity|].
  vm_compute. discriminate.
Qed.

(** ** Backed matrices: sorted fetch and order of the keys *)

Section BackedOrder.
Context {num : Type}.
Implicit Types (adata : @AnnData num) (df : @DataFrame num) (X : @array num).





End BackedOrder.


(** ** [var_df]: a key in both name spaces *)

Section VarDfColumns.
Context {num : Type}.
Implicit Types (adata : @AnnData num) (df wide : @DataFrame num) (X : @array num).

(** The rows of a matrix. *)
Definition array_rows X : list (list num) :=
  match X with
  | ndarray m => m
  | spmatrix m => m
  | table _ => []
  end.

Lemma df_getitem_list_Ok wide keys df :
  df_getitem_list wide keys = Ok df →
  index df = index wide
  ∧ columns df = concat (columns_labelled wide <$> keys)
  ∧ Forall (λ k, columns_labelled wide k ≠ []) keys.
Proof.
  unfold df_getitem_list. rewrite bind_Ok. intros (cols & Hcols & [= <-]).
  split; [done|]. cbn. apply mapM_result_Ok in Hcols.
  induction Hcols as [|k cs keys cols Hk _ [IH1 IH2]]; [done|].
  rewrite fmap_cons. cbn [concat]. rewrite IH1.
  destruct (columns_labelled wide k) eqn:E; [done|]. injection Hk as <-.
  split; [done|]. constructor; [by rewrite E|done].
Qed.

Lemma label_in_columns_labelled wide k :
  label_in k (labels wide) ↔ columns_labelled wide k ≠ [].
Proof.
  unfold label_in, labels, columns_labelled. rewrite bool_decide_spec.
  rewrite list_elem_of_fmap. split.
  - intros ([k' c] & -> & Hin) Hnil.
    eapply (filter_nil_not_elem_of _ _ (k', c)); [exact Hnil|done|done].
  - intros Hne. destruct (filter _ _) as [|[k' c] l] eqn:E; [done|].
    assert ((k', c) ∈ filter (λ e, e.1 = k) (columns wide)) as Hin
      by (rewrite E; by left).
    apply list_elem_of_filter in Hin as [Hk Hin]. by exists (k', c).
Qed.

Lemma filter_concat {A} (P : A → Prop) `{∀ x, Decision (P x)} (ls : list (list A)) :
  filter P (concat ls) = concat (filter P <$> ls).
Proof.
  induction ls as [|l ls IH]; [done|].
  rewrite fmap_cons. cbn [concat]. by rewrite filter_app, IH.
Qed.

Lemma elem_of_concat {A} (x : A) (ls : list (list A)) :
  x ∈ concat ls ↔ ∃ l, x ∈ l ∧ l ∈ ls.
Proof.
  induction ls as [|l ls IH]; cbn [concat].
  - split; [by intros ?%elem_of_nil|by intros (l & _ & ?%elem_of_nil)].
  - rewrite elem_of_app, IH. split.
    + intros [?|(l' & ? & ?)]; [exists l; split; [done|by left]|].
      exists l'. split; [done|by right].
    + intros (l' & Hx & [->|?]%elem_of_cons); [by left|right; by exists l'].
Qed.

Lemma columns_labelled_idemp wide k k' :
  filter (λ e : string * list (@cell num), e.1 = k) (columns_labelled wide k')
  = if decide (k' = k) then columns_labelled wide k else [].
Proof.
  unfold columns_labelled. rewrite list_filter_filter. destruct (decide (k' = k)) as [->|Hne].
  - apply list_filter_iff. naive_solver.
  - apply filter_nil_intro. intros e _ [? ?]. congruence.
Qed.

(** Selecting [keys] keeps, for a requested key, copies of its columns and
    nothing else under that label. *)
Lemma df_getitem_list_labelled wide keys df k e :
  df_getitem_list wide keys = Ok df →
  e ∈ columns_labelled df k → e ∈ columns_labelled wide k.
Proof.
  intros (_ & Hcols & _)%df_getitem_list_Ok. unfold columns_labelled at 1.
  rewrite Hcols, filter_concat. intros Hin.
  apply elem_of_concat in Hin as (l & Hin & Hl).
  rewrite <-list_fmap_compose in Hl. apply list_elem_of_fmap in Hl as (k' & -> & _).
  cbn in Hin. rewrite columns_labelled_idemp in Hin.
  by destruct (decide (k' = k)); [|apply elem_of_nil in Hin].
Qed.

Lemma df_getitem_list_labelled_nonempty wide keys df k :
  df_getitem_list wide keys = Ok df →
  k ∈ keys → columns_labelled df k ≠ [].
Proof.
  intros (_ & Hcols & Hall)%df_getitem_list_Ok Hk.
  rewrite Forall_forall in Hall. specialize (Hall k Hk).
  destruct (columns_labelled wide k) as [|e l] eqn:E; [done|].
  assert (e ∈ columns_labelled df k) as Hin; [|by intros Hnil; rewrite Hnil in Hin;
    apply elem_of_nil in Hin].
  unfold columns_labelled at 1. rewrite Hcols, filter_concat.
  apply elem_of_concat. exists (columns_labelled wide k). split.
  - rewrite E. by left.
  - rewrite <-list_fmap_compose. apply list_elem_of_fmap. exists k. split; [|done].
    cbn. rewrite columns_labelled_idemp. by rewrite decide_True.
Qed.

Lemma filter_label_replace (cols : list (string * list (@cell num))) label col k :
  label ≠ k →
  filter (λ e, e.1 = k) ((λ e, if String.eqb e.1 label then (e.1, col) else e) <$> cols)
  = filter (λ e, e.1 = k) cols.
Proof.
  intros Hne. induction cols as [|[k' c] cols IH]; [done|].
  rewrite fmap_cons, !filter_cons, IH. cbn [fst].
  destruct (String.eqb_spec k' label) as [->|Hk']; cbn [fst]; [|done].
  by rewrite !decide_False.
Qed.

(** Assigning under another label leaves the columns of [k] as they are. *)
Lemma df_setitem_other df label col df' k :
  df_setitem df label col = Ok df' → label ≠ k →
  columns_labelled df' k = columns_labelled df k.
Proof.
  intros (_ & _ & Hcols)%df_setitem_Ok Hne. unfold columns_labelled. rewrite Hcols.
  destruct (label_in label (labels df)).
  - by apply filter_label_replace.
  - rewrite filter_app, filter_cons, decide_False by done. by rewrite app_nil_r.
Qed.

Lemma foldM_add_block_column_other blocks l df df' k :
  foldM (add_block_column blocks) df l = Ok df' →
  Forall (λ x, block_label x ≠ k) l →
  columns_labelled df' k = columns_labelled df k.
Proof.
  revert df. induction l as [|x l IH]; intros df Hfold Hl.
  - by injection Hfold as <-.
  - cbn [foldM] in Hfold. apply bind_Ok in Hfold as (df1 & Hadd & Hfold).
    apply Forall_cons in Hl as [Hx Hl]. rewrite (IH df1) by done.
    rewrite add_block_column_eq in Hadd. apply bind_Ok in Hadd as (col & _ & Hset).
    by eapply df_setitem_other.
Qed.

Lemma index_of_lookup (l : list string) k z :
  k ∈ l → ∃ pos, index_of l k z = (z + Z.of_nat pos)%Z ∧ l !! pos = Some k.
Proof.
  revert z. induction l as [|x l IH]; intros z Hk; [by apply elem_of_nil in Hk|].
  cbn [index_of]. destruct (String.eqb_spec x k) as [->|Hne].
  - exists 0. split; [lia|done].
  - apply elem_of_cons in Hk as [->|Hk]; [done|].
    destruct (IH (z + 1)%Z Hk) as (pos & -> & Hpos). exists (S pos). split; [lia|done].
Qed.

Lemma DataFrame_of_T_Ok (m : list (list num)) (ls idx : list string) df :
  DataFrame_of_T (ndarray m) ls idx = Ok df →
  index df = idx
  ∧ columns df = zip ls ((λ row : list num, Num <$> row) <$> m)
  ∧ length m = length ls.
Proof.
  unfold DataFrame_of_T. destruct (length m =? length ls) eqn:E; [|done].
  apply Nat.eqb_eq in E. destruct (forallb _ _); [|done]. by intros [= <-].
Qed.

Lemma df_getitem_list_label wide keys df e :
  df_getitem_list wide keys = Ok df → e ∈ columns df → e.1 ∈ keys.
Proof.
  intros (_ & -> & _)%df_getitem_list_Ok (l & He & Hl)%elem_of_concat.
  apply list_elem_of_fmap in Hl as (k & -> & Hk).
  by apply list_elem_of_filter in He as [-> _].
Qed.

(** In the table before [df[keys]], the one column labelled by an
    observation name is the row of the selected matrix at the position of
    that name. *)
Lemma var_df_wide_obs_column adata ks layer wide k :
  var_df_wide adata ks layer = Ok wide →
  NoDup ks → k ∈ ks → k ∈ obs_names adata →
  ∃ X row pos,
    _get_obs_rep adata (PyBool false) layer None None = Ok X
    ∧ obs_names adata !! pos = Some k
    ∧ array_rows X !! pos = Some row
    ∧ columns_labelled wide k = [(k, Num <$> row)].
Proof.
  intros H Hnd Hk Hobs. unfold var_df_wide in H. rewrite var_df_loop in H.
  cbn [app] in H.
  set (o := filter (is_obs_name adata) ks) in *.
  set (v := filter (is_var_column adata) ks) in *.
  destruct (0 <? length _); [done|].
  assert (k ∈ o) as Hko.
  { apply list_elem_of_filter. split; [|done]. unfold is_obs_name, label_in.
    by apply bool_decide_pack. }
  assert ((0 <? length o) = true) as Ho.
  { destruct o; [by apply elem_of_nil in Hko|done]. }
  rewrite Ho in H. apply bind_Ok in H as (df1 & Hdf1 & Hwide).
  apply bind_Ok in Hdf1 as (X & HX & Hdf1).
  apply bind_Ok in Hdf1 as (obs_idx & Hidx & Hdf1).
  apply bind_Ok in Hdf1 as (matrix & Hm & Hdf1).
  apply bind_Ok in Hdf1 as (values & Hvalues & [= <-]).
  unfold get_indexer in Hidx. destruct (is_unique (obs_names adata)); [|done].
  injection Hidx as <-.
  assert (∃ m', np_take (array_rows X) ((λ label, index_of (obs_names adata) label 0)
                                          <$> o) = Ok m'
                ∧ (if issparse matrix then toarray matrix else matrix) = ndarray m')
    as (m' & Htake & Hmat).
  { destruct X as [m|m|cols]; cbn in Hm; [| |done];
      apply bind_Ok in Hm as (m' & Hm' & [= <-]); by exists m'. }
  rewrite Hmat in Hvalues. apply DataFrame_of_T_Ok in Hvalues as (_ & Hcols & Hlen).
  assert (NoDup o) as Hndo by (by apply NoDup_filter).
  destruct (filter_label_NoDup (columns values) k) as [[Hnot _]|(c & Hin & Hf)].
  { rewrite Hcols, fst_zip; [done|]. by rewrite length_fmap, Hlen. }
  { destruct Hnot. rewrite Hcols.
    change (fst <$> ?l) with (l.*1). rewrite fst_zip; [done|].
    by rewrite length_fmap, Hlen. }
  rewrite Hcols in Hin. apply list_elem_of_lookup in Hin as [j Hj].
  apply lookup_zip_with_Some in Hj as (k' & c' & [= <- <-] & Hoj & Hcj).
  rewrite list_lookup_fmap in Hcj.
  destruct (m' !! j) as [row|] eqn:Hrow; [|done]. injection Hcj as <-.
  apply mapM_result_Ok in Htake.
  assert (((λ label, index_of (obs_names adata) label 0%Z) <$> o) !! j
          = Some (index_of (obs_names adata) k 0%Z)) as Hij
    by (by rewrite list_lookup_fmap, Hoj).
  pose proof (Forall2_lookup_lr _ _ _ _ _ _ Htake Hij Hrow) as Hget. cbv beta in Hget.
  destruct (index_of_lookup (obs_names adata) k 0%Z Hobs) as (pos & Hpos & Hlook).
  rewrite Hpos, Z.add_0_l, np_getitem_nat in Hget.
  destruct (array_rows X !! pos) as [row'|] eqn:Hrow'; [|done]. injection Hget as ->.
  exists X, row, pos. split; [done|]. split; [done|]. split; [done|].
  destruct (0 <? length v).
  - apply bind_Ok in Hwide as (values' & Hv' & [= <-]).
    unfold columns_labelled, concat_axis1. cbn. rewrite filter_app, Hf.
    rewrite (filter_nil_intro _ (columns values')); [done|].
    intros e He Heq. apply (df_getitem_list_label _ _ _ _ Hv') in He.
    rewrite Heq in He. apply list_elem_of_filter in He as [Hvar _].
    unfold is_var_column, label_in in Hvar.
    by rewrite (bool_decide_eq_true_2 _ Hobs) in Hvar.
  - injection Hwide as <-. unfold columns_labelled, concat_axis1. by cbn.
Qed.

End VarDfColumns.

(** ** [var_df] makes no uniqueness or ambiguity check *)

(** A computation that raises none of the check exceptions. *)
Definition unchecked {A} (r : result A) : Prop :=
  ∀ e, r = Raise e → is_check_error e = false.

Lemma unchecked_Ok {A} (a : A) : unchecked (Ok a).
Proof. by intros e. Qed.

Lemma unchecked_Raise {A} e : is_check_error e = false → unchecked (@Raise A e).
Proof. by intros He e' [= <-]. Qed.

Lemma unchecked_bind {A B} (r : result A) (k : A → result B) :
  unchecked r → (∀ a, unchecked (k a)) → unchecked (bind r k).
Proof.
  intros Hr Hk e [He|(a & _ & He)]%bind_Raise; [by apply Hr|by apply (Hk a)].
Qed.

Lemma unchecked_mapM {A B} (f : A → result B) l :
  (∀ x, unchecked (f x)) → unchecked (mapM_result f l).
Proof. intros Hf e (x & _ & He)%mapM_result_Raise. by apply (Hf x). Qed.

Lemma unchecked_foldM {A B} (f : A → B → result A) acc l :
  (∀ a x, unchecked (f a x)) → unchecked (foldM f acc l).
Proof.
  intros Hf. revert acc. induction l as [|x l IH]; intros acc; [apply unchecked_Ok|].
  cbn [foldM]. by apply unchecked_bind.
Qed.

Lemma unchecked_if {A} (b : bool) (r1 r2 : result A) :
  unchecked r1 → unchecked r2 → unchecked (if b then r1 else r2).
Proof. by destruct b. Qed.

Lemma unchecked_np_getitem {A} (a : list A) i : unchecked (np_getitem a i).
Proof. intros e He. by rewrite (np_getitem_Raise _ _ _ He). Qed.

Lemma unchecked_np_take {A} (a : list A) idx : unchecked (np_take a idx).
Proof. intros e He. by rewrite (np_take_Raise _ _ _ He). Qed.

Lemma unchecked_dict_getitem {V} (d : gmap string V) k : unchecked (dict_getitem d k).
Proof. unfold dict_getitem. destruct (d !! k); [apply unchecked_Ok|by apply unchecked_Raise]. Qed.

Section Unchecked.
Context {num : Type}.
Implicit Types (adata : @AnnData num) (df : @DataFrame num) (X : @array num).

Lemma unchecked_get_obs_rep adata (b : bool) layer obsm_key obsp_key :
  unchecked (_get_obs_rep adata (PyBool b) layer obsm_key obsp_key).
Proof.
  unfold _get_obs_rep. cbn [isinstance_bool negb]. apply unchecked_bind.
  { unfold py_assert. destruct (_ <=? _); [apply unchecked_Ok|by apply unchecked_Raise]. }
  intros _. destruct (_ =? _); [apply unchecked_Ok|].
  destruct layer; [apply unchecked_dict_getitem|]. destruct (truthy _).
  { apply unchecked_bind; [|intros; apply unchecked_Ok].
    unfold get_raw. destruct (raw adata); [apply unchecked_Ok|by apply unchecked_Raise]. }
  destruct obsm_key; [apply unchecked_dict_getitem|].
  destruct obsp_key; [apply unchecked_dict_getitem|by apply unchecked_Raise].
Qed.

Lemma unchecked_getitem_rows X idx : unchecked (getitem_rows X idx).
Proof.
  destruct X; cbn; [| |by apply unchecked_Raise];
    (apply unchecked_bind; [apply unchecked_np_take|intros; apply unchecked_Ok]).
Qed.

Lemma unchecked_backed_rows X idx : unchecked (backed_rows X idx).
Proof. rewrite backed_rows_eq. apply unchecked_getitem_rows. Qed.

Lemma unchecked_df_getitem_list df keys : unchecked (df_getitem_list df keys).
Proof.
  unfold df_getitem_list. apply unchecked_bind; [|intros; apply unchecked_Ok].
  apply unchecked_mapM. intros k.
  destruct (columns_labelled df k); [by apply unchecked_Raise|apply unchecked_Ok].
Qed.

Lemma unchecked_df_setitem df label col : unchecked (df_setitem df label col).
Proof.
  unfold df_setitem. destruct (negb _); [by apply unchecked_Raise|].
  destruct (label_in _ _); apply unchecked_Ok.
Qed.

Lemma unchecked_add_block_column blocks df k_idx :
  unchecked (add_block_column blocks df k_idx).
Proof.
  rewrite add_block_column_eq.
  apply unchecked_bind; [|intros; apply unchecked_df_setitem].
  unfold block_column. apply unchecked_bind; [apply unchecked_dict_getitem|].
  intros [m|m|cols].
  - apply unchecked_bind; [|intros; apply unchecked_Ok].
    apply unchecked_mapM. intros; apply unchecked_np_getitem.
  - apply unchecked_bind; [|intros; apply unchecked_Ok].
    apply unchecked_mapM. intros; apply unchecked_np_getitem.
  - unfold loc_column. destruct (filter _ _) as [|? [|? ?]];
      [by apply unchecked_Raise|apply unchecked_Ok|by apply unchecked_Raise].
Qed.

Lemma unchecked_DataFrame_of_T X ls idx : unchecked (DataFrame_of_T X ls idx).
Proof.
  unfold DataFrame_of_T. destruct X; [|by apply unchecked_Raise..].
  destruct (negb _); [by apply unchecked_Raise|apply unchecked_Ok].
Qed.

Lemma unchecked_var_df adata keys varm_keys layer :
  unchecked (var_df adata keys varm_keys layer).
Proof.
  unfold var_df. destruct (fold_left _ _ _) as [[o v] n].
  destruct (0 <? length n); [by apply unchecked_Raise|].
  apply unchecked_bind.
  { apply unchecked_if; [|apply unchecked_Ok].
    apply unchecked_bind; [apply unchecked_get_obs_rep|]. intros X.
    apply unchecked_bind.
    { unfold get_indexer. destruct (is_unique _);
        [apply unchecked_Ok|by apply unchecked_Raise]. }
    intros obs_idx. apply unchecked_bind.
    { apply unchecked_if; [apply unchecked_backed_rows|apply unchecked_getitem_rows]. }
    intros matrix. apply unchecked_bind; [apply unchecked_DataFrame_of_T|].
    intros; apply unchecked_Ok. }
  intros df. apply unchecked_bind.
  { apply unchecked_if; [|apply unchecked_Ok].
    apply unchecked_bind; [apply unchecked_df_getitem_list|intros; apply unchecked_Ok]. }
  intros df'. apply unchecked_bind; [apply unchecked_df_getitem_list|].
  intros df''. apply unchecked_foldM. intros; apply unchecked_add_block_column.
Qed.

End Unchecked.

Section VarDfChecks.
Context {num : Type}.
Implicit Types (adata : @AnnData num) (df : @DataFrame num).



End VarDfChecks.



(** ** [var_df]: a key that is an observation name and a [var] column *)

Section VarDfShadow.
Context {num : Type}.
Implicit Types (adata : @AnnData num) (df : @DataFrame num).

Lemma var_df_wide_set_var adata (var' : @DataFrame num) k ks layer :
  k ∈ obs_names adata →
  index var' = index (var adata) →
  (∀ key, key ≠ k → columns_labelled var' key = columns_labelled (var adata) key) →
  var_df_wide (set_var adata var') ks layer = var_df_wide adata ks layer.
Proof.
  intros Hk Hidx Hcols.
  assert (∀ key, ¬ label_in key (obs_names adata) →
            label_in key (labels var') = label_in key (labels (var adata))) as Hlab.
  { intros key Hkey. assert (key ≠ k) as Hne.
    { intros ->. apply Hkey. unfold label_in. by apply bool_decide_pack. }
    apply eq_bool_prop_intro. by rewrite !label_in_columns_labelled, Hcols. }
  unfold var_df_wide. rewrite !var_df_loop. cbn [app].
  change (filter (is_obs_name (set_var adata var')) ks)
    with (filter (is_obs_name adata) ks).
  assert (filter (is_var_column (set_var adata var')) ks
          = filter (is_var_column adata) ks) as ->.
  { apply list_filter_iff. intros key. unfold is_var_column. cbn [set_var var obs_names].
    destruct (label_in key (obs_names adata)) eqn:E; [cbn [negb andb]; reflexivity|].
    rewrite Hlab; [reflexivity|]. rewrite E. by intros []. }
  assert (filter (is_missing (set_var adata var')) ks
          = filter (is_missing adata) ks) as ->.
  { apply list_filter_iff. intros key. unfold is_missing. cbn [set_var var obs_names].
    destruct (label_in key (obs_names adata)) eqn:E; [cbn [negb andb]; reflexivity|].
    rewrite Hlab; [reflexivity|]. rewrite E. by intros []. }
  change (var (set_var adata var')) with var'.
  change (obs_names (set_var adata var')) with (obs_names adata).
  change (_get_obs_rep (set_var adata var') (PyBool false) layer None None)
    with (_get_obs_rep adata (PyBool false) layer None None).
  rewrite Hidx.
  assert (df_getitem_list var' (filter (is_var_column adata) ks)
          = df_getitem_list (var adata) (filter (is_var_column adata) ks)) as ->; [|done].
  unfold df_getitem_list. rewrite Hidx.
  rewrite (mapM_result_ext _ (λ key, match columns_labelled (var adata) key with
                                     | [] => Raise (KeyError key)
                                     | cs => Ok cs
                                     end)); [done|].
  intros key [Hvar _]%list_elem_of_filter. rewrite Hcols; [done|].
  intros ->. unfold is_var_column, label_in in Hvar.
  by rewrite (bool_decide_eq_true_2 _ Hk) in Hvar.
Qed.

(** The [var] column named like an observation is not consulted: changing,
    removing or adding columns under that name changes nothing. *)
Lemma var_df_set_var adata (var' : @DataFrame num) k keys varm_keys layer :
  k ∈ obs_names adata →
  index var' = index (var adata) →
  (∀ key, key ≠ k → columns_labelled var' key = columns_labelled (var adata) key) →
  var_df (set_var adata var') keys varm_keys layer = var_df adata keys varm_keys layer.
Proof.
  intros Hk Hidx Hcols. rewrite !var_df_unfold.
  by rewrite (var_df_wide_set_var adata var' k).
Qed.

(** On success, every column the result holds under an observation name is
    the row of the selected matrix at the position of that name. *)
Lemma var_df_obs_column adata keys varm_keys layer df k :
  var_df adata keys varm_keys layer = Ok df →
  k ∈ keys → k ∈ obs_names adata →
  Forall (λ x, block_label x ≠ k) varm_keys →
  ∃ X row pos,
    _get_obs_rep adata (PyBool false) layer None None = Ok X
    ∧ obs_names adata !! pos = Some k
    ∧ array_rows X !! pos = Some row
    ∧ columns_labelled df k ≠ []
    ∧ ∀ e, e ∈ columns_labelled df k → e = (k, Num <$> row).
Proof.
  rewrite var_df_unfold, bind_Ok. intros (wide & Hwide & H) Hk Hobs Hvarm.
  apply bind_Ok in H as (df0 & Hdf0 & Hfold).
  destruct (var_df_wide_obs_column adata (np_unique keys) layer wide k)
    as (X & row & pos & HX & Hpos & Hrow & Hcol);
    [done|apply NoDup_np_unique|by apply elem_of_np_unique|done|].
  exists X, row, pos. split; [done|]. split; [done|]. split; [done|].
  rewrite (foldM_add_block_column_other _ _ _ _ _ Hfold Hvarm). split.
  - by eapply df_getitem_list_labelled_nonempty.
  - intros e He. eapply df_getitem_list_labelled in He; [|done].
    rewrite Hcol in He. by apply list_elem_of_singleton in He.
Qed.

End VarDfShadow.

Section VarDfSuccess.
Context {num : Type}.
Implicit Types (adata : @AnnData num) (df wide : @DataFrame num).

Lemma np_getitem_elem_of {A} (a : list A) i x : np_getitem a i = Ok x → x ∈ a.
Proof.
  unfold np_getitem. destruct (_ && _); [|done].
  destruct (a !! _) eqn:E; [|done]. intros [= <-].
  apply list_elem_of_lookup. eauto.
Qed.

Lemma var_df_wide_var_column adata ks layer wide k :
  var_df_wide adata ks layer = Ok wide →
  k ∈ ks → is_var_column adata k →
  columns_labelled wide k ≠ [].
Proof.
  intros H Hk Hvar. unfold var_df_wide in H. rewrite var_df_loop in H.
  cbn [app] in H. set (v := filter (is_var_column adata) ks) in *.
  destruct (0 <? length _); [done|].
  apply bind_Ok in H as (df1 & _ & Hwide).
  assert (k ∈ v) as Hkv by (by apply list_elem_of_filter).
  assert ((0 <? length v) = true) as Hv.
  { destruct v; [by apply elem_of_nil in Hkv|done]. }
  rewrite Hv in Hwide. apply bind_Ok in Hwide as (values & Hvalues & [= <-]).
  unfold columns_labelled, concat_axis1. cbn. rewrite filter_app.
  pose proof (df_getitem_list_labelled_nonempty _ _ _ k Hvalues Hkv) as Hne.
  unfold columns_labelled in Hne. intros Hnil. apply app_eq_nil in Hnil as [_ Hnil].
  done.
Qed.

(** When each key is an observation name or a [var] column, the
    observation names are distinct and the matrix has one row per
    observation and one column per feature, [var_df] returns a table. *)
Lemma var_df_is_Ok adata keys m :
  NoDup (obs_names adata) →
  X adata = ndarray m ∨ X adata = spmatrix m →
  length m = length (obs_names adata) →
  Forall (λ row, length row = length (index (var adata))) m →
  Forall (λ key, key ∈ obs_names adata ∨ key ∈ labels (var adata)) keys →
  ∃ df, var_df adata keys [] None = Ok df.
Proof.
  intros Hu HX Hrows Hwidth Hkeys. rewrite var_df_unfold.
  assert (∃ wide, var_df_wide adata (np_unique keys) None = Ok wide) as [wide Hwide].
  { unfold var_df_wide. rewrite var_df_loop. cbn [app].
    rewrite (filter_nil_intro (is_missing adata)).
    2:{ intros key Hkey Hmiss. rewrite elem_of_np_unique in Hkey.
        rewrite Forall_forall in Hkeys. unfold is_missing, label_in in Hmiss.
        destruct (Hkeys key Hkey) as [Hin|Hin];
          rewrite (bool_decide_eq_true_2 _ Hin) in Hmiss; [done|].
        by destruct (bool_decide _). }
    change (0 <? length (@nil string)) with false. cbv iota.
    set (o := filter (is_obs_name adata) (np_unique keys)).
    set (v := filter (is_var_column adata) (np_unique keys)).
    assert (∃ values, df_getitem_list (var adata) v = Ok values) as [values Hvalues].
    { destruct (mapM_result_is_Ok
                  (λ key, match columns_labelled (var adata) key with
                          | [] => Raise (KeyError key)
                          | cs => Ok cs
                          end) v) as [cols Hcols].
      { intros key [Hvar _]%list_elem_of_filter. unfold is_var_column in Hvar.
        apply andb_prop_elim in Hvar as [_ Hvar].
        apply label_in_columns_labelled in Hvar.
        destruct (columns_labelled (var adata) key); [done|by eexists]. }
      unfold df_getitem_list. rewrite Hcols. by eexists. }
    destruct (0 <? length o).
    - change (_get_obs_rep adata (PyBool false) None None None) with (Ok (X adata)).
      cbn [bind]. unfold get_indexer, is_unique.
      rewrite (bool_decide_eq_true_2 _ Hu). cbn [bind].
      destruct (mapM_result_is_Ok (np_getitem m)
                  ((λ label, index_of (obs_names adata) label 0%Z) <$> o))
        as [m' Hm'].
      { intros i (key & -> & Hkey)%list_elem_of_fmap.
        apply list_elem_of_filter in Hkey as [Hobs _].
        unfold is_obs_name, label_in in Hobs. apply bool_decide_unpack in Hobs.
        destruct (index_of_lookup _ _ 0%Z Hobs) as (pos & -> & Hpos).
        rewrite Z.add_0_l, np_getitem_nat.
        destruct (lookup_lt_is_Some_2 m pos) as [row ->]; [|by eexists].
        rewrite Hrows. by eapply lookup_lt_Some. }
      assert (∃ matrix, getitem_rows (X adata)
                          ((λ label, index_of (obs_names adata) label 0%Z) <$> o)
                        = Ok matrix
                        ∧ (if issparse matrix then toarray matrix else matrix)
                          = ndarray m') as (matrix & -> & Hmat).
      { destruct HX as [->| ->]; cbn; unfold np_take; rewrite Hm'; by eexists. }
      cbn [bind]. cbv zeta. rewrite Hmat. unfold DataFrame_of_T.
      pose proof (mapM_result_length _ _ _ Hm') as Hlen. rewrite length_fmap in Hlen.
      rewrite (proj2 (Nat.eqb_eq _ _) Hlen). cbn [andb].
      rewrite (proj2 (forallb_forall _ _)).
      2:{ intros row Hrow%list_elem_of_In. apply Nat.eqb_eq.
          apply mapM_result_Ok in Hm'. apply list_elem_of_lookup in Hrow as [j Hj].
          destruct (Forall2_lookup_r _ _ _ _ _ Hm' Hj) as (i & _ & Hget).
          apply np_getitem_elem_of in Hget. rewrite Forall_forall in Hwidth.
          by apply Hwidth. }
      cbn [negb bind]. destruct (0 <? length v); [rewrite Hvalues|]; by eexists.
    - cbn [bind]. destruct (0 <? length v); [rewrite Hvalues|]; by eexists. }
  rewrite Hwide. cbn [bind].
  assert (∃ df0, df_getitem_list wide keys = Ok df0) as [df0 ->]; [|by eexists].
  destruct (mapM_result_is_Ok
              (λ key, match columns_labelled wide key with
                      | [] => Raise (KeyError key)
                      | cs => Ok cs
                      end) keys) as [cols Hcols].
  { intros key Hkey.
    assert (columns_labelled wide key ≠ []) as Hne.
    { rewrite Forall_forall in Hkeys.
      destruct (decide (key ∈ obs_names adata)) as [Hobs|Hobs].
      - destruct (var_df_wide_obs_column adata (np_unique keys) None wide key)
          as (? & ? & ? & _ & _ & _ & ->);
          [done|apply NoDup_np_unique|by apply elem_of_np_unique|done|done].
      - eapply var_df_wide_var_column; [done|by apply elem_of_np_unique|].
        unfold is_var_column, label_in. rewrite (bool_decide_eq_false_2 _ Hobs).
        destruct (Hkeys key Hkey) as [?|Hin]; [done|].
        by rewrite (bool_decide_eq_true_2 _ Hin). }
    destruct (columns_labelled wide key); [done|by eexists]. }
  unfold df_getitem_list. rewrite Hcols. by eexists.
Qed.

End VarDfSuccess.

(** C10. For a key that is both an observation name and a column of
    [adata.var], [var_df] takes the observation: the [var] column of that
    name is not consulted (the outcome is the same whatever [var] holds under
    that name), no ambiguity or uniqueness error is raised, on a well-shaped
    container the call returns a table, and the column returned for the key
    is the row of the selected matrix at the position of the observation. *)
Theorem var_df_obs_name_wins {num} (adata : @AnnData num) keys varm_keys layer k :
  k ∈ obs_names adata →
  k ∈ labels (var adata) →
  (∀ var', index var' = index (var adata) →
           (∀ key, key ≠ k →
                   columns_labelled var' key = columns_labelled (var adata) key) →
           var_df (set_var adata var') keys varm_keys layer
           = var_df adata keys varm_keys layer)
  ∧ (∀ e, var_df adata keys varm_keys layer = Raise e → is_check_error e = false)
  ∧ (∀ m, NoDup (obs_names adata) →
          X adata = ndarray m ∨ X adata = spmatrix m →
          length m = length (obs_names adata) →
          Forall (λ row, length row = length (index (var adata))) m →
          Forall (λ key, key ∈ obs_names adata ∨ key ∈ labels (var adata)) keys →
          ∃ df, var_df adata keys [] None = Ok df)
  ∧ (∀ df, var_df adata keys varm_keys layer = Ok df →
           k ∈ keys →
           Forall (λ x, block_label x ≠ k) varm_keys →
           ∃ X row pos,
             _get_obs_rep adata (PyBool false) layer None None = Ok X
             ∧ obs_names adata !! pos = Some k
             ∧ array_rows X !! pos = Some row
             ∧ columns_labelled df k ≠ []
             ∧ ∀ e, e ∈ columns_labelled df k → e = (k, Num <$> row)).
Proof.
  intros Hobs _. split; [|split; [|split]].
  - intros var' Hidx Hcols. by apply (var_df_set_var adata var' k).
  - apply unchecked_var_df.
  - intros m. apply var_df_is_Ok.
  - intros df Hdf Hk Hvarm. by eapply var_df_obs_column.
Qed.

Lemma var_df_obs_name_wins_witness :
  (∃ df, var_df ex_both ["c1"; "symbol"] [] None = Ok df)
  ∧ var_df (set_var ex_both ex_var_dropped) ["c1"; "symbol"] [] None
    = var_df ex_both ["c1"; "symbol"] [] None
  ∧ ∃ X row pos,
      _get_obs_rep ex_both (PyBool false) None None None = Ok X
      ∧ obs_names ex_both !! pos = Some "c1"
      ∧ array_rows X !! pos = Some row
      ∧ ∀ e, e ∈ columns_labelled
                   {| index := ["G1"; "G2"; "G3"];
                      columns := [("c1", [Num 1; Num 2; Num 3]%Z);
                                  ("symbol", [Str "a"; Str "b"; Str "c"]);
                                  ("symbol", [Str "d"; Str "e"; Str "f"])] |} "c1" →
             e = ("c1", Num <$> row).
Proof.
  destruct (var_df_obs_name_wins ex_both ["c1"; "symbol"] [] None "c1")
    as (Hvar & _ & Hok & Hcol).
  - apply (bool_decide_unpack _). vm_compute. exact I.
  - apply (bool_decide_unpack _). vm_compute. exact I.
  - split; [|split].
    + apply (Hok [[1; 2; 3]; [4; 5; 6]]%Z).
      * apply (bool_decide_unpack _). vm_compute. exact I.
      * by left.
      * reflexivity.
      * repeat constructor.
      * apply (bool_decide_unpack _). vm_compute. exact I.
    + apply Hvar; [reflexivity|]. intros key Hkey.
      unfold columns_labelled.
      change (columns (var ex_both))
        with (("c1", [Str "u"; Str "v"; Str "w"]) :: columns ex_var_dropped).
      rewrite (filter_cons_False _ ("c1", _)); [done|].
      intros Heq. by apply Hkey.
    + destruct (Hcol _ (eq_refl : var_df ex_both ["c1"; "symbol"] [] None = Ok _))
        as (X & row & pos & HX & Hpos & Hrow & _ & He).
      * apply (bool_decide_unpack _). vm_compute. exact I.
      * constructor.
      * by exists X, row, pos.
Defined.

(** ** [obs_df]: the checks before the table is built *)

Lemma elem_of_duplicated seen l x :
  x ∈ duplicated seen l ↔ ∃ l1 l2, l = l1 ++ x :: l2 ∧ (x ∈ seen ∨ x ∈ l1).
Proof.
  revert seen. induction l as [|y l IH]; intros seen.
  - split; [by intros ?%elem_of_nil|]. intros (l1 & l2 & H & _). by destruct l1.
  - cbn [duplicated]. destruct (bool_decide_reflect (y ∈ seen)) as [Hy|Hy].
    + rewrite elem_of_cons, IH. split.
      * intros [->|(l1 & l2 & -> & Hx)]; [by exists [], l; auto|].
        exists (y :: l1), l2. split; [done|]. rewrite elem_of_cons. tauto.
      * intros (l1 & l2 & Hl & Hx). destruct l1 as [|z l1]; simplify_eq/=; [by left|].
        right. exists l1, l2. split; [done|].
        destruct Hx as [?|[->|?]%elem_of_cons]; auto.
    + rewrite IH. split.
      * intros (l1 & l2 & -> & Hx). exists (y :: l1), l2. split; [done|].
        rewrite elem_of_cons. destruct Hx as [[->|?]%elem_of_cons|?]; auto.
      * intros (l1 & l2 & Hl & Hx). destruct l1 as [|z l1]; simplify_eq/=.
        { destruct Hx as [?|?%elem_of_nil]; done. }
        exists l1, l2. split; [done|]. rewrite elem_of_cons.
        destruct Hx as [?|[->|?]%elem_of_cons]; auto.
Qed.

Lemma duplicated_nil seen l :
  duplicated seen l = [] → NoDup l ∧ ∀ x, x ∈ l → x ∉ seen.
Proof.
  revert seen. induction l as [|y l IH]; intros seen H.
  - split; [constructor|]. by intros x ?%elem_of_nil.
  - cbn [duplicated] in H. destruct (bool_decide_reflect (y ∈ seen)) as [Hy|Hy]; [done|].
    destruct (IH _ H) as [Hnd Hseen]. split.
    + constructor; [|done]. intros Hin. apply (Hseen y Hin). by left.
    + intros x [->|Hx]%elem_of_cons; [done|].
      intros Hin. apply (Hseen x Hx). by right.
Qed.

Section ObsDfChecks.
Context {num : Type}.
Implicit Types (adata : @AnnData num) (df : @DataFrame num).

(** C4 (amended). Once the arguments are accepted (the Series of feature
    names is built), and whatever the requested keys, [obs_df] first checks
    that the column names of [adata.obs] are distinct and raises the
    schema-violation error that lists every repeated name; when use_raw is
    not set it then checks that [adata.var_names] are distinct and raises the
    schema-violation error for feature names, which lists none of them.  Both
    come before any key is resolved. *)
Theorem obs_df_schema_checks adata keys obsm_keys layer gene_symbols use_raw gn :
  obs_df_gene_names adata layer gene_symbols use_raw = Ok gn →
  (¬ NoDup (labels (obs adata)) →
     obs_df adata keys obsm_keys layer gene_symbols use_raw
     = Raise (ValueError_duplicated_columns (duplicated [] (labels (obs adata))))
     ∧ duplicated [] (labels (obs adata)) ≠ []
     ∧ ∀ x, x ∈ exn_names (ValueError_duplicated_columns
                             (duplicated [] (labels (obs adata))))
            ↔ ∃ l1 l2, labels (obs adata) = l1 ++ x :: l2 ∧ x ∈ l1)
  ∧ (NoDup (labels (obs adata)) → use_raw = false → ¬ NoDup (var_names adata) →
     obs_df adata keys obsm_keys layer gene_symbols use_raw
     = Raise ValueError_duplicated_var_names
     ∧ exn_names ValueError_duplicated_var_names = []).
Proof.
  intros Hgn. split.
  - intros Hdup. split; [|split].
    + unfold obs_df. rewrite Hgn. cbn [bind]. unfold is_unique.
      by rewrite (bool_decide_eq_false_2 _ Hdup).
    + intros Hnil. by apply duplicated_nil in Hnil as [? _].
    + intros x. cbn [exn_names]. rewrite elem_of_duplicated. split.
      * intros (l1 & l2 & ? & [?%elem_of_nil|?]); [done|eauto].
      * intros (l1 & l2 & ? & ?). eauto.
  - intros Hobs _ Hdup. split; [|done].
    unfold obs_df. rewrite Hgn. cbn [bind]. unfold is_unique.
    rewrite (bool_decide_eq_true_2 _ Hobs). cbn [negb].
    by rewrite (bool_decide_eq_false_2 _ Hdup).
Qed.

End ObsDfChecks.

Lemma obs_df_schema_checks_witness :
  obs_df ex_duplicated_obs ["G1"] [] None None false
  = Raise (ValueError_duplicated_columns ["cluster"])
  ∧ obs_df ex_duplicated_var ["cluster"] [] None None false
    = Raise ValueError_duplicated_var_names.
Proof.
  split.
  - destruct (obs_df_schema_checks ex_duplicated_obs ["G1"] [] None None false
                (zip (Str <$> ["G1"; "G2"; "G3"]) ["G1"; "G2"; "G3"]))
      as [H _]; [reflexivity|].
    destruct H as (H & _ & _); [|exact H].
    apply (bool_decide_unpack _). vm_compute. exact I.
  - destruct (obs_df_schema_checks ex_duplicated_var ["cluster"] [] None None false
                (zip (Str <$> ["G1"; "G1"; "G2"]) ["G1"; "G1"; "G2"]))
      as [_ H]; [reflexivity|].
    destruct H as (H & _); [| |  |exact H].
    + apply (bool_decide_unpack _). vm_compute. exact I.
    + reflexivity.
    + apply (bool_decide_unpack _). vm_compute. exact I.
Defined.

(** C4, as stated, fails on a repeated feature name: the error raised for
    it spells out no name, so it does not name the offender. *)
Lemma obs_df_duplicated_var_unnamed :
  ¬ NoDup (var_names ex_duplicated_var)
  ∧ obs_df ex_duplicated_var ["cluster"] [] None None false
    = Raise ValueError_duplicated_var_names
  ∧ "G1" ∉ exn_names ValueError_duplicated_var_names.
Proof.
  split; [|split].
  - apply (bool_decide_unpack _). vm_compute. exact I.
  - vm_compute. reflexivity.
  - apply not_elem_of_nil.
Qed.

(** With [use_raw], the names that are tested are still those of the
    primary matrix: a name repeated in [raw.var_names], where the keys are
    looked up, passes the tests and stops the key loop at its assertion. *)
Lemma obs_df_raw_names_untested :
  ¬ NoDup (raw_var_names (default ex_raw (raw ex_duplicated_raw)))
  ∧ obs_df ex_duplicated_raw ["G1"] [] None None true = Raise (AssertionError "").
Proof.
  split.
  - apply (bool_decide_unpack _). vm_compute. exact I.
  - vm_compute. reflexivity.
Qed.

(** ** [obs_df]: errors of key resolution *)

Lemma string_length_app s t :
  String.length (s +:+ t) = String.length s + String.length t.
Proof.
  induction s as [|a s IH]; [done|].
  change (S (String.length (s +:+ t)) = S (String.length s + String.length t)).
  by rewrite IH.
Qed.

Lemma string_app_inv_tail s1 s2 t : s1 +:+ t = s2 +:+ t → s1 = s2.
Proof.
  revert s2. induction s1 as [|a s1 IH]; intros [|b s2] H.
  - done.
  - change ("" +:+ t) with t in H.
    apply (f_equal String.length) in H. rewrite (string_length_app (String b s2)) in H.
    cbn in H. lia.
  - change ("" +:+ t) with t in H.
    apply (f_equal String.length) in H. rewrite (string_length_app (String a s1)) in H.
    cbn in H. lia.
  - change (String a (s1 +:+ t) = String b (s2 +:+ t)) in H.
    injection H as -> H. f_equal. by apply IH.
Qed.

(** The text [gene_error] tells the matrix and the name space searched. *)
Lemma gene_error_inj use_raw gs use_raw' gs' :
  gene_error use_raw gs = gene_error use_raw' gs' → use_raw = use_raw' ∧ gs = gs'.
Proof.
  unfold gene_error.
  destruct use_raw, gs as [g|], use_raw', gs' as [g'|];
    cbv [String.append]; fold String.append; intros H;
    simplify_eq; try done.
  - by apply string_app_inv_tail in H as ->.
  - by apply string_app_inv_tail in H as ->.
Qed.

Section ObsDfResolution.
Context {num : Type}.
Implicit Types (adata : @AnnData num) (df : @DataFrame num).

Lemma obs_df_loop_error adata keys obsm_keys layer gene_symbols use_raw gn e :
  obs_df_gene_names adata layer gene_symbols use_raw = Ok gn →
  NoDup (labels (obs adata)) →
  NoDup (var_names adata) →
  foldM (obs_df_key (labels (obs adata)) gn gene_symbols) ([], [], [], [])
    (np_unique keys) = Raise e →
  obs_df adata keys obsm_keys layer gene_symbols use_raw = Raise e.
Proof.
  intros Hgn Hobs Hvar Hloop. unfold obs_df. rewrite Hgn. cbn [bind].
  unfold is_unique. rewrite (bool_decide_eq_true_2 _ Hobs), (bool_decide_eq_true_2 _ Hvar).
  cbn [negb]. by rewrite Hloop.
Qed.

Lemma obs_df_loop_not_found adata keys obsm_keys layer gene_symbols use_raw gn o v s k n :
  obs_df_gene_names adata layer gene_symbols use_raw = Ok gn →
  NoDup (labels (obs adata)) →
  NoDup (var_names adata) →
  foldM (obs_df_key (labels (obs adata)) gn gene_symbols) ([], [], [], [])
    (np_unique keys) = Ok (o, v, s, k :: n) →
  obs_df adata keys obsm_keys layer gene_symbols use_raw
  = Raise (KeyError_not_found (k :: n) (gene_error use_raw gene_symbols)).
Proof.
  intros Hgn Hobs Hvar Hloop. unfold obs_df. rewrite Hgn. cbn [bind].
  unfold is_unique. rewrite (bool_decide_eq_true_2 _ Hobs), (bool_decide_eq_true_2 _ Hvar).
  cbn [negb]. by rewrite Hloop.
Qed.

(** C5 (amended). When the arguments are accepted, the uniqueness checks
    pass and no requested key is ambiguous, requested keys found in neither
    name space make [obs_df] raise one error; it lists all of them, each
    once, and its text tells which name space of features was searched
    (feature names or the alias column) and in which matrix (primary or
    raw). *)
Theorem obs_df_not_found adata keys obsm_keys layer gene_symbols use_raw gn :
  obs_df_gene_names adata layer gene_symbols use_raw = Ok gn →
  NoDup (labels (obs adata)) →
  NoDup (var_names adata) →
  Forall (λ k, key_error (labels (obs adata)) gn gene_symbols k = None) keys →
  Exists (is_unresolved (labels (obs adata)) gn) keys →
  let not_found := filter (is_unresolved (labels (obs adata)) gn) (np_unique keys) in
  obs_df adata keys obsm_keys layer gene_symbols use_raw
  = Raise (KeyError_not_found not_found (gene_error use_raw gene_symbols))
  ∧ (∀ k, k ∈ exn_names (KeyError_not_found not_found
                           (gene_error use_raw gene_symbols))
          ↔ k ∈ keys ∧ is_unresolved (labels (obs adata)) gn k)
  ∧ NoDup not_found
  ∧ (∀ use_raw' gene_symbols',
       gene_error use_raw gene_symbols = gene_error use_raw' gene_symbols' →
       use_raw = use_raw' ∧ gene_symbols = gene_symbols').
Proof.
  intros Hgn Hobs Hvar Hnone Hex not_found. split; [|split; [|split]].
  - assert (Forall (λ k, key_error (labels (obs adata)) gn gene_symbols k = None)
              (np_unique keys)) as Hnone'.
    { rewrite Forall_forall in Hnone |- *. intros k Hk. apply Hnone.
      by apply elem_of_np_unique. }
    pose proof (obs_df_loop_Ok (labels (obs adata)) gn gene_symbols
                  ([], [], [], []) (np_unique keys) Hnone') as Hloop.
    cbn [loop_result app] in Hloop. fold not_found in Hloop.
    destruct not_found as [|k n] eqn:E.
    + apply Exists_exists in Hex as (k & Hk & Hun).
      destruct (filter_nil_not_elem_of _ _ k E Hun). by apply elem_of_np_unique.
    + by eapply obs_df_loop_not_found.
  - intros k. cbn [exn_names]. unfold not_found.
    by rewrite list_elem_of_filter, elem_of_np_unique, (comm and).
  - apply NoDup_filter, NoDup_np_unique.
  - apply gene_error_inj.
Qed.

(** A key found in both name spaces, or matching several features through
    the alias column. *)
Definition ambiguous (obs_columns : list string) (gn : list (@cell num * string))
    (gene_symbols : option string) (key : string) : bool :=
  if label_in key obs_columns then series_has gn key
  else match gene_symbols with
       | Some _ => 1 <? length (series_getitem gn key)
       | None => false
       end.

(** The feature names [obs_df] searches. *)
Definition searched_var_names adata (use_raw : bool) : list string :=
  if use_raw then
    match raw adata with
    | Some r => raw_var_names r
    | None => []
    end
  else var_names adata.

Lemma series_getitem_zip (names : list string) key :
  series_getitem (zip (@Str num <$> names) names) key = filter (λ n, n = key) names.
Proof.
  unfold series_getitem. induction names as [|n names IH]; [done|].
  rewrite fmap_cons. cbn [zip zip_with]. rewrite !filter_cons. cbn [fst cell_is].
  destruct (String.eqb_spec n key) as [->|Hne].
  - rewrite !decide_True by done. rewrite fmap_cons. cbn [snd]. by rewrite <-IH.
  - rewrite decide_False by (by intros []). by rewrite decide_False.
Qed.

Lemma length_filter_eq_NoDup (l : list string) key :
  NoDup l → length (filter (λ n, n = key) l) ≤ 1.
Proof.
  induction 1 as [|x l Hx _ IH]; [cbn; lia|].
  rewrite filter_cons. destruct (decide (x = key)) as [->|]; [|done].
  rewrite (filter_nil_intro _ l); [cbn; lia|]. by intros y Hy ->.
Qed.

Lemma obs_df_gene_names_None adata layer use_raw gn :
  obs_df_gene_names adata layer None use_raw = Ok gn →
  gn = zip (Str <$> searched_var_names adata use_raw) (searched_var_names adata use_raw).
Proof.
  unfold obs_df_gene_names, searched_var_names, get_raw, Series. destruct use_raw.
  - rewrite bind_Ok. intros (_ & _ & H). destruct (raw adata) as [r|]; [|done].
    cbn [bind] in H. rewrite length_fmap, Nat.eqb_refl in H. by injection H as <-.
  - rewrite length_fmap, Nat.eqb_refl. by intros [= <-].
Qed.

Lemma series_has_getitem (gn : list (@cell num * string)) key :
  series_has gn key = true → series_getitem gn key ≠ [].
Proof.
  unfold series_has, series_getitem. intros H.
  apply existsb_exists in H as (e & He%list_elem_of_In & Hkey).
  intros Hnil. apply fmap_nil_inv in Hnil.
  apply (filter_nil_not_elem_of _ _ e Hnil); [by rewrite Hkey|done].
Qed.

Lemma series_has_false (gn : list (@cell num * string)) key :
  series_has gn key = false → series_getitem gn key = [].
Proof.
  unfold series_has, series_getitem. intros H.
  rewrite filter_nil_intro; [done|]. intros e He Hkey.
  assert (existsb (λ e, cell_is key e.1) gn = true) as Hex; [|congruence].
  apply existsb_exists. exists e. split; [by apply list_elem_of_In|].
  by apply Is_true_true.
Qed.

Lemma key_error_ambiguous obs_columns (gn : list (@cell num * string)) gene_symbols key :
  (gene_symbols = None → length (series_getitem gn key) ≤ 1) →
  key_error obs_columns gn gene_symbols key
  = if ambiguous obs_columns gn gene_symbols key
    then Some (if label_in key obs_columns then KeyError_both key
               else match gene_symbols with
                    | Some gs => KeyError_duplicate_symbol key gs
                    | None => AssertionError ""
                    end)
    else None.
Proof.
  intros Hlen. unfold key_error, ambiguous.
  destruct (label_in key obs_columns); [by destruct (series_has gn key)|].
  destruct (series_has gn key) eqn:Hhas.
  - apply series_has_getitem in Hhas.
    destruct (series_getitem gn key) as [|val [|val' vals]]; [done| |].
    + by destruct gene_symbols.
    + destruct gene_symbols; [done|]. specialize (Hlen eq_refl). cbn in Hlen. lia.
  - destruct gene_symbols; [|done].
    by rewrite (series_has_false _ _ Hhas).
Qed.

(** C3 (amended). When the arguments are accepted, the uniqueness checks
    pass and the feature names searched are distinct, a request that holds
    an ambiguous key (a key found both among the columns of [adata.obs] and
    in the name space of features, or a key matching several features through
    the alias column) never returns a table: [obs_df] raises the
    ambiguous-key error for the first such key in sorted order, naming that
    key and, in the alias case, the alias column. *)
Theorem obs_df_ambiguous_key adata keys obsm_keys layer gene_symbols use_raw gn :
  obs_df_gene_names adata layer gene_symbols use_raw = Ok gn →
  NoDup (labels (obs adata)) →
  NoDup (var_names adata) →
  (gene_symbols = None → NoDup (searched_var_names adata use_raw)) →
  Exists (ambiguous (labels (obs adata)) gn gene_symbols) keys →
  ∃ k, k ∈ keys
       ∧ ambiguous (labels (obs adata)) gn gene_symbols k
       ∧ (∀ k', k' ∈ keys → ambiguous (labels (obs adata)) gn gene_symbols k' →
                str_le k k')
       ∧ if label_in k (labels (obs adata))
         then obs_df adata keys obsm_keys layer gene_symbols use_raw
              = Raise (KeyError_both k)
              ∧ k ∈ exn_names (KeyError_both k)
         else ∃ gs, gene_symbols = Some gs
                    ∧ obs_df adata keys obsm_keys layer gene_symbols use_raw
                      = Raise (KeyError_duplicate_symbol k gs)
                    ∧ k ∈ exn_names (KeyError_duplicate_symbol k gs)
                    ∧ gs ∈ exn_names (KeyError_duplicate_symbol k gs).
Proof.
  intros Hgn Hobs Hvar Huniq Hex.
  assert (∀ key, gene_symbols = None → length (series_getitem gn key) ≤ 1) as Hlen.
  { intros key ->. rewrite (obs_df_gene_names_None _ _ _ _ Hgn), series_getitem_zip.
    by apply length_filter_eq_NoDup, Huniq. }
  assert (∀ key, key_error (labels (obs adata)) gn gene_symbols key = None
                 ↔ ¬ ambiguous (labels (obs adata)) gn gene_symbols key) as Hnone.
  { intros key. rewrite key_error_ambiguous by auto.
    destruct (ambiguous _ _ _ key); cbn; split; try done.
    intros _ H. exact H. }
  destruct (first_key_error (labels (obs adata)) gn gene_symbols (np_unique keys))
    as [Hall|(ks1 & k & ks2 & e & Heq & H1 & Hk)].
  { apply Exists_exists in Hex as (k & Hk & Hamb). rewrite Forall_forall in Hall.
    destruct (proj1 (Hnone k)); [|done]. by apply Hall, elem_of_np_unique. }
  assert (obs_df adata keys obsm_keys layer gene_symbols use_raw = Raise e) as Hraise.
  { eapply obs_df_loop_error; [done..|]. rewrite Heq. by apply obs_df_loop_Raise. }
  rewrite key_error_ambiguous in Hk by auto.
  destruct (ambiguous (labels (obs adata)) gn gene_symbols k) eqn:Hamb; [|done].
  injection Hk as <-. exists k. split; [|split; [by rewrite Hamb|split]].
  - apply elem_of_np_unique. rewrite Heq. apply elem_of_app. right. by left.
  - intros k' Hk' Hamb'. apply elem_of_np_unique in Hk'. rewrite Heq in Hk'.
    apply elem_of_app in Hk' as [Hk'|Hk'].
    { rewrite Forall_forall in H1. by destruct (proj1 (Hnone k') (H1 k' Hk')). }
    pose proof (StronglySorted_np_unique keys) as Hs. rewrite Heq in Hs.
    apply StronglySorted_app_1_r, StronglySorted_cons in Hs as [Hs _].
    apply elem_of_cons in Hk' as [->|Hk'].
    + by destruct (total str_le k k).
    + rewrite Forall_forall in Hs. by apply Hs.
  - unfold ambiguous in Hamb. destruct (label_in k (labels (obs adata))).
    + split; [done|]. cbn. by left.
    + destruct gene_symbols as [gs|]; [|done]. exists gs.
      split; [done|]. split; [done|]. cbn. split; [by left|right; by left].
Qed.

End ObsDfResolution.

Lemma obs_df_ambiguous_key_witness :
  ∃ k, k ∈ ["G2"; "cluster"; "G1"]
       ∧ obs_df ex_ambiguous ["G2"; "cluster"; "G1"] [] None None false
         = Raise (KeyError_both k).
Proof.
  destruct (obs_df_ambiguous_key ex_ambiguous ["G2"; "cluster"; "G1"] [] None None false
              (zip (Str <$> ["G1"; "G2"; "G3"]) ["G1"; "G2"; "G3"]))
    as (k & Hk & Hamb & _ & H).
  - reflexivity.
  - apply (bool_decide_unpack _). vm_compute. exact I.
  - apply (bool_decide_unpack _). vm_compute. exact I.
  - intros _. apply (bool_decide_unpack _). vm_compute. exact I.
  - apply Exists_cons_hd. vm_compute. exact I.
  - exists k. split; [done|].
    unfold ambiguous in Hamb. destruct (label_in k (labels (obs ex_ambiguous))).
    + by destruct H.
    + done.
Defined.

(** C3, as stated, fails when two requested keys are ambiguous: the error
    names the first in sorted order and not the other. *)
Lemma obs_df_second_ambiguous_key_unnamed :
  ambiguous (labels (obs ex_ambiguous))
    (zip (@Str Z <$> ["G1"; "G2"; "G3"]) ["G1"; "G2"; "G3"]) None "G2"
  ∧ obs_df ex_ambiguous ["G2"; "G1"] [] None None false = Raise (KeyError_both "G1")
  ∧ "G2" ∉ exn_names (KeyError_both "G1").
Proof.
  split; [vm_compute; exact I|]. split; [vm_compute; reflexivity|].
  apply (bool_decide_unpack _). vm_compute. exact I.
Qed.

Lemma obs_df_not_found_witness :
  obs_df ex_adata ["zz"; "b"; "yy"; "zz"] [] None (Some "symbol") true
  = Raise (KeyError_not_found ["yy"; "zz"]
             "gene_symbols column `adata.raw.var[symbol].values`").
Proof.
  destruct (obs_df_not_found ex_adata ["zz"; "b"; "yy"; "zz"] [] None (Some "symbol") true
              (zip [Str "a"; Str "b"; Str "c"] ["G1"; "G2"; "G3"]))
    as (H & _).
  - reflexivity.
  - apply (bool_decide_unpack _). vm_compute. exact I.
  - apply (bool_decide_unpack _). vm_compute. exact I.
  - apply (bool_decide_unpack _). vm_compute. exact I.
  - apply Exists_cons_hd. vm_compute. exact I.
  - rewrite H. vm_compute. reflexivity.
Defined.

(** C5, as stated, fails when another requested key is ambiguous: the
    ambiguous-key error is raised and the key found in neither name space is
    not listed. *)
Lemma obs_df_unresolved_key_unlisted :
  is_unresolved (labels (obs ex_ambiguous))
    (zip (@Str Z <$> ["G1"; "G2"; "G3"]) ["G1"; "G2"; "G3"]) "nope"
  ∧ obs_df ex_ambiguous ["nope"; "G1"] [] None None false = Raise (KeyError_both "G1")
  ∧ "nope" ∉ exn_names (KeyError_both "G1").
Proof.
  split; [vm_compute; exact I|]. split; [vm_compute; reflexivity|].
  apply (bool_decide_unpack _). vm_compute. exact I.
Qed.

(** ** The long table of differential-expression results: row order *)

(** *** Lists made by [flat_map] *)





Lemma flat_map_singleton {A} (l : list A) : flat_map (λ x, [x]) l = l.
Proof. induction l as [|x l IH]; cbn; [done|]. by rewrite IH. Qed.

Lemma elem_of_flat_map {A B} (f : A → list B) l y :
  y ∈ flat_map f l ↔ ∃ x, x ∈ l ∧ y ∈ f x.
Proof.
  rewrite list_elem_of_In, in_flat_map. split.
  - intros (x & Hx & Hy). exists x. by rewrite !list_elem_of_In.
  - intros (x & Hx & Hy). exists x. by rewrite <-!list_elem_of_In.
Qed.






(** *** The categorical codes *)





Section ReshaperOrder.
Context {num : Type} (num_lt : num → num → bool).
Implicit Types (adata : @AnnData num) (store : @rank_genes_groups num).
Implicit Types (gl : list string) (w : @wide num) (r : @de_row num).

Lemma rank_genes_groups_df_unfold adata group key pval_cutoff log2fc_min log2fc_max
    gene_symbols :
  rank_genes_groups_df num_lt adata group key pval_cutoff log2fc_min log2fc_max gene_symbols
  = (store <- dict_getitem (uns adata) key;
     let gl := requested_groups store group in
     w <- wide_of store gl;
     if negb (is_unique gl)
     then Raise (ValueError "Categorical categories must be unique")
     else after_sort num_lt adata store gl pval_cutoff log2fc_min log2fc_max gene_symbols
            (merge_sort (sort_le gl) (stack w gl)).*2).
Proof.
  unfold rank_genes_groups_df, wide_of, after_sort.
  destruct (dict_getitem (uns adata) key) as [store|e]; [|by destruct group].
  cbn [bind]. cbv zeta.
  destruct group; cbn [requested_groups bind];
    (destruct (select_fields (names store) _) as [d1|]; [|done]);
    (destruct (select_fields (scores store) _) as [d2|]; [|done]);
    (destruct (select_fields (logfoldchanges store) _) as [d3|]; [|done]);
    (destruct (select_fields (pvals store) _) as [d4|]; [|done]);
    (destruct (select_fields (pvals_adj store) _) as [d5|]; [|done]);
    reflexivity.
Qed.

(** *** The sort *)

Global Instance sort_le_total gl : Total (@sort_le num gl).
Proof. intros a b. unfold sort_le. lia. Qed.

Global Instance sort_le_trans gl : Transitive (@sort_le num gl).
Proof. intros a b c. unfold sort_le. lia. Qed.

Lemma elem_of_stack_row w i g x :
  x ∈ stack_row w i g → x.1 = i ∧ row_group x.2 = Some g ∧ stack_row w i g = [x].
Proof.
  unfold stack_row. cbv zeta.
  match goal with |- context [if ?b then _ else _] => destruct b end.
  - intros ->%list_elem_of_singleton. done.
  - by intros ?%elem_of_nil.
Qed.







(** *** The statements after the sort work row by row *)













End ReshaperOrder.


(** * Further properties *)

(** ** The representation selector: writing, then reading *)

Section SelectorRoundTrip.
Context {num : Type}.
Implicit Types (adata : @AnnData num) (val : @array num).


Lemma set_obs_rep_cases adata val (use_raw : bool) layer obsm_key obsp_key adata' :
  _set_obs_rep adata val (PyBool use_raw) layer obsm_key obsp_key = Ok adata' →
  (use_raw = false ∧ layer = None ∧ obsm_key = None ∧ obsp_key = None
   ∧ adata' = set_X adata val)
  ∨ (∃ l, use_raw = false ∧ layer = Some l ∧ obsm_key = None ∧ obsp_key = None
          ∧ adata' = set_layers adata (<[l := val]> (layers adata)))
  ∨ (∃ r, use_raw = true ∧ layer = None ∧ obsm_key = None ∧ obsp_key = None
          ∧ raw adata = Some r ∧ adata' = set_raw_X adata r val)
  ∨ (∃ k, use_raw = false ∧ layer = None ∧ obsm_key = Some k ∧ obsp_key = None
          ∧ adata' = set_obsm adata (<[k := val]> (obsm adata)))
  ∨ (∃ k, use_raw = false ∧ layer = None ∧ obsm_key = None ∧ obsp_key = Some k
          ∧ adata' = set_obsp adata (<[k := val]> (obsp adata))).
Proof.
  destruct use_raw, layer as [l|], obsm_key as [k|], obsp_key as [k'|];
    cbn; try done.
  - unfold get_raw. destruct (raw adata) as [r|] eqn:Hr; [|done]. cbn.
    intros [= <-]. right. right. left. by exists r.
  - intros [= <-]. right. left. by exists l.
  - intros [= <-]. right. right. right. left. by exists k.
  - intros [= <-]. right. right. right. right. by exists k'.
  - intros [= <-]. by left.
Qed.

(** X1. The array written by [_set_obs_rep] is the one [_get_obs_rep] reads
    back under the same selectors. *)
Theorem set_get_obs_rep adata val (use_raw : bool) layer obsm_key obsp_key adata' :
  _set_obs_rep adata val (PyBool use_raw) layer obsm_key obsp_key = Ok adata' →
  _get_obs_rep adata' (PyBool use_raw) layer obsm_key obsp_key = Ok val.
Proof.
  intros H. apply set_obs_rep_cases in H
    as [(-> & -> & -> & -> & ->)|[(l & -> & -> & -> & -> & ->)
       |[(r & -> & -> & -> & -> & Hr & ->)|[(k & -> & -> & -> & -> & ->)
       |(k & -> & -> & -> & -> & ->)]]]]; cbn; try done.
  - unfold dict_getitem. by rewrite lookup_insert_eq.
  - unfold dict_getitem. by rewrite lookup_insert_eq.
  - unfold dict_getitem. by rewrite lookup_insert_eq.
Qed.



End SelectorRoundTrip.

Lemma set_get_obs_rep_witness :
  ∃ adata', _set_obs_rep ex_adata (ndarray [[5; 5; 5]; [6; 6; 6]]%Z) (PyBool false)
              (Some "scaled") None None = Ok adata'
            ∧ _get_obs_rep adata' (PyBool false) (Some "scaled") None None
              = Ok (ndarray [[5; 5; 5]; [6; 6; 6]]%Z).
Proof.
  eexists. split; [reflexivity|].
  apply (set_get_obs_rep ex_adata). reflexivity.
Defined.


(** ** The long table: header, cutoffs and joined columns *)


Lemma filter_filter_andb {A} (p q : A → bool) l :
  List.filter q (List.filter p l) = List.filter (λ x, p x && q x) l.
Proof.
  induction l as [|x l IH]; [done|]. cbn [List.filter].
  destruct (p x); cbn [List.filter andb]; [|done]. by rewrite IH.
Qed.

Lemma filter_all_true {A} (p : A → bool) l : (∀ x, p x = true) → List.filter p l = l.
Proof.
  intros Hp. induction l as [|x l IH]; [done|]. cbn [List.filter]. by rewrite Hp, IH.
Qed.

Section ReshaperRows.
Context {num : Type} (num_lt : num → num → bool).
Implicit Types (adata : @AnnData num) (store : @rank_genes_groups num).
Implicit Types (gl : list string) (r : @de_row num) (d : list (@de_row num)).

(** The three cutoffs on one row: [pvals_adj < pval_cutoff],
    [logfoldchanges > log2fc_min] and [logfoldchanges < log2fc_max], each
    when it is given. *)
Definition passes (pval_cutoff log2fc_min log2fc_max : option num) r : bool :=
  match pval_cutoff with
  | Some c => below num_lt c (row_pvals_adj r)
  | None => true
  end
  && match log2fc_min with
     | Some c => above num_lt c (row_logfoldchanges r)
     | None => true
     end
  && match log2fc_max with
     | Some c => below num_lt c (row_logfoldchanges r)
     | None => true
     end.

(** The statements that apply the cutoffs, on the sorted rows [d]. *)
Definition apply_cutoffs (pval_cutoff log2fc_min log2fc_max : option num) d : list de_row :=
  let d := match pval_cutoff with
           | Some c => List.filter (λ r, below num_lt c (row_pvals_adj r)) d
           | None => d
           end in
  let d := match log2fc_min with
           | Some c => List.filter (λ r, above num_lt c (row_logfoldchanges r)) d
           | None => d
           end in
  match log2fc_max with
  | Some c => List.filter (λ r, below num_lt c (row_logfoldchanges r)) d
  | None => d
  end.

Lemma apply_cutoffs_passes pval_cutoff log2fc_min log2fc_max d :
  apply_cutoffs pval_cutoff log2fc_min log2fc_max d
  = List.filter (passes pval_cutoff log2fc_min log2fc_max) d.
Proof.
  unfold apply_cutoffs, passes.
  destruct pval_cutoff as [c1|], log2fc_min as [c2|], log2fc_max as [c3|];
    rewrite ?filter_filter_andb;
    try (symmetry; by apply filter_all_true);
    apply List.filter_ext; intros r; cbn; by rewrite ?andb_true_r, ?andb_assoc.
Qed.

Lemma after_sort_passes adata store gl pval_cutoff log2fc_min log2fc_max gene_symbols d :
  after_sort num_lt adata store gl pval_cutoff log2fc_min log2fc_max gene_symbols d
  = after_sort num_lt adata store gl None None None gene_symbols
      (List.filter (passes pval_cutoff log2fc_min log2fc_max) d).
Proof. by rewrite <-apply_cutoffs_passes. Qed.




(** *** The columns and the rows of a returned table *)

(** What the statements after the sort return: the header, and the rows as
    made by the symbol join [J] and the two merges [G] and [R]. *)
Lemma after_sort_Ok adata store gl pval_cutoff log2fc_min log2fc_max gene_symbols d t :
  after_sort num_lt adata store gl pval_cutoff log2fc_min log2fc_max gene_symbols d = Ok t →
  ∃ J G R : de_row → list de_row,
    match gene_symbols with
    | Some gs => ∃ symbols, df_getitem (var adata) gs = Ok symbols
                            ∧ J = join_row (zip (index (var adata)) symbols)
    | None => J = λ r, [r]
    end
    ∧ match pts store with
      | Some p => ∃ pg, melt p gl = Ok pg ∧ G = merge_row set_pct_nz_group pg
      | None => G = λ r, [r]
      end
    ∧ match pts_rest store with
      | Some p => ∃ pr, melt p gl = Ok pr ∧ R = merge_row set_pct_nz_reference pr
      | None => R = λ r, [r]
      end
    ∧ table_columns t
      = (if length gl =? 1 then [] else ["group"])
        ++ ["names"; "scores"; "logfoldchanges"; "pvals"; "pvals_adj"]
        ++ match gene_symbols with Some gs => [gs] | None => [] end
        ++ match pts store with Some _ => ["pct_nz_group"] | None => [] end
        ++ match pts_rest store with Some _ => ["pct_nz_reference"] | None => [] end
    ∧ table_rows t
      = (λ r, if length gl =? 1 then drop_group r else r)
        <$> flat_map R (flat_map G (flat_map J
              (List.filter (passes pval_cutoff log2fc_min log2fc_max) d))).
Proof.
  rewrite after_sort_passes.
  set (d' := List.filter _ d). clearbody d'.
  unfold after_sort, merge_pts. cbv zeta. intros H.
  assert (∀ gs, label_in gs ["group"; "names"; "scores"; "logfoldchanges"; "pvals";
                             "pvals_adj"] = false →
                negb (String.eqb gs "group") = true) as Hgroup.
  { intros gs Hgs. unfold label_in in Hgs. apply bool_decide_eq_false in Hgs.
    destruct (String.eqb_spec gs "group") as [->|]; [|done]. destruct Hgs. by left. }
  destruct gene_symbols as [gs|];
    [destruct (df_getitem (var adata) gs) as [symbols|]; [|done];
     cbn [bind table_columns] in H;
     destruct (label_in gs _) eqn:Hgs; [done|]; apply Hgroup in Hgs|];
    cbn [bind table_columns table_rows] in H;
    (destruct (pts store) as [p|];
       [destruct (melt p gl) as [pg|]; [|done];
        cbn [bind table_columns table_rows] in H;
        destruct (label_in "pct_nz_group" _); [done|]|]);
    cbn [bind table_columns table_rows] in H;
    (destruct (pts_rest store) as [p'|];
       [destruct (melt p' gl) as [pr|]; [|done];
        cbn [bind table_columns table_rows] in H;
        destruct (label_in "pct_nz_reference" _); [done|]|]);
    cbn [bind table_columns table_rows] in H;
    injection H as <-;
    eexists _, _, _;
    (split; [first [by eexists|reflexivity]|]);
    (split; [first [by eexists|reflexivity]|]);
    (split; [first [by eexists|reflexivity]|]);
    destruct (length gl =? 1); cbn [table_columns table_rows];
    rewrite ?flat_map_singleton; cbn; rewrite ?Hgs, ?list_fmap_id; done.
Qed.

(** The rows that are sorted come from the wide table. *)
Lemma elem_of_sorted_stack gl (w : @wide num) r :
  r ∈ (merge_sort (sort_le gl) (stack w gl)).*2 →
  ∃ i g, g ∈ gl ∧ (i, r) ∈ stack_row w i g.
Proof.
  intros ([i r'] & -> & Hx)%list_elem_of_fmap.
  rewrite merge_sort_Permutation in Hx. unfold stack in Hx.
  apply elem_of_flat_map in Hx as (i' & _ & Hx).
  apply elem_of_flat_map in Hx as (g & Hg & Hx).
  destruct (elem_of_stack_row _ _ _ _ Hx) as (E & _). cbn in E. subst i'.
  by exists i, g.
Qed.

Lemma stack_row_blank (w : @wide num) i g x :
  x ∈ stack_row w i g →
  row_group x.2 = Some g ∧ row_symbol x.2 = None
  ∧ row_pct_nz_group x.2 = None ∧ row_pct_nz_reference x.2 = None.
Proof.
  unfold stack_row. cbv zeta.
  match goal with |- context [if ?b then _ else _] => destruct b end.
  - intros ->%list_elem_of_singleton. done.
  - by intros ?%elem_of_nil.
Qed.

(** One row of the left join: the symbol is that of an entry of the series
    labelled by the row's name, and missing when there is no such entry. *)
Lemma elem_of_join_row (series : list (string * @cell num)) r r' :
  r' ∈ join_row series r →
  ∃ c, r' = set_symbol r c
       ∧ match c with
         | Some x => ∃ n, row_names r = Some n ∧ (n, x) ∈ series
         | None => ∀ n x, row_names r = Some n → (n, x) ∉ series
         end.
Proof.
  unfold join_row. destruct (row_names r) as [n|] eqn:Hn.
  - destruct (List.filter _ series) as [|e found] eqn:Hf.
    + intros ->%list_elem_of_singleton. exists None. split; [done|].
      intros n' x [= <-] Hin.
      assert ((n, x) ∈ List.filter (λ e : string * cell, String.eqb e.1 n) series) as Hx.
      { apply list_elem_of_In, filter_In. split; [by apply list_elem_of_In|].
        apply String.eqb_refl. }
      rewrite Hf in Hx. by apply elem_of_nil in Hx.
    + intros (e' & -> & He')%list_elem_of_fmap. exists (Some e'.2). split; [done|].
      exists n. split; [done|]. rewrite <-Hf in He'.
      apply list_elem_of_In, filter_In in He' as [He' Heq].
      apply String.eqb_eq in Heq. destruct e' as [n' x]. cbn in *. subst n'.
      by apply list_elem_of_In.
  - intros ->%list_elem_of_singleton. exists None. split; [done|]. by intros n x.
Qed.

(** One row of the inner join: the value is that of an entry of the melted
    table for the row's name and group. *)
Lemma elem_of_merge_row (set : de_row → num → de_row)
    (pts_df : list (string * string * num)) r r' :
  r' ∈ merge_row set pts_df r →
  ∃ n g v, row_names r = Some n ∧ row_group r = Some g
           ∧ (n, g, v) ∈ pts_df ∧ r' = set r v.
Proof.
  unfold merge_row.
  destruct (row_names r) as [n|], (row_group r) as [g|]; try by intros ?%elem_of_nil.
  intros ([[n' g'] v] & -> & He)%list_elem_of_fmap.
  apply list_elem_of_In, filter_In in He as [He Heq]. cbn in Heq.
  apply andb_prop in Heq as [->%String.eqb_eq ->%String.eqb_eq].
  exists n, g, v. split; [done|]. split; [done|]. split; [|done].
  by apply list_elem_of_In.
Qed.

Lemma elem_of_select_fields {A} (rec sel : list (string * list A)) gl f :
  select_fields rec gl = Ok sel → f ∈ sel → f.1 ∈ gl ∧ assoc f.1 rec = Some f.2.
Proof.
  unfold select_fields. intros H%mapM_result_Ok Hf.
  apply list_elem_of_lookup in Hf as [j Hj].
  destruct (Forall2_lookup_r _ _ _ _ _ H Hj) as (g & Hg & Hsel).
  destruct (assoc g rec) as [col|] eqn:Hcol; [|done]. injection Hsel as <-. cbn.
  split; [|done]. apply list_elem_of_lookup. eauto.
Qed.

(** The entries of the melted table: one per gene and requested group. *)
Lemma elem_of_melt (p : @pts_frame num) gl pg n g v :
  melt p gl = Ok pg → (n, g, v) ∈ pg →
  g ∈ gl ∧ ∃ col j, assoc g (pts_columns p) = Some col
                    ∧ pts_index p !! j = Some n ∧ col !! j = Some v.
Proof.
  unfold melt. intros (sel & Hsel & [= <-])%bind_Ok (f & Hf & He)%elem_of_flat_map.
  apply list_elem_of_fmap in He as ([n' v'] & [= -> -> ->] & He). cbn in *.
  destruct (elem_of_select_fields _ _ _ _ Hsel Hf) as [Hg Hcol].
  split; [done|]. exists f.2.
  apply list_elem_of_lookup in He as [j Hj].
  apply lookup_zip_with_Some in Hj as (n'' & v'' & [= <- <-] & Hn & Hv).
  by exists j.
Qed.

(** Where a returned row comes from: the row [r0] of the wide table at some
    rank [i] for a requested group [g] passes the cutoffs, the symbol join
    makes [r1] of it, the two merges [r2] and [r3]. *)
Lemma rank_genes_groups_df_row adata group key pval_cutoff log2fc_min log2fc_max
    gene_symbols t r :
  rank_genes_groups_df num_lt adata group key pval_cutoff log2fc_min log2fc_max gene_symbols
  = Ok t →
  r ∈ table_rows t →
  ∃ store w (J G R : de_row → list de_row) i g r0 r1 r2 r3,
    let gl := requested_groups store group in
    uns adata !! key = Some store
    ∧ match gene_symbols with
      | Some gs => ∃ symbols, df_getitem (var adata) gs = Ok symbols
                              ∧ J = join_row (zip (index (var adata)) symbols)
      | None => J = λ r, [r]
      end
    ∧ match pts store with
      | Some p => ∃ pg, melt p gl = Ok pg ∧ G = merge_row set_pct_nz_group pg
      | None => G = λ r, [r]
      end
    ∧ match pts_rest store with
      | Some p => ∃ pr, melt p gl = Ok pr ∧ R = merge_row set_pct_nz_reference pr
      | None => R = λ r, [r]
      end
    ∧ g ∈ gl ∧ (i, r0) ∈ stack_row w i g
    ∧ passes pval_cutoff log2fc_min log2fc_max r0 = true
    ∧ r1 ∈ J r0 ∧ r2 ∈ G r1 ∧ r3 ∈ R r2
    ∧ r = if length gl =? 1 then drop_group r3 else r3.
Proof.
  rewrite rank_genes_groups_df_unfold. intros H Hr.
  apply bind_Ok in H as (store & Hstore & H). cbv zeta in H.
  apply bind_Ok in H as (w & Hw & H).
  unfold dict_getitem in Hstore.
  destruct (uns adata !! key) as [store'|] eqn:Hkey; [|done].
  injection Hstore as ->.
  destruct (negb _); [done|].
  apply after_sort_Ok in H as (J & G & R & HJ & HG & HR & _ & Hrows).
  rewrite Hrows in Hr. apply list_elem_of_fmap in Hr as (r3 & -> & Hr3).
  apply elem_of_flat_map in Hr3 as (r2 & Hr2 & Hr3).
  apply elem_of_flat_map in Hr2 as (r1 & Hr1 & Hr2).
  apply elem_of_flat_map in Hr1 as (r0 & Hr0 & Hr1).
  apply list_elem_of_In, filter_In in Hr0 as [Hr0%list_elem_of_In Hpass].
  apply elem_of_sorted_stack in Hr0 as (i & g & Hg & Hr0).
  exists store, w, J, G, R, i, g, r0, r1, r2, r3. cbv zeta. by repeat split.
Qed.

Lemma rank_genes_groups_df_Ok adata group key pval_cutoff log2fc_min log2fc_max
    gene_symbols t :
  rank_genes_groups_df num_lt adata group key pval_cutoff log2fc_min log2fc_max gene_symbols
  = Ok t →
  ∃ store d,
    uns adata !! key = Some store
    ∧ after_sort num_lt adata store (requested_groups store group) pval_cutoff log2fc_min
        log2fc_max gene_symbols d = Ok t.
Proof.
  rewrite rank_genes_groups_df_unfold. intros H.
  apply bind_Ok in H as (store & Hstore & H). cbv zeta in H.
  apply bind_Ok in H as (w & Hw & H).
  unfold dict_getitem in Hstore.
  destruct (uns adata !! key) as [store'|] eqn:Hkey; [|done].
  injection Hstore as ->.
  destruct (negb _); [done|]. eauto.
Qed.

Local Ltac invert_row :=
  cbv beta in *;
  repeat match goal with
         | H : _ ∈ join_row _ _ |- _ => apply elem_of_join_row in H as (? & -> & ?)
         | H : _ ∈ merge_row _ _ _ |- _ =>
             apply elem_of_merge_row in H as (? & ? & ? & ? & ? & ? & ->)
         | H : _ ∈ [_] |- _ => apply list_elem_of_singleton in H as ->
         end.


(** X6. With [gene_symbols], the symbol of a returned row is the entry of
    [adata.var[gene_symbols]] at a feature named like the row, and it is
    missing exactly when [adata.var] has no such feature; without
    [gene_symbols] no row has a symbol. *)
Theorem rank_genes_groups_df_symbols adata group key pval_cutoff log2fc_min log2fc_max
    gene_symbols t :
  rank_genes_groups_df num_lt adata group key pval_cutoff log2fc_min log2fc_max gene_symbols
  = Ok t →
  match gene_symbols with
  | Some gs =>
      ∃ symbols,
        df_getitem (var adata) gs = Ok symbols
        ∧ ∀ r, r ∈ table_rows t →
            match row_symbol r with
            | Some c => ∃ n, row_names r = Some n
                             ∧ (n, c) ∈ zip (index (var adata)) symbols
            | None => ∀ n c, row_names r = Some n
                             → (n, c) ∉ zip (index (var adata)) symbols
            end
  | None => ∀ r, r ∈ table_rows t → row_symbol r = None
  end.
Proof.
  intros H.
  assert (∀ r, r ∈ table_rows t →
            match gene_symbols with
            | Some gs =>
                ∃ symbols,
                  df_getitem (var adata) gs = Ok symbols
                  ∧ match row_symbol r with
                    | Some c => ∃ n, row_names r = Some n
                                     ∧ (n, c) ∈ zip (index (var adata)) symbols
                    | None => ∀ n c, row_names r = Some n
                                     → (n, c) ∉ zip (index (var adata)) symbols
                    end
            | None => row_symbol r = None
            end) as Hrow.
  { intros r Hr.
    destruct (rank_genes_groups_df_row _ _ _ _ _ _ _ _ _ H Hr)
      as (store & w & J & G & R & i & g & r0 & r1 & r2 & r3
          & _ & HJ & HG & HR & _ & Hr0 & _ & Hr1 & Hr2 & Hr3 & ->).
    apply stack_row_blank in Hr0 as (_ & Hsym & _). cbn in Hsym.
    destruct gene_symbols as [gs|]; [destruct HJ as (symbols & Hsymbols & ->)|subst J];
      (destruct (pts store) as [p|]; [destruct HG as (pg & _ & ->)|subst G]);
      (destruct (pts_rest store) as [p'|]; [destruct HR as (pr & _ & ->)|subst R]);
      invert_row;
      try (exists symbols; split; [done|]);
      destruct (length _ =? 1); cbn; done. }
  destruct gene_symbols as [gs|]; [|done].
  apply rank_genes_groups_df_Ok in H as (store & d & _ & H).
  apply after_sort_Ok in H as (J & G & R & (symbols & Hsymbols & _) & _).
  exists symbols. split; [done|]. intros r Hr.
  destruct (Hrow r Hr) as (symbols' & Hsymbols' & Hr').
  rewrite Hsymbols in Hsymbols'. by injection Hsymbols' as <-.
Qed.

(** X7. When the store holds the fraction table [pts], each returned row has a
    name and its [pct_nz_group] is the entry of that table for the row's
    gene and group (a row without such an entry is not returned); likewise
    [pct_nz_reference] for [pts_rest].  Without the table the column is
    absent. *)
Theorem rank_genes_groups_df_pts adata group key pval_cutoff log2fc_min log2fc_max
    gene_symbols t :
  rank_genes_groups_df num_lt adata group key pval_cutoff log2fc_min log2fc_max gene_symbols
  = Ok t →
  ∃ store,
    let gl := requested_groups store group in
    uns adata !! key = Some store
    ∧ ∀ r, r ∈ table_rows t →
        match pts store with
        | Some p =>
            ∃ n g col j v,
              row_names r = Some n ∧ g ∈ gl
              ∧ row_group r = (if length gl =? 1 then None else Some g)
              ∧ assoc g (pts_columns p) = Some col
              ∧ pts_index p !! j = Some n ∧ col !! j = Some v
              ∧ row_pct_nz_group r = Some v
        | None => row_pct_nz_group r = None
        end
        ∧ match pts_rest store with
          | Some p =>
              ∃ n g col j v,
                row_names r = Some n ∧ g ∈ gl
                ∧ row_group r = (if length gl =? 1 then None else Some g)
                ∧ assoc g (pts_columns p) = Some col
                ∧ pts_index p !! j = Some n ∧ col !! j = Some v
                ∧ row_pct_nz_reference r = Some v
          | None => row_pct_nz_reference r = None
          end.
Proof.
  intros H.
  destruct (rank_genes_groups_df_Ok _ _ _ _ _ _ _ _ H) as (store & d & Hkey & _).
  exists store. cbv zeta. split; [done|]. intros r Hr.
  destruct (rank_genes_groups_df_row _ _ _ _ _ _ _ _ _ H Hr)
    as (store' & w & J & G & R & i & g & r0 & r1 & r2 & r3
        & Hkey' & HJ & HG & HR & _ & Hr0 & _ & Hr1 & Hr2 & Hr3 & ->).
  cbv zeta in *. rewrite Hkey in Hkey'. injection Hkey' as <-.
  apply stack_row_blank in Hr0 as (_ & _ & Hpg & Hpr). cbn in Hpg, Hpr.
  assert (∀ (p : @pts_frame num) pg n g v,
            melt p (requested_groups store group) = Ok pg → (n, g, v) ∈ pg →
            ∃ col j, g ∈ requested_groups store group
                     ∧ assoc g (pts_columns p) = Some col
                     ∧ pts_index p !! j = Some n ∧ col !! j = Some v) as Hmelt.
  { intros p pg n g' v Hm Hin.
    destruct (elem_of_melt _ _ _ _ _ _ Hm Hin) as (? & col & j & ? & ? & ?).
    by exists col, j. }
  destruct gene_symbols as [gs|]; [destruct HJ as (symbols & Hsymbols & ->)|subst J];
    (destruct (pts store) as [p|]; [destruct HG as (pg & Hmg & ->)|subst G]);
    (destruct (pts_rest store) as [p'|]; [destruct HR as (pr & Hmr & ->)|subst R]);
    invert_row;
    repeat match goal with
           | Hm : melt _ _ = Ok ?pg, Hin : _ ∈ ?pg |- _ =>
               destruct (Hmelt _ _ _ _ _ Hm Hin) as (? & ? & ? & ? & ? & ?); clear Hin
           end;
    cbn in *; simplify_eq; (split; [|]);
    try (destruct (length _ =? 1); cbn; done);
    destruct (length _ =? 1); cbn;
    eexists _, _, _, _, _; repeat split; first [eassumption|reflexivity].
Qed.

(** *** Missing keys, and when a table is returned *)

Lemma select_fields_missing {A} (rec : list (string * list A)) gl g :
  g ∈ gl → assoc g rec = None →
  ∃ g', g' ∈ gl ∧ assoc g' rec = None ∧ select_fields rec gl = Raise (KeyError g').
Proof.
  intros Hg Hnone. unfold select_fields.
  destruct (mapM_result _ gl) as [sel|e] eqn:H.
  - apply mapM_result_Ok in H. apply list_elem_of_lookup in Hg as [j Hj].
    destruct (Forall2_lookup_l _ _ _ _ _ H Hj) as (y & _ & Hy).
    by rewrite Hnone in Hy.
  - apply mapM_result_Raise in H as (g' & Hg' & H).
    destruct (assoc g' rec) eqn:E; [done|]. injection H as <-. by exists g'.
Qed.

Lemma select_fields_is_Ok {A} (rec : list (string * list A)) gl :
  Forall (λ g, is_Some (assoc g rec)) gl → ∃ sel, select_fields rec gl = Ok sel.
Proof.
  intros H. apply mapM_result_is_Ok. intros g Hg.
  rewrite Forall_forall in H. destruct (H g Hg) as [col ->]. by eexists.
Qed.

(** X8. Results that were not stored, or not for a requested group: a missing
    [key] is the [KeyError] of [adata.uns[key]], and a requested group that
    the stored names have no field for is a [KeyError] naming such a
    group. *)
Theorem rank_genes_groups_df_missing adata group key pval_cutoff log2fc_min log2fc_max
    gene_symbols :
  (uns adata !! key = None →
   rank_genes_groups_df num_lt adata group key pval_cutoff log2fc_min log2fc_max
     gene_symbols = Raise (KeyError key))
  ∧ (∀ store g,
       uns adata !! key = Some store →
       g ∈ requested_groups store group →
       assoc g (names store) = None →
       ∃ g', g' ∈ requested_groups store group
             ∧ assoc g' (names store) = None
             ∧ rank_genes_groups_df num_lt adata group key pval_cutoff log2fc_min
                 log2fc_max gene_symbols = Raise (KeyError g')).
Proof.
  rewrite rank_genes_groups_df_unfold. unfold dict_getitem. split.
  - by intros ->.
  - intros store g -> Hg Hnone. cbn [bind]. cbv zeta.
    destruct (select_fields_missing _ _ _ Hg Hnone) as (g' & Hg' & Hnone' & Hsel).
    exists g'. split; [done|]. split; [done|]. unfold wide_of. by rewrite Hsel.
Qed.

(** X9. When the results are stored under [key], the requested groups are
    distinct, each of them is a field of the five stored arrays and a column
    of the fraction tables the store holds, [rank_genes_groups_df] returns a
    table, whatever the cutoffs. *)
Theorem rank_genes_groups_df_is_Ok adata group key pval_cutoff log2fc_min log2fc_max store :
  uns adata !! key = Some store →
  NoDup (requested_groups store group) →
  Forall (λ g, is_Some (assoc g (names store)) ∧ is_Some (assoc g (scores store))
               ∧ is_Some (assoc g (logfoldchanges store))
               ∧ is_Some (assoc g (pvals store))
               ∧ is_Some (assoc g (pvals_adj store)))
    (requested_groups store group) →
  (∀ p, pts store = Some p ∨ pts_rest store = Some p →
        Forall (λ g, is_Some (assoc g (pts_columns p))) (requested_groups store group)) →
  ∃ t, rank_genes_groups_df num_lt adata group key pval_cutoff log2fc_min log2fc_max None
       = Ok t.
Proof.
  intros Hkey Hnd Hfields Hpts.
  rewrite rank_genes_groups_df_unfold. unfold dict_getitem. rewrite Hkey.
  cbn [bind]. cbv zeta. set (gl := requested_groups store group) in *.
  unfold wide_of.
  destruct (select_fields_is_Ok (names store) gl) as [d1 ->];
    [eapply Forall_impl; [exact Hfields|]; by intros g (? & ? & ? & ? & ?)|].
  destruct (select_fields_is_Ok (scores store) gl) as [d2 ->];
    [eapply Forall_impl; [exact Hfields|]; by intros g (? & ? & ? & ? & ?)|].
  destruct (select_fields_is_Ok (logfoldchanges store) gl) as [d3 ->];
    [eapply Forall_impl; [exact Hfields|]; by intros g (? & ? & ? & ? & ?)|].
  destruct (select_fields_is_Ok (pvals store) gl) as [d4 ->];
    [eapply Forall_impl; [exact Hfields|]; by intros g (? & ? & ? & ? & ?)|].
  destruct (select_fields_is_Ok (pvals_adj store) gl) as [d5 ->];
    [eapply Forall_impl; [exact Hfields|]; by intros g (? & ? & ? & ? & ?)|].
  cbn [bind]. unfold is_unique. rewrite (bool_decide_eq_true_2 _ Hnd). cbn [negb].
  rewrite after_sort_passes. unfold after_sort, merge_pts, melt. cbv zeta.
  cbn [bind table_columns table_rows].
  destruct (pts store) as [p|] eqn:Hp;
    [destruct (select_fields_is_Ok (pts_columns p) gl) as [pg ->]; [apply Hpts; by left|]|];
    cbn [bind table_columns table_rows];
    (destruct (pts_rest store) as [p'|] eqn:Hp';
     [destruct (select_fields_is_Ok (pts_columns p') gl) as [pr ->]; [apply Hpts; by right|]|]);
    cbn [bind table_columns table_rows]; by eexists.
Qed.

End ReshaperRows.


Lemma rank_genes_groups_df_symbols_witness :
  ∃ t symbols,
    rank_genes_groups_df Z.ltb ex_de (GroupStr "B") "rank_genes_groups"
      None None None (Some "symbol") = Ok t
    ∧ df_getitem (var ex_de) "symbol" = Ok symbols
    ∧ ∀ r, r ∈ table_rows t →
        match row_symbol r with
        | Some c => ∃ n, row_names r = Some n ∧ (n, c) ∈ zip (index (var ex_de)) symbols
        | None => ∀ n c, row_names r = Some n → (n, c) ∉ zip (index (var ex_de)) symbols
        end.
Proof.
  eexists.
  match goal with
  | |- ∃ symbols, rank_genes_groups_df _ _ _ _ _ _ _ _ = Ok ?t ∧ _ =>
      assert (rank_genes_groups_df Z.ltb ex_de (GroupStr "B") "rank_genes_groups"
                None None None (Some "symbol") = Ok t) as H
  end.
  - vm_compute. reflexivity.
  - destruct (rank_genes_groups_df_symbols Z.ltb _ _ _ _ _ _ _ _ H)
      as (symbols & Hsymbols & Hrows).
    exists symbols. split; [exact H|]. split; [exact Hsymbols|exact Hrows].
Defined.

Lemma rank_genes_groups_df_pts_witness :
  ∃ t, rank_genes_groups_df Z.ltb ex_de GroupNone "rank_genes_groups"
         None None None None = Ok t
       ∧ row_pct_nz_group <$> table_rows t = [Some 90; Some 80; Some 95; Some 70]%Z
       ∧ ∀ r, r ∈ table_rows t →
           row_pct_nz_reference r = None
           ∧ ∃ n g col j v,
               row_names r = Some n ∧ row_group r = Some g
               ∧ assoc g (pts_columns (default {| pts_index := []; pts_columns := [] |}
                                         (pts ex_rank_genes_groups))) = Some col
               ∧ col !! j = Some v ∧ row_pct_nz_group r = Some v.
Proof.
  eexists. split; [vm_compute; reflexivity|]. split; [reflexivity|].
  intros r Hr.
  match type of Hr with
  | r ∈ table_rows ?t =>
      destruct (rank_genes_groups_df_pts Z.ltb ex_de GroupNone "rank_genes_groups"
                  None None None None t) as (store & Hkey & Hrows);
        [vm_compute; reflexivity|]
  end.
  vm_compute in Hkey. injection Hkey as <-.
  destruct (Hrows r Hr) as [(n & g & col & j & v & Hn & _ & Hg & Hcol & _ & Hv & Hpct) Hrest].
  split; [exact Hrest|]. by exists n, g, col, j, v.
Defined.

Lemma rank_genes_groups_df_missing_witness :
  rank_genes_groups_df Z.ltb ex_de GroupNone "wilcoxon" None None None None
  = Raise (KeyError "wilcoxon")
  ∧ ∃ g', assoc g' (names ex_rank_genes_groups) = None
          ∧ rank_genes_groups_df Z.ltb ex_de (GroupList ["A"; "Z"]) "rank_genes_groups"
              None None None None = Raise (KeyError g').
Proof.
  destruct (rank_genes_groups_df_missing Z.ltb ex_de GroupNone "wilcoxon"
              None None None None) as [Hkey _].
  split; [apply Hkey; reflexivity|].
  destruct (rank_genes_groups_df_missing Z.ltb ex_de (GroupList ["A"; "Z"])
              "rank_genes_groups" None None None None) as [_ Hgroup].
  destruct (Hgroup ex_rank_genes_groups "Z") as (g' & _ & Hnone & Hraise).
  - reflexivity.
  - apply (bool_decide_unpack _). vm_compute. exact I.
  - reflexivity.
  - by exists g'.
Defined.

Lemma rank_genes_groups_df_is_Ok_witness :
  ∃ t, rank_genes_groups_df Z.ltb ex_de (GroupList ["B"; "A"]) "rank_genes_groups"
         (Some 5%Z) None None None = Ok t.
Proof.
  apply (rank_genes_groups_df_is_Ok Z.ltb ex_de (GroupList ["B"; "A"])
           "rank_genes_groups" (Some 5%Z) None None ex_rank_genes_groups).
  - reflexivity.
  - cbn. apply (bool_decide_unpack _). vm_compute. exact I.
  - cbn. repeat constructor; by eexists.
  - intros p [Hp|Hp]; [|done]. injection Hp as <-. cbn. repeat constructor; by eexists.
Defined.

(** ** The values of the returned tables *)

Section TableValues.
Context {num : Type}.
Implicit Types (adata : @AnnData num) (df wide : @DataFrame num) (X : @array num).
Implicit Types (m : list (list num)).

(** Column [j] of [m[:, idx]] is column [idx[j]] of [m]. *)
Lemma getitem_column_take m m' (idx : list Z) j z col :
  mapM_result (λ row, np_take row idx) m = Ok m' →
  idx !! j = Some z →
  getitem_column m' (Z.of_nat j) = Ok col →
  getitem_column m z = Ok col.
Proof.
  unfold getitem_column. rewrite !mapM_result_Ok. intros H1 Hz H2.
  apply Forall2_same_length_lookup_2.
  - rewrite (Forall2_length _ _ _ H1). by eapply Forall2_length.
  - intros i row x Hrow Hx.
    destruct (Forall2_lookup_l _ _ _ _ _ H1 Hrow) as (row' & Hrow' & Htake).
    pose proof (Forall2_lookup_lr _ _ _ _ _ _ H2 Hrow' Hx) as Hget. cbv beta in Hget.
    rewrite np_getitem_nat in Hget.
    destruct (row' !! j) as [x'|] eqn:E; [|done]. injection Hget as ->.
    unfold np_take in Htake. apply mapM_result_Ok in Htake.
    destruct (Forall2_lookup_r _ _ _ _ _ Htake E) as (z' & Hz' & Hget).
    rewrite Hz in Hz'. by injection Hz' as <-.
Qed.

(** The columns of [pd.DataFrame(matrix, columns=labels, index=idx)]. *)
Lemma DataFrame_of_column m (ls idx : list string) df j k c :
  DataFrame_of (ndarray m) ls idx = Ok df →
  columns df !! j = Some (k, c) →
  ls !! j = Some k
  ∧ length c = length idx
  ∧ ∃ col, getitem_column m (Z.of_nat j) = Ok col ∧ c = Num <$> col.
Proof.
  unfold DataFrame_of. destruct (_ && _) eqn:Hshape; [|done]. cbn [negb].
  rewrite bind_Ok. intros (cols & Hcols & [= <-]). cbn [columns].
  intros Hj. apply lookup_zip_with_Some in Hj as (k' & c' & [= <- <-] & Hk & Hc).
  rewrite list_lookup_fmap in Hc.
  destruct (cols !! j) as [col|] eqn:Hcol; [|done]. injection Hc as <-.
  split; [done|]. apply mapM_result_Ok in Hcols.
  destruct (Forall2_lookup_r _ _ _ _ _ Hcols Hcol) as (z & Hz & Hget).
  rewrite list_lookup_fmap in Hz.
  destruct (seq 0 (length ls) !! j) as [j'|] eqn:Hseq; [|done].
  apply lookup_seq in Hseq as [-> _]. injection Hz as <-.
  split; [|by exists col].
  rewrite length_fmap. apply mapM_result_length in Hget. rewrite Hget.
  apply andb_prop in Hshape as [Hlen _]. by apply Nat.eqb_eq.
Qed.

(** The values of the Series [gene_names] are the feature names searched. *)
Lemma obs_df_gene_names_values adata layer gene_symbols use_raw gn :
  obs_df_gene_names adata layer gene_symbols use_raw = Ok gn →
  gn.*2 = searched_var_names adata use_raw.
Proof.
  assert (∀ (values : list string) (idx : list (@cell num)) gn,
            Series values idx = Ok gn → gn.*2 = values) as HS.
  { intros values idx gn'. unfold Series.
    destruct (length values =? length idx) eqn:E; [|done]. intros [= <-].
    apply Nat.eqb_eq in E. apply snd_zip. lia. }
  unfold obs_df_gene_names, searched_var_names, get_raw. destruct use_raw.
  - rewrite bind_Ok. intros (_ & _ & H). destruct (raw adata) as [r|]; [|done].
    cbn [bind] in H. destruct gene_symbols as [gs|]; [|by eapply HS].
    apply bind_Ok in H as (idx & _ & H). by eapply HS.
  - destruct gene_symbols as [gs|]; [|by eapply HS].
    rewrite bind_Ok. intros (idx & _ & H). by eapply HS.
Qed.

(** The column that the table before [df[keys]] holds for a key that is not
    a column of [adata.obs]. *)
Lemma obs_df_wide_gene_column adata ks layer gene_symbols use_raw wide k :
  obs_df_wide adata ks layer gene_symbols use_raw = Ok wide →
  NoDup ks → k ∈ ks → k ∉ labels (obs adata) →
  ∃ gn X name pos col,
    obs_df_gene_names adata layer gene_symbols use_raw = Ok gn
    ∧ series_getitem gn k = [name]
    ∧ _get_obs_rep adata (PyBool use_raw) layer None None = Ok X
    ∧ searched_var_names adata use_raw !! pos = Some name
    ∧ getitem_column (array_rows X) (Z.of_nat pos) = Ok col
    ∧ length col = length (index (obs adata))
    ∧ columns_labelled wide k = [(k, Num <$> col)].
Proof.
  unfold obs_df_wide. rewrite bind_Ok. intros (gn & Hgn & H) Hnd Hk Hobs. revert H.
  destruct (negb (is_unique (labels (obs adata)))); [done|].
  destruct (negb (is_unique (var_names adata))); [done|].
  destruct (first_key_error (labels (obs adata)) gn gene_symbols ks)
    as [Hok|(ks1 & k' & ks2 & e & -> & H1 & Hk')];
    [|by rewrite (obs_df_loop_Raise _ _ _ _ _ _ _ e)].
  rewrite obs_df_loop_Ok by done. cbn [bind loop_result app].
  set (o := filter (is_obs_key (labels (obs adata))) ks).
  set (s := filter (is_var_key (labels (obs adata)) gn) ks).
  set (n := filter (is_unresolved (labels (obs adata)) gn) ks).
  destruct (0 <? length n) eqn:Hn; [done|]. apply length_zero_nil in Hn.
  assert (series_has gn k = true) as Hhas.
  { assert (k ∉ n) as Hkn by (rewrite Hn; apply not_elem_of_nil).
    unfold n in Hkn. rewrite list_elem_of_filter in Hkn.
    unfold is_unresolved, label_in in Hkn.
    rewrite (bool_decide_eq_false_2 _ Hobs) in Hkn.
    destruct (series_has gn k); [done|]. by destruct Hkn. }
  assert (k ∈ s) as Hks.
  { apply list_elem_of_filter. split; [|done]. unfold is_var_key, label_in.
    by rewrite (bool_decide_eq_false_2 _ Hobs), Hhas. }
  assert (∃ name, series_getitem gn k = [name]) as [name Hname].
  { rewrite Forall_forall in Hok. specialize (Hok k Hk).
    unfold key_error, label_in in Hok.
    rewrite (bool_decide_eq_false_2 _ Hobs), Hhas in Hok.
    destruct (series_getitem gn k) as [|name [|]]; [done| |done]. by exists name. }
  assert (var_name_of gn k = name) as Hvn by (unfold var_name_of; by rewrite Hname).
  set (v := var_name_of gn <$> s).
  assert ((0 <? length v) = true) as Hv.
  { unfold v. rewrite length_fmap. destruct s; [by apply elem_of_nil in Hks|done]. }
  rewrite Hv. rewrite bind_Ok. intros (df1 & Hdf1 & Hwide).
  apply bind_Ok in Hdf1 as (X & HX & Hdf1).
  apply bind_Ok in Hdf1 as (var_idx & Hidx & Hdf1).
  apply bind_Ok in Hdf1 as (matrix & Hm & Hdf1).
  apply bind_Ok in Hdf1 as (values & Hvalues & [= <-]).
  set (names := searched_var_names adata use_raw).
  assert (var_idx = (λ label, index_of names label 0%Z) <$> v) as ->.
  { unfold names, searched_var_names, get_raw, get_indexer in *.
    destruct use_raw.
    - destruct (raw adata) as [r|]; [|done]. cbn [bind] in Hidx.
      destruct (is_unique (raw_var_names r)); [|done]. by injection Hidx as <-.
    - destruct (is_unique (var_names adata)); [|done]. by injection Hidx as <-. }
  assert (name ∈ names) as Hin.
  { unfold names. rewrite <-(obs_df_gene_names_values _ _ _ _ _ Hgn).
    assert (name ∈ series_getitem gn k) as Hin by (rewrite Hname; by left).
    unfold series_getitem in Hin.
    apply list_elem_of_fmap in Hin as (e & -> & He%list_elem_of_filter).
    apply list_elem_of_fmap. exists e. by destruct He. }
  destruct (index_of_lookup names name 0%Z Hin) as (pos & Hpos & Hlook).
  rewrite Z.add_0_l in Hpos.
  assert (∃ m', mapM_result (λ row, np_take row ((λ label, index_of names label 0%Z) <$> v))
                  (array_rows X) = Ok m'
                ∧ (if issparse matrix then toarray matrix else matrix) = ndarray m')
    as (m' & Htake & Hmat).
  { destruct X as [m|m|cols]; cbn in Hm; [| |done];
      apply bind_Ok in Hm as (m' & Hm' & [= <-]); by exists m'. }
  rewrite Hmat in Hvalues.
  assert (NoDup s) as Hnds by (by apply NoDup_filter).
  pose proof (DataFrame_of_Ok _ _ _ _ Hvalues) as [_ Hlabels].
  destruct (filter_label_NoDup (columns values) k) as [[Hnot _]|(c & Hc & Hf)].
  { change ((columns values).*1) with (labels values). by rewrite Hlabels. }
  { destruct Hnot. change (fst <$> columns values) with (labels values).
    by rewrite Hlabels. }
  apply list_elem_of_lookup in Hc as [j Hj].
  destruct (DataFrame_of_column _ _ _ _ _ _ _ Hvalues Hj) as (Hsj & Hlen & col & Hcol & ->).
  assert (((λ label, index_of names label 0%Z) <$> v) !! j = Some (Z.of_nat pos)) as Hvj.
  { unfold v. by rewrite !list_lookup_fmap, Hsj; cbn; rewrite Hvn, Hpos. }
  pose proof (getitem_column_take _ _ _ _ _ _ Htake Hvj Hcol) as Hcol'.
  exists gn, X, name, pos, col.
  split; [done|]. split; [done|]. split; [done|]. split; [done|]. split; [done|].
  split; [by rewrite length_fmap in Hlen|].
  destruct (0 <? length o).
  - apply bind_Ok in Hwide as (values' & Hv' & [= <-]).
    unfold columns_labelled, concat_axis1. cbn. rewrite filter_app, Hf.
    rewrite (filter_nil_intro _ (columns values')); [done|].
    intros e He Heq. apply (df_getitem_list_label _ _ _ _ Hv') in He.
    rewrite Heq in He. apply list_elem_of_filter in He as [Hobs' _].
    unfold is_obs_key, label_in in Hobs'. by apply bool_decide_unpack in Hobs'.
  - injection Hwide as <-. unfold columns_labelled, concat_axis1. by cbn.
Qed.

(** The column that the table before [df[keys]] holds for a key that is a
    column of [adata.obs]. *)
Lemma obs_df_wide_obs_column adata ks layer gene_symbols use_raw wide k :
  obs_df_wide adata ks layer gene_symbols use_raw = Ok wide →
  NoDup ks → k ∈ ks → k ∈ labels (obs adata) →
  columns_labelled wide k = [(k, column_of (obs adata) k)].
Proof.
  intros H Hnd Hk Hobs.
  destruct (obs_df_wide_Ok _ _ _ _ _ _ H Hnd) as (_ & Hndw & Hlabels).
  destruct (columns_labelled_NoDup wide k Hndw) as [[Hnot _]|Heq];
    [destruct Hnot; by apply Hlabels|].
  rewrite Heq. do 2 f_equal.
  assert ((k, column_of wide k) ∈ columns_labelled wide k) as Hin
    by (rewrite Heq; by left).
  clear Heq Hlabels Hndw. revert H Hin.
  unfold obs_df_wide. rewrite bind_Ok. intros (gn & Hgn & H). revert H.
  destruct (is_unique (labels (obs adata))) eqn:Hu; [|done]. cbn [negb].
  apply bool_decide_eq_true in Hu.
  destruct (negb (is_unique (var_names adata))); [done|].
  destruct (first_key_error (labels (obs adata)) gn gene_symbols ks)
    as [Hok|(ks1 & k' & ks2 & e & -> & H1 & Hk')];
    [|by rewrite (obs_df_loop_Raise _ _ _ _ _ _ _ e)].
  rewrite obs_df_loop_Ok by done. cbn [bind loop_result app].
  set (o := filter (is_obs_key (labels (obs adata))) ks).
  set (s := filter (is_var_key (labels (obs adata)) gn) ks).
  destruct (0 <? length _); [done|].
  rewrite bind_Ok. intros (df1 & Hdf1 & Hwide).
  assert (labels df1 = s) as Hl1.
  { destruct (0 <? length _) eqn:Hv.
    - apply bind_Ok in Hdf1 as (X & _ & Hdf1).
      apply bind_Ok in Hdf1 as (var_idx & _ & Hdf1).
      apply bind_Ok in Hdf1 as (matrix & _ & Hdf1).
      apply bind_Ok in Hdf1 as (values & Hvalues & [= <-]).
      by apply DataFrame_of_Ok in Hvalues as [_ Hl].
    - injection Hdf1 as <-. apply length_zero_nil in Hv.
      apply fmap_nil_inv in Hv. by rewrite Hv. }
  assert (∀ c, (k, c) ∉ columns df1) as Hnot1.
  { intros c Hc.
    assert (k ∈ s) as Hks.
    { rewrite <-Hl1. apply list_elem_of_fmap. by exists (k, c). }
    apply list_elem_of_filter in Hks as [Hvar _]. unfold is_var_key, label_in in Hvar.
    by rewrite (bool_decide_eq_true_2 _ Hobs) in Hvar. }
  intros [_ Hin]%list_elem_of_filter.
  destruct (0 <? length o).
  - apply bind_Ok in Hwide as (values & Hvalues & [= <-]).
    cbn [concat_axis1 columns] in Hin. apply elem_of_app in Hin as [Hin|Hin];
      [by apply Hnot1 in Hin|].
    apply df_getitem_list_NoDup in Hvalues as (_ & Hcols & _); [|done].
    rewrite Hcols in Hin. apply list_elem_of_fmap in Hin as (k' & Heq & _).
    by injection Heq as <- ->.
  - injection Hwide as <-. by apply Hnot1 in Hin.
Qed.

Lemma columns_labelled_fmap (keys : list string) (c : string → list (@cell num)) k :
  k ∈ keys →
  filter (λ e : string * list (@cell num), e.1 = k) ((λ k, (k, c k)) <$> keys) ≠ []
  ∧ ∀ e, e ∈ filter (λ e : string * list (@cell num), e.1 = k) ((λ k, (k, c k)) <$> keys)
         → e = (k, c k).
Proof.
  intros Hk. split.
  - intros Hnil. eapply (filter_nil_not_elem_of _ _ (k, c k)); [exact Hnil|done|].
    apply list_elem_of_fmap. by exists k.
  - intros e [He Hin]%list_elem_of_filter.
    apply list_elem_of_fmap in Hin as (k' & -> & _). cbn in He. by subst k'.
Qed.

Lemma column_of_singleton wide k c : columns_labelled wide k = [(k, c)] → column_of wide k = c.
Proof. unfold column_of. by intros ->. Qed.

Lemma foldM_add_block_column_index blocks df l df' :
  foldM (add_block_column blocks) df l = Ok df' → index df' = index df.
Proof.
  revert df. induction l as [|x l IH]; intros df Hfold; cbn in Hfold;
    [by injection Hfold as <-|].
  apply bind_Ok in Hfold as (df1 & Hdf1 & Hfold).
  rewrite add_block_column_eq in Hdf1. apply bind_Ok in Hdf1 as (col & _ & Hset).
  apply df_setitem_Ok in Hset as (Hi & _ & _). rewrite (IH _ Hfold). done.
Qed.

(** A column of the table returned by [obs_df] that no block column
    overwrites is the column of the table before [df[keys]]. *)
Lemma obs_df_key_column adata keys obsm_keys layer gene_symbols use_raw df k :
  obs_df adata keys obsm_keys layer gene_symbols use_raw = Ok df →
  k ∈ keys →
  Forall (λ x, block_label x ≠ k) obsm_keys →
  ∃ wide,
    obs_df_wide adata (np_unique keys) layer gene_symbols use_raw = Ok wide
    ∧ index df = index (obs adata)
    ∧ columns_labelled df k ≠ []
    ∧ ∀ e, e ∈ columns_labelled df k → e = (k, column_of wide k).
Proof.
  intros H Hk Hblocks.
  apply obs_df_Ok in H as (wide & df0 & Hwide & _ & Hidx & Hcols & Hfold).
  exists wide. split; [done|].
  rewrite (foldM_add_block_column_other _ _ _ _ _ Hfold Hblocks).
  split; [by rewrite (foldM_add_block_column_index _ _ _ _ Hfold)|].
  unfold columns_labelled. rewrite Hcols.
  by apply (columns_labelled_fmap keys (column_of wide)).
Qed.

(** X10. The column of [obs_df] for a key that is not a column of [adata.obs]:
    the key labels one feature name in the Series [gene_names] (itself,
    without [gene_symbols]), and every column the table holds for the key is
    the column of the selected matrix at the position of that name, one
    entry per observation. *)
Theorem obs_df_gene_column adata keys obsm_keys layer gene_symbols use_raw df k :
  obs_df adata keys obsm_keys layer gene_symbols use_raw = Ok df →
  k ∈ keys → k ∉ labels (obs adata) →
  Forall (λ x, block_label x ≠ k) obsm_keys →
  ∃ gn X name pos col,
    obs_df_gene_names adata layer gene_symbols use_raw = Ok gn
    ∧ series_getitem gn k = [name]
    ∧ (gene_symbols = None → name = k)
    ∧ _get_obs_rep adata (PyBool use_raw) layer None None = Ok X
    ∧ searched_var_names adata use_raw !! pos = Some name
    ∧ getitem_column (array_rows X) (Z.of_nat pos) = Ok col
    ∧ length col = length (index df)
    ∧ columns_labelled df k ≠ []
    ∧ ∀ e, e ∈ columns_labelled df k → e = (k, Num <$> col).
Proof.
  intros H Hk Hobs Hblocks.
  destruct (obs_df_key_column _ _ _ _ _ _ _ _ H Hk Hblocks)
    as (wide & Hwide & Hidx & Hne & Hall).
  destruct (obs_df_wide_gene_column _ _ _ _ _ _ k Hwide)
    as (gn & X & name & pos & col & Hgn & Hname & HX & Hpos & Hcol & Hlen & Hcols);
    [apply NoDup_np_unique|by apply elem_of_np_unique|done|].
  exists gn, X, name, pos, col.
  split; [done|]. split; [done|]. split.
  { intros ->. apply obs_df_gene_names_None in Hgn. rewrite Hgn in Hname.
    rewrite series_getitem_zip in Hname.
    assert (name ∈ filter (λ n, n = k) (searched_var_names adata use_raw)) as Hin
      by (rewrite Hname; by left).
    by apply list_elem_of_filter in Hin as [-> _]. }
  split; [done|]. split; [done|]. split; [done|]. split; [congruence|].
  split; [done|]. intros e He. rewrite (Hall e He).
  by rewrite (column_of_singleton _ _ _ Hcols).
Qed.

(** X11. The column of [obs_df] for a key that is a column of [adata.obs]: every
    column the table holds for the key is that column of [adata.obs],
    whatever the matrix holds. *)
Theorem obs_df_obs_column adata keys obsm_keys layer gene_symbols use_raw df k :
  obs_df adata keys obsm_keys layer gene_symbols use_raw = Ok df →
  k ∈ keys → k ∈ labels (obs adata) →
  Forall (λ x, block_label x ≠ k) obsm_keys →
  columns_labelled (obs adata) k = [(k, column_of (obs adata) k)]
  ∧ columns_labelled df k ≠ []
  ∧ ∀ e, e ∈ columns_labelled df k → e = (k, column_of (obs adata) k).
Proof.
  intros H Hk Hobs Hblocks.
  destruct (obs_df_key_column _ _ _ _ _ _ _ _ H Hk Hblocks)
    as (wide & Hwide & Hidx & Hne & Hall).
  pose proof (obs_df_wide_obs_column _ _ _ _ _ _ k Hwide (NoDup_np_unique _)
                (proj2 (elem_of_np_unique _ _) Hk) Hobs) as Hcols.
  split; [|split; [done|]].
  - revert Hwide. unfold obs_df_wide. rewrite bind_Ok. intros (gn & _ & Hw). revert Hw.
    destruct (is_unique (labels (obs adata))) eqn:Hu; [|done].
    apply bool_decide_eq_true in Hu. intros _.
    destruct (columns_labelled_NoDup (obs adata) k Hu) as [[Hnot _]|Heq]; done.
  - intros e He. rewrite (Hall e He). by rewrite (column_of_singleton _ _ _ Hcols).
Qed.

(** *** Block columns *)






(** *** Keys that are all columns of [adata.obs] *)

Lemma filter_all {A} (P : A → Prop) `{∀ x, Decision (P x)} (l : list A) :
  (∀ x, x ∈ l → P x) → filter P l = l.
Proof.
  induction l as [|x l IH]; intros Hl; [done|].
  rewrite filter_cons_True by (apply Hl; by left).
  rewrite IH; [done|]. intros y Hy. apply Hl. by right.
Qed.

Lemma fmap_ext_elem_of {A B} (f g : A → B) (l : list A) :
  (∀ x, x ∈ l → f x = g x) → f <$> l = g <$> l.
Proof.
  induction l as [|x l IH]; intros Hl; [done|].
  rewrite !fmap_cons, (Hl x) by left. rewrite IH; [done|].
  intros y Hy. apply Hl. by right.
Qed.

Lemma df_getitem_list_eq wide keys :
  NoDup (labels wide) →
  Forall (λ k, k ∈ labels wide) keys →
  df_getitem_list wide keys
  = Ok {| index := index wide; columns := (λ k, (k, column_of wide k)) <$> keys |}.
Proof.
  intros Hnd Hk. destruct (df_getitem_list_is_Ok wide keys Hnd Hk) as [df Hdf].
  rewrite Hdf. destruct (df_getitem_list_NoDup _ _ _ Hnd Hdf) as (Hi & Hc & _).
  destruct df as [i c]. cbn in *. by subst.
Qed.

Lemma column_of_fmap (idx ks : list string) (c : string → list (@cell num)) k :
  k ∈ ks →
  column_of {| index := idx; columns := (λ k, (k, c k)) <$> ks |} k = c k.
Proof.
  intros Hk. unfold column_of, columns_labelled. cbn [columns].
  destruct (columns_labelled_fmap ks c k Hk) as [Hne Hall].
  destruct (filter _ _) as [|e l]; [done|]. by rewrite (Hall e) by left.
Qed.

(** X14. Keys that are all columns of [adata.obs] (and label no feature): the
    table holds these columns of [adata.obs], in the requested order with
    their repeats; the matrix and the layer are not looked at.  No key at
    all gives the table without columns. *)
Theorem obs_df_obs_keys adata keys layer gene_symbols use_raw gn :
  obs_df_gene_names adata layer gene_symbols use_raw = Ok gn →
  NoDup (labels (obs adata)) →
  NoDup (var_names adata) →
  Forall (λ k, k ∈ labels (obs adata) ∧ series_has gn k = false) keys →
  obs_df adata keys [] layer gene_symbols use_raw
  = Ok {| index := index (obs adata);
          columns := (λ k, (k, column_of (obs adata) k)) <$> keys |}.
Proof.
  intros Hgn Hobs Hvar Hkeys. rewrite obs_df_unfold.
  rewrite Forall_forall in Hkeys.
  assert (obs_df_wide adata (np_unique keys) layer gene_symbols use_raw
          = Ok {| index := index (obs adata);
                  columns := (λ k, (k, column_of (obs adata) k)) <$> np_unique keys |})
    as ->.
  { unfold obs_df_wide. rewrite Hgn. cbn [bind]. unfold is_unique.
    rewrite !bool_decide_eq_true_2 by done. cbn [negb].
    rewrite obs_df_loop_Ok.
    2:{ apply Forall_forall. intros k Hk. rewrite elem_of_np_unique in Hk.
        destruct (Hkeys k Hk) as [Hin Hhas]. unfold key_error, label_in.
        by rewrite (bool_decide_eq_true_2 _ Hin), Hhas. }
    cbn [bind loop_result app].
    rewrite (filter_all (is_obs_key (labels (obs adata)))).
    2:{ intros k Hk. rewrite elem_of_np_unique in Hk. destruct (Hkeys k Hk) as [Hin _].
        unfold is_obs_key, label_in. by apply bool_decide_pack. }
    rewrite (filter_nil_intro (is_var_key (labels (obs adata)) gn)).
    2:{ intros k Hk. rewrite elem_of_np_unique in Hk. destruct (Hkeys k Hk) as [Hin _].
        unfold is_var_key, label_in. rewrite (bool_decide_eq_true_2 _ Hin). cbn. tauto. }
    rewrite (filter_nil_intro (is_unresolved (labels (obs adata)) gn)).
    2:{ intros k Hk. rewrite elem_of_np_unique in Hk. destruct (Hkeys k Hk) as [Hin _].
        unfold is_unresolved, label_in. rewrite (bool_decide_eq_true_2 _ Hin). cbn. tauto. }
    cbn [fmap list_fmap length]. change (0 <? 0) with false. cbn [bind].
    destruct (0 <? length (np_unique keys)) eqn:E.
    - rewrite df_getitem_list_eq; [by cbn|done|].
      apply Forall_forall. intros k Hk. rewrite elem_of_np_unique in Hk. by destruct (Hkeys k Hk).
    - apply length_zero_nil in E. by rewrite E. }
  cbn [bind]. rewrite df_getitem_list_eq.
  - cbn [bind foldM index columns]. do 2 f_equal. apply fmap_ext_elem_of.
    intros k Hk. f_equal. apply column_of_fmap. by apply elem_of_np_unique.
  - unfold labels. cbn [columns]. rewrite <-list_fmap_compose.
    rewrite (fmap_ext_elem_of _ id); [|done]. rewrite list_fmap_id. apply NoDup_np_unique.
  - apply Forall_forall. intros k Hk. unfold labels. cbn [columns].
    rewrite <-list_fmap_compose. rewrite (fmap_ext_elem_of _ id); [|done].
    rewrite list_fmap_id. by apply elem_of_np_unique.
Qed.

(** X15. The arguments are looked at first: [use_raw] together with a layer is
    refused, [use_raw] on a container without [raw] fails on the attribute,
    and a symbol column that [adata.var] does not have is a [KeyError];
    neither the keys nor the uniqueness of the names are looked at before. *)
Theorem obs_df_argument_errors adata keys obsm_keys layer gene_symbols :
  (layer ≠ None →
   obs_df adata keys obsm_keys layer gene_symbols true
   = Raise (AssertionError "Cannot specify use_raw=True and a layer at the same time."))
  ∧ (layer = None → raw adata = None →
     obs_df adata keys obsm_keys layer gene_symbols true
     = Raise (AttributeError "var_names"))
  ∧ (∀ gs, gene_symbols = Some gs → gs ∉ labels (var adata) →
           obs_df adata keys obsm_keys layer gene_symbols false = Raise (KeyError gs)).
Proof.
  unfold obs_df, obs_df_gene_names, get_raw. split; [|split].
  - intros Hl. by rewrite (bool_decide_eq_false_2 _ Hl).
  - by intros -> ->.
  - intros gs -> Hgs. unfold df_getitem.
    assert (columns_labelled (var adata) gs = []) as ->; [|done].
    destruct (columns_labelled (var adata) gs) as [|e l] eqn:E; [done|].
    destruct Hgs.
    assert (label_in gs (labels (var adata))) as Hin
      by (apply label_in_columns_labelled; by rewrite E).
    unfold label_in in Hin. by apply bool_decide_unpack in Hin.
Qed.

(** *** When [obs_df] returns a table *)

Lemma series_has_zip (names : list string) k :
  series_has (zip (@Str num <$> names) names) k = bool_decide (k ∈ names).
Proof.
  destruct (series_has _ k) eqn:Hhas; symmetry.
  - apply series_has_getitem in Hhas. rewrite series_getitem_zip in Hhas.
    apply bool_decide_eq_true.
    destruct (filter _ names) as [|x l] eqn:E; [done|].
    assert (x ∈ filter (λ n, n = k) names) as Hx by (rewrite E; by left).
    by apply list_elem_of_filter in Hx as [-> ?].
  - apply series_has_false in Hhas. rewrite series_getitem_zip in Hhas.
    apply bool_decide_eq_false. intros Hin.
    by eapply (filter_nil_not_elem_of _ _ k Hhas).
Qed.

Lemma np_take_is_Ok {A} (a : list A) (idx : list Z) :
  Forall (λ z, ∃ pos, z = Z.of_nat pos ∧ pos < length a) idx →
  ∃ a', np_take a idx = Ok a' ∧ length a' = length idx.
Proof.
  intros Hidx. unfold np_take.
  destruct (mapM_result_is_Ok (np_getitem a) idx) as [a' Ha'].
  - intros z Hz. rewrite Forall_forall in Hidx.
    destruct (Hidx z Hz) as (pos & -> & Hpos). rewrite np_getitem_nat.
    destruct (lookup_lt_is_Some_2 a pos Hpos) as [x ->]. by eexists.
  - exists a'. split; [done|]. by eapply mapM_result_length.
Qed.

(** X16. With the default arguments: when the columns of [adata.obs] and the
    feature names are distinct, the matrix has one row per observation and
    one column per feature, and each key is a column of [adata.obs] or a
    feature name but not both, [obs_df] returns a table. *)
Theorem obs_df_is_Ok adata keys m :
  NoDup (labels (obs adata)) →
  NoDup (var_names adata) →
  X adata = ndarray m ∨ X adata = spmatrix m →
  length m = length (index (obs adata)) →
  Forall (λ row, length row = length (var_names adata)) m →
  Forall (λ key, (key ∈ labels (obs adata) ∧ key ∉ var_names adata)
                 ∨ ((key ∉ labels (obs adata)) ∧ key ∈ var_names adata)) keys →
  ∃ df, obs_df adata keys [] None None false = Ok df.
Proof.
  intros Hobs Hvar HX Hrows Hwidth Hkeys. rewrite obs_df_unfold.
  rewrite Forall_forall in Hkeys.
  set (gn := zip (@Str num <$> var_names adata) (var_names adata)).
  assert (obs_df_gene_names adata None None false = Ok gn) as Hgn.
  { unfold obs_df_gene_names, Series. by rewrite length_fmap, Nat.eqb_refl. }
  assert (∃ wide, obs_df_wide adata (np_unique keys) None None false = Ok wide)
    as [wide Hwide].
  { unfold obs_df_wide. rewrite Hgn. cbn [bind]. unfold is_unique.
    rewrite !bool_decide_eq_true_2 by done. cbn [negb].
    rewrite obs_df_loop_Ok.
    2:{ apply Forall_forall. intros k Hk. rewrite elem_of_np_unique in Hk.
        rewrite key_error_ambiguous.
        2:{ intros _. unfold gn. rewrite series_getitem_zip.
            by apply length_filter_eq_NoDup. }
        unfold ambiguous, label_in, gn. rewrite series_has_zip.
        destruct (Hkeys k Hk) as [[Hin Hnot]|[Hnot Hin]].
        - by rewrite (bool_decide_eq_true_2 _ Hin), (bool_decide_eq_false_2 _ Hnot).
        - by rewrite (bool_decide_eq_false_2 _ Hnot). }
    cbn [bind loop_result app].
    set (o := filter (is_obs_key (labels (obs adata))) (np_unique keys)).
    set (s := filter (is_var_key (labels (obs adata)) gn) (np_unique keys)).
    rewrite (filter_nil_intro (is_unresolved (labels (obs adata)) gn)).
    2:{ intros k Hk. rewrite elem_of_np_unique in Hk.
        unfold is_unresolved, label_in, gn. rewrite series_has_zip.
        destruct (Hkeys k Hk) as [[Hin _]|[Hnot Hin]].
        - rewrite (bool_decide_eq_true_2 _ Hin). cbn. tauto.
        - rewrite (bool_decide_eq_false_2 _ Hnot), (bool_decide_eq_true_2 _ Hin).
          cbn. tauto. }
    change (0 <? length (@nil string)) with false. cbv iota.
    assert (∃ values, df_getitem_list (obs adata) o = Ok values) as [values Hvalues].
    { apply df_getitem_list_is_Ok; [done|]. apply Forall_forall.
      intros k [Hk _]%list_elem_of_filter. unfold is_obs_key, label_in in Hk.
      by apply bool_decide_unpack in Hk. }
    set (v := var_name_of gn <$> s).
    destruct (0 <? length v) eqn:Hv.
    2:{ cbn [bind]. destruct (0 <? length o); [rewrite Hvalues|]; by eexists. }
    change (_get_obs_rep adata (PyBool false) None None None) with (Ok (X adata)).
    cbn [bind]. unfold get_indexer, is_unique.
    rewrite (bool_decide_eq_true_2 _ Hvar). cbn [bind].
    set (idx := (λ label, index_of (var_names adata) label 0%Z) <$> v).
    assert (Forall (λ z, ∃ pos, z = Z.of_nat pos ∧ pos < length (var_names adata)) idx)
      as Hidx.
    { apply Forall_forall. intros z (name & -> & Hname)%list_elem_of_fmap.
      apply list_elem_of_fmap in Hname as (k & -> & Hk).
      assert (var_name_of gn k ∈ var_names adata) as Hin.
      { apply list_elem_of_filter in Hk as [Hvark Hk].
        rewrite elem_of_np_unique in Hk.
        unfold is_var_key, label_in, gn in Hvark. rewrite series_has_zip in Hvark.
        destruct (Hkeys k Hk) as [[Hin _]|[Hnot Hin]].
        - by rewrite (bool_decide_eq_true_2 _ Hin) in Hvark.
        - unfold var_name_of, gn. rewrite series_getitem_zip.
          destruct (filter _ (var_names adata)) as [|x l] eqn:E.
          + by eapply (filter_nil_not_elem_of _ _ k E) in Hin.
          + assert (x ∈ filter (λ n, n = k) (var_names adata)) as Hx
              by (rewrite E; by left).
            by apply list_elem_of_filter in Hx as [_ ?]. }
      destruct (index_of_lookup _ _ 0%Z Hin) as (pos & -> & Hpos).
      exists pos. split; [lia|]. by eapply lookup_lt_Some. }
    assert (∃ m', mapM_result (λ row, np_take row idx) m = Ok m'
                  ∧ Forall (λ row', length row' = length idx) m') as (m' & Hm' & Hw').
    { assert (∀ l : list (list num),
                Forall (λ row, length row = length (var_names adata)) l →
                ∃ l', mapM_result (λ row, np_take row idx) l = Ok l'
                      ∧ Forall (λ row', length row' = length idx) l') as Haux.
      { induction 1 as [|row l Hrow _ (l' & Hl' & Hlen')]; [by exists []|].
        destruct (np_take_is_Ok row idx) as (row' & Hrow' & Hlen);
          [by rewrite Hrow|].
        exists (row' :: l'). cbn [mapM_result]. rewrite Hrow', Hl'. split; [done|].
        by constructor. }
      by apply Haux. }
    assert (∃ matrix, getitem_columns (X adata) idx = Ok matrix
                      ∧ (if issparse matrix then toarray matrix else matrix) = ndarray m')
      as (matrix & -> & Hmat).
    { destruct HX as [->| ->]; cbn; rewrite Hm'; by eexists. }
    cbn [bind]. cbv zeta. rewrite Hmat.
    assert (length idx = length s) as Hls by (unfold idx, v; by rewrite !length_fmap).
    assert (∃ df1, DataFrame_of (ndarray m') s (index (obs adata)) = Ok df1) as [df1 ->].
    { unfold DataFrame_of.
      pose proof (mapM_result_length _ _ _ Hm') as Hlen.
      rewrite (proj2 (Nat.eqb_eq _ _)) by congruence. cbn [andb].
      rewrite (proj2 (forallb_forall _ _)).
      2:{ intros row' Hrow'%list_elem_of_In. apply Nat.eqb_eq.
          rewrite Forall_forall in Hw'. rewrite (Hw' _ Hrow'). done. }
      cbn [negb].
      destruct (mapM_result_is_Ok (getitem_column m') (Z.of_nat <$> seq 0 (length s)))
        as [cols ->]; [|by eexists].
      intros z (j & -> & Hj)%list_elem_of_fmap. apply elem_of_seq in Hj.
      apply mapM_result_is_Ok. intros row' Hrow'. rewrite np_getitem_nat.
      rewrite Forall_forall in Hw'.
      destruct (lookup_lt_is_Some_2 row' j) as [x ->]; [|by eexists].
      rewrite (Hw' _ Hrow'). lia. }
    cbn [bind]. destruct (0 <? length o); [rewrite Hvalues|]; by eexists. }
  rewrite Hwide. cbn [bind].
  destruct (obs_df_wide_Ok _ _ _ _ _ _ Hwide (NoDup_np_unique _)) as (_ & Hnd & Hlabels).
  destruct (df_getitem_list_is_Ok wide keys Hnd) as [df ->]; [|by eexists].
  apply Forall_forall. intros k Hk. apply Hlabels. by apply elem_of_np_unique.
Qed.

(** *** [var_df]: the columns *)

Lemma df_getitem_list_labelled_iff wide keys df k e :
  df_getitem_list wide keys = Ok df → k ∈ keys →
  e ∈ columns_labelled df k ↔ e ∈ columns_labelled wide k.
Proof.
  intros Hdf Hk. split; [by apply (df_getitem_list_labelled _ _ _ _ _ Hdf)|].
  intros He. apply df_getitem_list_Ok in Hdf as (_ & Hcols & _).
  pose proof He as [Hek _]%list_elem_of_filter.
  apply list_elem_of_filter. split; [done|]. rewrite Hcols.
  apply elem_of_concat. exists (columns_labelled wide k). split; [done|].
  apply list_elem_of_fmap. by exists k.
Qed.

Lemma concat_fmap_if {A} (v : list string) k (L : list A) :
  NoDup v → k ∈ v →
  concat ((λ k', if decide (k' = k) then L else []) <$> v) = L.
Proof.
  induction 1 as [|x v Hx Hnd IH]; [by intros ?%elem_of_nil|].
  rewrite fmap_cons. cbn [concat]. intros Hk.
  destruct (decide (x = k)) as [->|Hne].
  - assert (concat ((λ k', if decide (k' = k) then L else []) <$> v) = []) as ->;
      [|by rewrite app_nil_r].
    clear IH Hnd Hk. induction v as [|y v IH]; [done|].
    rewrite fmap_cons. cbn [concat].
    apply not_elem_of_cons in Hx as [Hy Hx].
    rewrite decide_False by done. by apply IH.
  - apply elem_of_cons in Hk as [->|Hk]; [done|]. by apply IH.
Qed.

(** The table before [df[keys]]: its index, its labels, and the columns it
    holds for a key that is not an observation name. *)
Lemma var_df_wide_Ok adata ks layer wide :
  var_df_wide adata ks layer = Ok wide →
  NoDup ks →
  index wide = index (var adata)
  ∧ (NoDup (labels (var adata)) → NoDup (labels wide))
  ∧ ∀ k, k ∈ ks → k ∉ obs_names adata →
         columns_labelled wide k = columns_labelled (var adata) k.
Proof.
  intros H Hnd. unfold var_df_wide in H. rewrite var_df_loop in H. cbn [app] in H.
  set (o := filter (is_obs_name adata) ks) in *.
  set (v := filter (is_var_column adata) ks) in *.
  set (n := filter (is_missing adata) ks) in *.
  destruct (0 <? length n) eqn:Hn; [done|]. apply length_zero_nil in Hn.
  apply bind_Ok in H as (df1 & Hdf1 & Hwide).
  assert (index df1 = index (var adata) ∧ labels df1 = o) as [Hi1 Hl1].
  { destruct (0 <? length o) eqn:Ho.
    - apply bind_Ok in Hdf1 as (X & HX & Hdf1).
      apply bind_Ok in Hdf1 as (obs_idx & Hidx & Hdf1).
      apply bind_Ok in Hdf1 as (matrix & Hm & Hdf1).
      apply bind_Ok in Hdf1 as (values & Hvalues & [= <-]).
      assert (∃ m', (if issparse matrix then toarray matrix else matrix) = ndarray m')
        as [m' Hmat].
      { destruct (if issparse matrix then toarray matrix else matrix) as [m'| |] eqn:E;
          [by exists m'|done..]. }
      rewrite Hmat in Hvalues. apply DataFrame_of_T_Ok in Hvalues as (Hi & Hcols & Hlen).
      split; [done|]. unfold labels, concat_axis1. cbn [columns app]. rewrite Hcols.
      apply fst_zip. by rewrite length_fmap, Hlen.
    - injection Hdf1 as <-. split; [done|]. apply length_zero_nil in Ho. by rewrite Ho. }
  assert (∀ k, k ∉ obs_names adata → filter (λ e, e.1 = k) (columns df1) = []) as Hnot1.
  { intros k Hk. apply filter_nil_intro. intros e He Heq.
    assert (k ∈ o) as Hko.
    { rewrite <-Hl1, <-Heq. apply list_elem_of_fmap. by exists e. }
    apply list_elem_of_filter in Hko as [Hobs _].
    unfold is_obs_name, label_in in Hobs. by apply bool_decide_unpack in Hobs. }
  assert (∀ k, k ∈ ks → k ∉ obs_names adata → k ∈ v) as Hkv.
  { intros k Hk Hobs. apply list_elem_of_filter. split; [|done].
    assert (k ∉ n) as Hkn by (rewrite Hn; apply not_elem_of_nil).
    unfold n in Hkn. rewrite list_elem_of_filter in Hkn.
    unfold is_var_column, is_missing, label_in in *.
    rewrite (bool_decide_eq_false_2 _ Hobs) in *. cbn in *.
    destruct (bool_decide (k ∈ labels (var adata))); [done|]. by destruct Hkn. }
  assert (NoDup v) as Hndv by (by apply NoDup_filter).
  destruct (0 <? length v) eqn:Hv.
  - apply bind_Ok in Hwide as (values & Hvalues & [= <-]).
    split; [done|]. split.
    + intros Hvar. apply df_getitem_list_NoDup in Hvalues as (_ & Hcols & _); [|done].
      unfold labels, concat_axis1. cbn [columns]. rewrite fmap_app.
      change ((columns df1).*1) with (labels df1). rewrite Hl1, Hcols.
      rewrite <-list_fmap_compose, (fmap_ext_elem_of _ id), list_fmap_id by done.
      apply NoDup_app. split; [by apply NoDup_filter|]. split; [|done].
      intros k [Ho _]%list_elem_of_filter [Hvk _]%list_elem_of_filter.
      unfold is_obs_name, is_var_column in *. by destruct (label_in k (obs_names adata)).
    + intros k Hk Hobs. unfold columns_labelled at 1, concat_axis1. cbn [columns].
      rewrite filter_app, (Hnot1 k Hobs). cbn [app].
      apply df_getitem_list_Ok in Hvalues as (_ & Hcols & _). rewrite Hcols.
      rewrite filter_concat, <-list_fmap_compose.
      rewrite (fmap_ext_elem_of _ (λ k', if decide (k' = k)
                                         then columns_labelled (var adata) k else [])).
      2:{ intros k' _. apply columns_labelled_idemp. }
      apply concat_fmap_if; [done|]. by apply Hkv.
  - injection Hwide as <-. split; [done|]. apply length_zero_nil in Hv. split.
    + intros _. rewrite Hl1. by apply NoDup_filter.
    + intros k Hk Hobs. apply Hkv in Hk; [|done]. rewrite Hv in Hk.
      by apply elem_of_nil in Hk.
Qed.

(** X17. When the columns of [adata.var] are distinct and the requested block
    columns are distinct from each other and from the keys, the table of
    [var_df] is indexed like [adata.var] and its columns are the requested
    keys, in the requested order with their repeats, followed by one column
    per block pair in call order. *)
Theorem var_df_columns adata keys varm_keys layer df :
  var_df adata keys varm_keys layer = Ok df →
  NoDup (labels (var adata)) →
  NoDup (block_label <$> varm_keys) →
  Forall (λ x, block_label x ∉ keys) varm_keys →
  index df = index (var adata)
  ∧ labels df = keys ++ (block_label <$> varm_keys).
Proof.
  rewrite var_df_unfold. intros H Hvar Hnd Hfresh.
  apply bind_Ok in H as (wide & Hwide & H). apply bind_Ok in H as (df0 & Hdf0 & Hfold).
  destruct (var_df_wide_Ok _ _ _ _ Hwide (NoDup_np_unique _)) as (Hidx & Hndw & _).
  apply df_getitem_list_NoDup in Hdf0 as (Hidx0 & Hcols & _); [|by apply Hndw].
  assert (labels df0 = keys) as Hl0.
  { unfold labels. rewrite Hcols, <-list_fmap_compose. apply list_fmap_id. }
  apply foldM_add_block_column_fresh in Hfold as (Hidx' & cols & Hcols' & Hl); [|done|].
  - split; [congruence|]. unfold labels in *. by rewrite Hcols', fmap_app, Hl0, Hl.
  - rewrite Hl0. by apply Forall_forall.
Qed.

(** X18. The columns of [var_df] for a key that is not an observation name: the
    key is a column name of [adata.var], and the table holds under it the
    columns that [adata.var] holds under it, all of them when the name
    repeats. *)
Theorem var_df_var_column adata keys varm_keys layer df k :
  var_df adata keys varm_keys layer = Ok df →
  k ∈ keys → k ∉ obs_names adata →
  Forall (λ x, block_label x ≠ k) varm_keys →
  k ∈ labels (var adata)
  ∧ ∀ e, e ∈ columns_labelled df k ↔ e ∈ columns_labelled (var adata) k.
Proof.
  rewrite var_df_unfold. intros H Hk Hobs Hblocks.
  apply bind_Ok in H as (wide & Hwide & H). apply bind_Ok in H as (df0 & Hdf0 & Hfold).
  destruct (var_df_wide_Ok _ _ _ _ Hwide (NoDup_np_unique _)) as (_ & _ & Hcols).
  specialize (Hcols k (proj2 (elem_of_np_unique _ _) Hk) Hobs).
  rewrite (foldM_add_block_column_other _ _ _ _ _ Hfold Hblocks).
  split.
  - pose proof (df_getitem_list_Ok _ _ _ Hdf0) as (_ & _ & Hne).
    rewrite Forall_forall in Hne. specialize (Hne k Hk). rewrite Hcols in Hne.
    apply label_in_columns_labelled in Hne. unfold label_in in Hne.
    by apply bool_decide_unpack in Hne.
  - intros e. rewrite (df_getitem_list_labelled_iff _ _ _ _ _ Hdf0 Hk). by rewrite Hcols.
Qed.

End TableValues.

Lemma obs_df_gene_column_witness :
  obs_df ex_adata ex_keys ex_obsm_keys None None false = Ok ex_table
  ∧ ∀ e, e ∈ columns_labelled ex_table "G2" → e = ("G2", [Num 2; Num 5]%Z).
Proof.
  split; [vm_compute; reflexivity|].
  destruct (obs_df_gene_column ex_adata ex_keys ex_obsm_keys None None false ex_table "G2")
    as (gn & X & name & pos & col & _ & _ & Hnone & HX & Hpos & Hcol & _ & _ & Hall).
  - vm_compute. reflexivity.
  - apply (bool_decide_unpack _). vm_compute. exact I.
  - apply (bool_decide_unpack _). vm_compute. exact I.
  - repeat constructor; intros H; vm_compute in H; discriminate H.
  - rewrite (Hnone eq_refl) in Hpos. injection HX as <-.
    destruct pos as [|[|[|pos]]]; try discriminate Hpos.
    vm_compute in Hcol. injection Hcol as <-. exact Hall.
Defined.

Lemma obs_df_obs_column_witness :
  obs_df ex_adata ex_keys ex_obsm_keys None None false = Ok ex_table
  ∧ ∀ e, e ∈ columns_labelled ex_table "cluster" → e = ("cluster", [Str "x"; Str "y"]).
Proof.
  split; [vm_compute; reflexivity|].
  destruct (obs_df_obs_column ex_adata ex_keys ex_obsm_keys None None false ex_table
              "cluster") as (_ & _ & Hall).
  - vm_compute. reflexivity.
  - apply (bool_decide_unpack _). vm_compute. exact I.
  - apply (bool_decide_unpack _). vm_compute. exact I.
  - repeat constructor; intros H; vm_compute in H; discriminate H.
  - exact Hall.
Defined.



Lemma obs_df_obs_keys_witness :
  obs_df ex_adata ["cluster"; "cluster"] [] (Some "absent") None false
  = Ok {| index := ["c1"; "c2"];
          columns := [("cluster", [Str "x"; Str "y"]); ("cluster", [Str "x"; Str "y"])] |}.
Proof.
  apply (obs_df_obs_keys ex_adata ["cluster"; "cluster"] (Some "absent") None false
           (zip (Str <$> var_names ex_adata) (var_names ex_adata))).
  - reflexivity.
  - apply (bool_decide_unpack _). vm_compute. exact I.
  - apply (bool_decide_unpack _). vm_compute. exact I.
  - apply (bool_decide_unpack _). vm_compute. exact I.
Defined.

Lemma obs_df_argument_errors_witness :
  obs_df ex_adata ["G1"] [] (Some "counts") None true
  = Raise (AssertionError "Cannot specify use_raw=True and a layer at the same time.")
  ∧ obs_df ex_ambiguous ["G1"] [] None None true = Raise (AttributeError "var_names")
  ∧ obs_df ex_adata ["G1"] [] None (Some "alias") false = Raise (KeyError "alias").
Proof.
  split; [|split].
  - apply (obs_df_argument_errors ex_adata ["G1"] [] (Some "counts") None). discriminate.
  - apply (obs_df_argument_errors ex_ambiguous ["G1"] [] None None); reflexivity.
  - apply (obs_df_argument_errors ex_adata ["G1"] [] None (Some "alias")); [reflexivity|].
    apply (bool_decide_unpack _). vm_compute. exact I.
Defined.

Lemma obs_df_is_Ok_witness :
  ∃ df, obs_df ex_adata ex_keys [] None None false = Ok df.
Proof.
  apply (obs_df_is_Ok ex_adata ex_keys [[1; 2; 3]; [4; 5; 6]]%Z).
  - apply (bool_decide_unpack _). vm_compute. exact I.
  - apply (bool_decide_unpack _). vm_compute. exact I.
  - by left.
  - reflexivity.
  - repeat constructor.
  - apply (bool_decide_unpack _). vm_compute. exact I.
Defined.

Lemma var_df_columns_witness :
  ∃ df, var_df ex_adata ["symbol"; "c2"; "symbol"] [("PCs", 1%Z)] None = Ok df
        ∧ index df = ["G1"; "G2"; "G3"]
        ∧ labels df = ["symbol"; "c2"; "symbol"; "PCs-1"].
Proof.
  eexists. split; [vm_compute; reflexivity|].
  match goal with
  | |- index ?df = _ ∧ _ =>
      apply (var_df_columns ex_adata ["symbol"; "c2"; "symbol"] [("PCs", 1%Z)] None df)
  end.
  - vm_compute. reflexivity.
  - apply (bool_decide_unpack _). vm_compute. exact I.
  - apply (bool_decide_unpack _). vm_compute. exact I.
  - apply (bool_decide_unpack _). vm_compute. exact I.
Defined.

Lemma var_df_var_column_witness :
  ∃ df, var_df ex_both ["c1"; "symbol"] [] None = Ok df
        ∧ ∀ e, e ∈ columns_labelled df "symbol"
               ↔ e ∈ [("symbol", [Str "a"; Str "b"; Str "c"]);
                      ("symbol", [@Str Z "d"; Str "e"; Str "f"])].
Proof.
  eexists. split; [vm_compute; reflexivity|].
  match goal with
  | |- ∀ e, e ∈ columns_labelled ?df _ ↔ _ =>
      destruct (var_df_var_column ex_both ["c1"; "symbol"] [] None df "symbol")
        as [_ Hall]
  end.
  - vm_compute. reflexivity.
  - apply (bool_decide_unpack _). vm_compute. exact I.
  - apply (bool_decide_unpack _). vm_compute. exact I.
  - constructor.
  - exact Hall.
Defined.
